(** * stellar-cso: the CISO container encoder of [ciso.py]

    A shallow embedding of the encoder of [ciso.py] ([compress_iso] and the
    helpers it calls) and the properties of its container layout, and of
    the functions that write the launcher [default.xbe] beside the volumes
    ([gen_attach_xbe] and what it calls, [main]).

    Conventions.
    - Python integers are unbounded: they are [Z].
    - [bytes] values are [list byte].
    - The destination file system is a finite map from path to contents; a
      Python file object is a record (path, position, closed flag) and every
      write goes through the map, so two objects on one path share contents.
    - The source image is opened read-only; its contents are the list [src].
      The output names are [os.path.splitext(infile)[0]] followed by
      [".1.cso"] / [".2.cso"]; as [splitext] never leaves a dot inside the
      extension it removes, no output name equals [infile].
    - The LZ4 frame compressor is an external library: it is the section
      variable [compress] (one call of [compress_begin] / [compress_chunk] /
      [compress_flush] with [block_linked=False] depends on the chunk alone).
    - [/] between integers is Python 3's true division: the block count goes
      through a double, modelled exactly ([round53]).
    - Statements about whole runs assume a payload below [2^64] bytes, the
      range of the header's size field; any larger size makes [struct.pack]
      raise.
    - Console output ([print], the progress bar) is not modelled.
    - The launcher functions read the image again; an exception ends them
      (the type [py]).  [struct.unpack] raises on a short read, a seek to a
      negative position raises, and the codecs ['utf-8'] and ['utf-16-le']
      are strict: they are written out ([utf8_decode], [utf16le_decode],
      [utf16le_encode]) over strings as lists of code points.
    - What [os.path] computes from [__file__] and from the name of the
      image are parameters: the two directories and the stem of the file
      name. *)

From Stdlib Require Import ZArith List Lia.
From Stdlib Require Strings.Byte.
From stdpp Require Import base option list gmap strings.

Local Open Scope Z_scope.

(** ** Bytes and [struct.pack] *)

Abbreviation byte := Byte.byte.

#[global] Instance byte_eq_dec : EqDecision byte := Byte.byte_eq_dec.

(** Python's [len]. *)
Definition len {A} (l : list A) : Z := Z.of_nat (length l).

(** The low eight bits of an integer as a byte. *)
Definition byte_of_Z (z : Z) : byte :=
  default Byte.x00 (Byte.of_N (Z.to_N (z mod 256))).

Definition Z_of_byte (b : byte) : Z := Z.of_N (Byte.to_N b).

(** [struct.pack('<B', 0x00) * n]; a count [n <= 0] gives [b'']. *)
Definition zeros (n : Z) : list byte := replicate (Z.to_nat n) Byte.x00.

(** The [n] low bytes of [v], least significant first. *)
Fixpoint le_bytes (n : nat) (v : Z) : list byte :=
  match n with
  | O => []
  | S k => byte_of_Z v :: le_bytes k (v / 256)
  end.

(** Reading a little-endian unsigned integer back. *)
Fixpoint le_value (bs : list byte) : Z :=
  match bs with
  | [] => 0
  | b :: r => Z_of_byte b + 256 * le_value r
  end.

(** [struct.pack] of one unsigned little-endian field of [n] bytes
    (formats [B], [L]/[I], [Q]); [None] is [struct.error]. *)
Definition pack_uint (n : nat) (v : Z) : option (list byte) :=
  if decide (0 <= v < 2 ^ (8 * Z.of_nat n)) then Some (le_bytes n v) else None.

(** ** Constants of [ciso.py] *)

Definition CISO_MAGIC : Z := 0x4F534943.
Definition CISO_HEADER_SIZE : Z := 0x18.
Definition CISO_BLOCK_SIZE : Z := 0x800.
Definition CISO_PLAIN_BLOCK : Z := 0x80000000.

(** The threshold of the split test in [compress_iso]. *)
Definition SPLIT_THRESHOLD : Z := 0xFFBF6000.

(** [b"MICROSOFT*XBOX*MEDIA"] *)
Definition XBOX_MEDIA : list byte :=
  String.list_byte_of_string "MICROSOFT*XBOX*MEDIA".

(** [struct.pack(CISO_HEADER_FMT, ...)] with [CISO_HEADER_FMT = '<LLQLBBxx']. *)
Definition pack_header (magic hsize total_bytes block_size ver align : Z)
  : option (list byte) :=
  m ← pack_uint 4 magic;
  h ← pack_uint 4 hsize;
  t ← pack_uint 8 total_bytes;
  b ← pack_uint 4 block_size;
  v ← pack_uint 1 ver;
  a ← pack_uint 1 align;
  Some (m ++ h ++ t ++ b ++ v ++ a ++ [Byte.x00; Byte.x00]).

(** The 24 bytes of the header of a container of [total_bytes] source bytes,
    field by field. *)
Definition header_bytes (total_bytes : Z) : list byte :=
  le_bytes 4 CISO_MAGIC            (* magic, u32 *)
  ++ le_bytes 4 CISO_HEADER_SIZE   (* header_size, u32 *)
  ++ le_bytes 8 total_bytes        (* total_bytes, u64 *)
  ++ le_bytes 4 CISO_BLOCK_SIZE    (* block_size, u32 *)
  ++ le_bytes 1 2                  (* version, u8 *)
  ++ le_bytes 1 2                  (* align_shift, u8 *)
  ++ [Byte.x00; Byte.x00].         (* reserved *)

(** ** Python 3 true division

    [int(file_size / CISO_BLOCK_SIZE)] divides two [int]s with [/]: the
    result is the IEEE-754 double nearest to the exact quotient (ties to
    even), and [int] truncates it.  The divisor is a power of two, so the
    quotient has the significand of the dividend: the double is
    [round53 file_size / 2048] exactly. *)

(** Nearest integer with at most 53 significant bits, ties to even. *)
Definition round53 (n : Z) : Z :=
  let a := Z.abs n in
  let s := Z.log2 a + 1 - 53 in
  if decide (s <= 0) then n
  else
    let q := a / 2 ^ s in
    let r := a mod 2 ^ s in
    let half := 2 ^ (s - 1) in
    let q' := if decide (r < half) then q
              else if decide (half < r) then q + 1
              else if Z.even q then q else q + 1 in
    Z.sgn n * (q' * 2 ^ s).

(** [int(a / d)] for [d] a power of two. *)
Definition int_truediv_pow2 (a d : Z) : Z := Z.quot (round53 a) d.

(** ** Files *)

(** A Python file object opened for writing. *)
Record pyfile := PyFile {
  f_path : string;
  f_pos : Z;
  f_closed : bool;
}.

(** Contents of [path], empty when the file does not exist. *)
Definition contents (fs : gmap string (list byte)) (path : string) : list byte :=
  default [] (fs !! path).

(** Overwrite [c] at byte position [pos] with [d], extending the file when the
    write reaches past its end (a gap reads as zero bytes). *)
Definition write_at (c : list byte) (pos : Z) (d : list byte) : list byte :=
  take (Z.to_nat pos) c ++ zeros (pos - len c) ++ d
    ++ drop (Z.to_nat pos + length d) c.

(** [open(path, 'wb')]: creates the file or truncates it to length 0. *)
Definition py_open_wb (fs : gmap string (list byte)) (path : string)
  : gmap string (list byte) * pyfile :=
  (<[path := []]> fs, PyFile path 0 false).

(** [f.write(d)] *)
Definition py_write (fs : gmap string (list byte)) (f : pyfile) (d : list byte)
  : gmap string (list byte) * pyfile :=
  (<[f_path f := write_at (contents fs (f_path f)) (f_pos f) d]> fs,
   PyFile (f_path f) (f_pos f + len d) (f_closed f)).

(** [f.seek(p, os.SEEK_SET)] *)
Definition py_seek_set (f : pyfile) (p : Z) : pyfile :=
  PyFile (f_path f) p (f_closed f).

(** [f.seek(0, os.SEEK_END)] *)
Definition py_seek_end (fs : gmap string (list byte)) (f : pyfile) : pyfile :=
  PyFile (f_path f) (len (contents fs (f_path f))) (f_closed f).

(** [f.close()] *)
Definition py_close (f : pyfile) : pyfile := PyFile (f_path f) (f_pos f) true.

(** [f.seek(pos); f.read(n)] on the read-only source: at most [n] bytes,
    fewer at the end of the file, [b''] at or past it. *)
Definition read_at (src : list byte) (pos n : Z) : list byte :=
  if decide (len src <= pos) then []
  else take (Z.to_nat n) (drop (Z.to_nat pos) src).

(** ** The encoder *)

(** How a run can end early. *)
Inductive exit_reason :=
| UnrecognizedSourceFormat  (* [detect_iso_type]: [sys.exit(1)] *)
| IndexWriteFailure         (* [write_block_index]: [sys.exit(1)] *)
| UncaughtException.        (* [struct.error], [IndexError], [AttributeError] *)

(** The dictionary built by [check_file_size]. *)
Record ciso_info := CisoInfo {
  magic : Z;
  ver : Z;
  block_size : Z;
  total_bytes : Z;
  total_blocks : Z;
  align : Z;
}.

(** [detect_iso_type]: the new value of the global [image_offset], or [None]
    for [sys.exit(1)]. *)
Definition detect_iso_type (src : list byte) : option Z :=
  if decide (read_at src 0x18310000 20 = XBOX_MEDIA) then Some 0x18300000
  else if decide (read_at src 0x10000 20 = XBOX_MEDIA) then Some 0
  else None.

(** [check_file_size]: [f.tell()] after [f.seek(0, os.SEEK_END)] is the
    length of the source; the source is left positioned at [image_offset]. *)
Definition check_file_size (src : list byte) (image_offset : Z) : ciso_info :=
  let file_size := len src - image_offset in
  {| magic := CISO_MAGIC;
     ver := 2;
     block_size := CISO_BLOCK_SIZE;
     total_bytes := file_size;
     total_blocks := int_truediv_pow2 file_size CISO_BLOCK_SIZE;
     align := 2 |}.

(** Which file object the variable [split_fout] is bound to. *)
Inductive out_ref := Fout1 | Fout2.

(** The variables of [compress_iso] that the encode loop reads and writes,
    with the destination file system. *)
Record enc_state := EncState {
  files : gmap string (list byte);
  fout_1 : pyfile;
  fout_2 : option pyfile;
  split_fout : out_ref;
  fin_pos : Z;
  write_pos : Z;
  block_index : list Z;
}.

(** What one iteration of the encode loop decided: the values of its local
    variables, kept as a log of the run. *)
Record placement := Placement {
  pl_switched : bool;        (* the split branch was taken *)
  pl_offset : Z;             (* [write_pos] when the index entry was marked *)
  pl_raw : list byte;        (* [raw_data] *)
  pl_compressed : bool;      (* the LZ4 marker was set *)
  pl_data : list byte;       (* [writable_data] *)
}.

(** [write_cso_header]: [None] is an uncaught [struct.error]. *)
Definition write_cso_header (fs : gmap string (list byte)) (f : pyfile)
    (ciso : ciso_info) : option (gmap string (list byte) * pyfile) :=
  h ← pack_header (magic ciso) CISO_HEADER_SIZE (total_bytes ciso)
        (block_size ciso) (ver ciso) (align ciso);
  Some (py_write fs f h).

(** [write_block_index]: entries are packed and written one at a time; the
    first entry that does not fit [<I] ends the run, the earlier ones having
    been written ([inr] carries the file system at that moment). *)
Fixpoint write_block_index (fs : gmap string (list byte)) (f : pyfile)
    (index : list Z)
  : (gmap string (list byte) * pyfile) + gmap string (list byte) :=
  match index with
  | [] => inl (fs, f)
  | e :: rest =>
      match pack_uint 4 e with
      | Some bs => let '(fs', f') := py_write fs f bs in
                   write_block_index fs' f' rest
      | None => inr fs
      end
  end.

(** [pad_file_size] *)
Definition pad_file_size (fs : gmap string (list byte)) (f : pyfile)
  : gmap string (list byte) * pyfile :=
  let f := py_seek_end fs f in
  let size := f_pos f in
  py_write fs f (zeros (0x400 - Z.land size 0x3FF)).

(** ** Index entries as the container format reads them *)

(** The compressed flag of an entry: its bit [0x80000000]. *)
Definition entry_compressed (e : Z) : bool := Z.testbit e 31.

(** The byte offset of an entry: the flag masked off, the remaining 31 bits
    shifted left by [align]. *)
Definition entry_offset (align e : Z) : Z :=
  Z.shiftl (Z.land e 0x7FFFFFFF) align.

(** The value the loop body leaves in [block_index[block]]. *)
Definition index_entry (offset : Z) (compressed : bool) : Z :=
  if compressed then Z.lor (Z.shiftr offset 2) 0x80000000
  else Z.shiftr offset 2.

(** The index entry of a logged placement. *)
Definition entry_of (p : placement) : Z :=
  index_entry (pl_offset p) (pl_compressed p).

(** The cursor after the alignment step for [align_b = 4]. *)
Definition aligned (p : Z) : Z :=
  if decide (p mod 4 = 0) then p else p + (4 - p mod 4).

(** A file after [pad_file_size]: zero bytes up to the next multiple of
    [0x400], a whole [0x400] of them when the size already is one. *)
Definition padded (c : list byte) : list byte :=
  c ++ zeros (0x400 - Z.land (len c) 0x3FF).

(** ** Volumes of a run, read off its log *)

(** The number of iterations of a log that took the split branch. *)
Fixpoint switches (log : list placement) : nat :=
  match log with
  | [] => O
  | p :: r => ((if pl_switched p then 1 else 0) + switches r)%nat
  end.

(** The volume a block was placed in, counted from 0: the number of volumes
    opened by the split branch up to and including the block's iteration. *)
Definition volume_of (log : list placement) (i : nat) : nat :=
  switches (take (S i) log).

(** The bytes of an index table on disk. *)
Definition index_bytes (index : list Z) : list byte :=
  flat_map (le_bytes 4) index.

Section Encoder.

(** [lz4.frame.compress_chunk] after [compress_begin]: the bytes of one
    independently compressed chunk. *)
Variable compress : list byte -> list byte.

(** [os.path.splitext(infile)[0]] *)
Variable base : string.

Definition path_1 : string := base +:+ ".1.cso".
Definition path_2 : string := base +:+ ".2.cso".

(** [split_fout.write(d)]; [None] when [split_fout] is bound to [None]. *)
Definition split_write (st : enc_state) (d : list byte) : option enc_state :=
  match split_fout st with
  | Fout1 =>
      let '(fs, f) := py_write (files st) (fout_1 st) d in
      Some (EncState fs f (fout_2 st) (split_fout st) (fin_pos st)
              (write_pos st) (block_index st))
  | Fout2 =>
      f2 ← fout_2 st;
      let '(fs, f) := py_write (files st) f2 d in
      Some (EncState fs (fout_1 st) (Some f) (split_fout st) (fin_pos st)
              (write_pos st) (block_index st))
  end.

Definition set_write_pos (st : enc_state) (p : Z) : enc_state :=
  EncState (files st) (fout_1 st) (fout_2 st) (split_fout st) (fin_pos st) p
    (block_index st).

(** [block_index[i] = v]; [None] is [IndexError]. *)
Definition set_index (st : enc_state) (i v : Z) : option enc_state :=
  if decide (0 <= i < len (block_index st)) then
    Some (EncState (files st) (fout_1 st) (fout_2 st) (split_fout st)
            (fin_pos st) (write_pos st) (<[Z.to_nat i := v]> (block_index st)))
  else None.

(** The split test at the head of the loop body. *)
Definition maybe_split (st : enc_state) : enc_state * bool :=
  if decide (write_pos st > SPLIT_THRESHOLD) then
    let '(fs, f2) := py_open_wb (files st) path_2 in
    (EncState fs (fout_1 st) (Some f2) Fout2 (fin_pos st) 0 (block_index st),
     true)
  else (st, false).

(** The alignment step: zero bytes up to the next multiple of [align_b]. *)
Definition write_alignment (align_b : Z) (st : enc_state) : option enc_state :=
  let align_m := align_b - 1 in
  let alignment_buffer := zeros 64 in
  let al := Z.land (write_pos st) align_m in
  if decide (al <> 0) then
    let al := align_b - al in
    st ← split_write st (take (Z.to_nat al) alignment_buffer);
    Some (set_write_pos st (write_pos st + al))
  else Some st.

(** One iteration of [for block in range(0, ciso['total_blocks'])]. *)
Definition encode_block (src : list byte) (ciso : ciso_info)
    (st : enc_state) (block : Z) : option (enc_state * placement) :=
  let '(st, switched) := maybe_split st in
  st ← write_alignment (Z.shiftl 1 (align ciso)) st;
  let offset := write_pos st in
  st ← set_index st block (Z.shiftr (write_pos st) (align ciso));
  let raw_data := read_at src (fin_pos st) (block_size ciso) in
  let st := EncState (files st) (fout_1 st) (fout_2 st) (split_fout st)
              (fin_pos st + len raw_data) (write_pos st) (block_index st) in
  let raw_data_size := len raw_data in
  let compressed_data := compress raw_data in
  let compressed_size := len compressed_data in
  if decide (compressed_size + 12 >= raw_data_size) then
    let st := set_write_pos st (write_pos st + raw_data_size) in
    st ← split_write st raw_data;
    Some (st, Placement switched offset raw_data false raw_data)
  else
    e ← block_index st !! Z.to_nat block;
    st ← set_index st block (Z.lor e 0x80000000);
    let st := set_write_pos st (write_pos st + compressed_size) in
    st ← split_write st compressed_data;
    Some (st, Placement switched offset raw_data true compressed_data).

(** The encode loop over the block numbers [blocks], with its log. *)
Fixpoint encode_loop (src : list byte) (ciso : ciso_info) (st : enc_state)
    (blocks : list Z) : option (enc_state * list placement) :=
  match blocks with
  | [] => Some (st, [])
  | b :: rest =>
      '(st, p) ← encode_block src ciso st b;
      '(st, ps) ← encode_loop src ciso st rest;
      Some (st, p :: ps)
  end.

(** [range(0, n)] *)
Definition py_range (n : Z) : list Z := Z.of_nat <$> seq 0 (Z.to_nat n).

(** The result of a run. *)
Inductive outcome :=
| Done (st : enc_state) (log : list placement)
| Exit (why : exit_reason) (fs : gmap string (list byte)).

(** [write_cso_header], the zeroed index and the loop's initial variables:
    the state on entry to the encode loop. *)
Definition header_reserved (fs : gmap string (list byte)) (fout_1 : pyfile)
    (ciso : ciso_info) (image_offset : Z)
  : exit_reason * gmap string (list byte) + enc_state :=
  match write_cso_header fs fout_1 ciso with
  | None => inl (UncaughtException, fs)
  | Some (fs, fout_1) =>
      let block_index := replicate (Z.to_nat (total_blocks ciso + 1)) 0 in
      match write_block_index fs fout_1 block_index with
      | inr fs => inl (IndexWriteFailure, fs)
      | inl (fs, fout_1) =>
          inr (EncState fs fout_1 None Fout1 image_offset (f_pos fout_1)
                 block_index)
      end
  end.

(** After the loop: the sentinel entry, the index rewrite, the padding and
    the closing of the volumes. *)
Definition finalize (ciso : ciso_info) (st : enc_state)
  : exit_reason * gmap string (list byte) + enc_state :=
  match set_index st (len (block_index st) - 1)
          (Z.shiftr (write_pos st) (align ciso)) with
  | None => inl (UncaughtException, files st)
  | Some st =>
      let f1 := py_seek_set (fout_1 st) CISO_HEADER_SIZE in
      match write_block_index (files st) f1 (block_index st) with
      | inr fs => inl (IndexWriteFailure, fs)
      | inl (fs, f1) =>
          let '(fs, f1) := pad_file_size fs f1 in
          let f1 := py_close f1 in
          match fout_2 st with
          | Some f2 =>
              let '(fs, f2) := pad_file_size fs f2 in
              inr (EncState fs f1 (Some (py_close f2)) (split_fout st)
                     (fin_pos st) (write_pos st) (block_index st))
          | None =>
              inr (EncState fs f1 None (split_fout st) (fin_pos st)
                     (write_pos st) (block_index st))
          end
      end
  end.

(** [compress_iso(infile)] on the destination file system [fs], [src] being
    the contents of [infile]. *)
Definition compress_iso (fs : gmap string (list byte)) (src : list byte)
  : outcome :=
  let '(fs, fout_1) := py_open_wb fs path_1 in
  match detect_iso_type src with
  | None => Exit UnrecognizedSourceFormat fs
  | Some image_offset =>
      let ciso := check_file_size src image_offset in
      match header_reserved fs fout_1 ciso image_offset with
      | inl (why, fs) => Exit why fs
      | inr st =>
          match encode_loop src ciso st (py_range (total_blocks ciso)) with
          | None => Exit UncaughtException (files st)
          | Some (st, log) =>
              match finalize ciso st with
              | inl (why, fs) => Exit why fs
              | inr st => Done st log
              end
          end
      end
  end.

(** The end of a block's payload: the cursor when its iteration finishes. *)
Definition pl_end (p : placement) : Z := pl_offset p + len (pl_data p).

(** The log entry of an iteration entered with cursor [w] and source
    position [fp]. *)
Definition place (src : list byte) (w fp : Z) : placement :=
  let sw := bool_decide (w > SPLIT_THRESHOLD) in
  let raw := read_at src fp CISO_BLOCK_SIZE in
  let comp := bool_decide (len (compress raw) + 12 < len raw) in
  Placement sw (aligned (if sw then 0 else w)) raw comp
    (if comp then compress raw else raw).

(** The log of [k] iterations entered with cursor [w] and source position
    [fp]: the placements depend on these two numbers alone, not on the
    destination files. *)
Fixpoint layout (src : list byte) (w fp : Z) (k : nat) : list placement :=
  match k with
  | O => []
  | S k => let p := place src w fp in
           p :: layout src (pl_end p) (fp + len (pl_raw p)) k
  end.

(** The cursor and the source position after a log. *)
Definition cursor_after (w : Z) (log : list placement) : Z :=
  foldl (fun _ p => pl_end p) w log.

Definition source_after (fp : Z) (log : list placement) : Z :=
  foldl (fun a p => a + len (pl_raw p)) fp log.

(** The file a block of volume [v] was written to. *)
Definition volume_path (log : list placement) (i : nat) : string :=
  if decide (volume_of log i = O) then path_1 else path_2.

(** The volume of block [i] was not reopened after the block was placed: it
    is the first volume or the last one opened. *)
Definition retrievable (log : list placement) (i : nat) : Prop :=
  volume_of log i = O \/ volume_of log i = switches log.

(** The path of the file object bound to [split_fout]. *)
Definition active_path (st : enc_state) : string :=
  match split_fout st with Fout1 => path_1 | Fout2 => path_2 end.

(** The file objects of a loop state are open on their paths, [fout_2] is
    bound exactly when [split_fout] is bound to it, and the object behind
    [split_fout] stands at byte [p], the end of its file. *)
Definition enc_inv_at (st : enc_state) (p : Z) : Prop :=
  0 <= p /\
  f_path (fout_1 st) = path_1 /\
  f_closed (fout_1 st) = false /\
  is_Some (files st !! path_1) /\
  is_Some (files st !! active_path st) /\
  len (contents (files st) (active_path st)) = p /\
  match split_fout st with
  | Fout1 => fout_2 st = None /\ f_pos (fout_1 st) = p
  | Fout2 => fout_2 st = Some (PyFile path_2 p false)
  end.

(** The loop invariant: the variable [write_pos] is that position. *)
Definition enc_inv (st : enc_state) : Prop := enc_inv_at st (write_pos st).

(** What holds of the loop state [st] reached from the state [st0] on loop
    entry with the log [log]. *)
Record loop_inv (src : list byte) (st0 st : enc_state)
    (log : list placement) : Prop := {
  li_inv : enc_inv st;
  li_start : 0 <= write_pos st0;
  li_log : log = layout src (write_pos st0) (fin_pos st0) (length log);
  li_write_pos : write_pos st = cursor_after (write_pos st0) log;
  li_fin_pos : fin_pos st = source_after (fin_pos st0) log;
  li_index : block_index st
             = (entry_of <$> log) ++ drop (length log) (block_index st0);
  li_other : forall q, q <> path_1 -> q <> path_2 ->
             files st !! q = files st0 !! q;
  li_first : exists rest, contents (files st) (path_1)
                          = contents (files st0) (path_1) ++ rest;
  li_split : split_fout st
             = if decide (switches log = O) then Fout1 else Fout2;
  li_second : switches log = O -> files st !! path_2 = files st0 !! path_2;
  li_cursor : switches log = O -> write_pos st0 <= write_pos st;
  li_low : forall i p, log !! i = Some p -> volume_of log i = O ->
           write_pos st0 <= pl_offset p;
  li_stored : forall i p, log !! i = Some p -> retrievable log i ->
      pl_end p <= len (contents (files st) (volume_path log i))
      /\ read_at (contents (files st) (volume_path log i))
           (pl_offset p) (len (pl_data p)) = pl_data p;
}.

(** The state on entry to the encode loop when nothing failed before it:
    the header and a zeroed index table of [total_blocks + 1] entries are in
    the first volume and the cursor stands behind them. *)
Definition loop_entry (fs : gmap string (list byte)) (src : list byte)
    (image_offset : Z) : enc_state :=
  let ciso := check_file_size src image_offset in
  let entries := Z.to_nat (total_blocks ciso + 1) in
  let w0 := CISO_HEADER_SIZE + 4 * Z.of_nat entries in
  EncState
    (<[path_1 := header_bytes (total_bytes ciso)
                   ++ zeros (4 * Z.of_nat entries)]> fs)
    (PyFile path_1 w0 false) None Fout1 image_offset w0 (replicate entries 0).

End Encoder.

(** ** Observations on states and outcomes *)

(** The destination file system a run leaves behind. *)
Definition outcome_files (o : outcome) : gmap string (list byte) :=
  match o with
  | Done st _ => files st
  | Exit _ fs => fs
  end.

(** The number of volume file objects held by [fout_1] and [fout_2] that are
    open.  ([split_fout] is an alias of one of them; an object that [fout_2]
    was rebound away from is no longer referenced.) *)
Definition open_handles (st : enc_state) : nat :=
  ((if f_closed (fout_1 st) then 0 else 1)
   + match fout_2 st with
     | Some f2 => if f_closed f2 then 0 else 1
     | None => 0
     end)%nat.

(** Decoding one block the way a reader of the container does: take the
    offset and the flag from the index entry [e], read [n] stored bytes at
    that offset of the volume [path], and decompress them when the flag is
    set.  (No decoder is part of [ciso.py]; this follows the format.) *)
Definition decode_block (decompress : list byte -> list byte)
    (fs : gmap string (list byte)) (path : string) (e n : Z) : list byte :=
  let payload := read_at (contents fs path) (entry_offset 2 e) n in
  if entry_compressed e then decompress payload else payload.

(** Reading a table of [n] entries back, four bytes each, little-endian, as
    a reader of the container does. *)
Fixpoint unpack_index (n : nat) (bs : list byte) : list Z :=
  match n with
  | O => []
  | S k => le_value (take 4 bs) :: unpack_index k (drop 4 bs)
  end.

(** ** The launcher: [default.xbe] beside the volumes *)

(** After the container, [main] writes a launcher [default.xbe]: a copy of
    the template [attach_cso.xbe] that stands beside the script, with the
    title of the game patched into its certificate.  The title is read from
    the [default.xbe] inside the image, found by walking the root directory
    of the XDVDFS file system.  Every read of the image comes before
    [default.xbe] is opened for writing, so the image is the list [iso] of
    its contents; the template is read from the file system. *)

Definition TITLE_MAX_LENGTH : Z := 40.

(** A Python [str]: the list of its code points. *)
Abbreviation pystr := (list Z).

(** The exceptions these functions can end in; none of them is caught.  The
    last constructor is not a Python exception: it marks a walk of the model
    that used up its fuel, which does not happen with the fuel that
    [get_file_offset_in_iso] gives. *)
Inductive exn :=
| SysExit            (* [sys.exit(1)] of [detect_iso_type] *)
| StructError        (* [struct.unpack] on a short read *)
| SeekError          (* [OSError]: seek to a negative position *)
| ReadLengthError    (* [ValueError]: read length below -1 *)
| DecodeError        (* [UnicodeDecodeError] *)
| EncodeError        (* [UnicodeEncodeError] *)
| OutOfFuel.

(** A value or an exception. *)
Inductive py (A : Type) :=
| Ret (a : A)
| Raise (e : exn).

Arguments Ret {A} a.
Arguments Raise {A} e.

#[global] Instance py_ret : MRet py := @Ret.

#[global] Instance py_bind : MBind py := fun A B f m =>
  match m with
  | Ret a => f a
  | Raise e => Raise e
  end.

(** An [option] of a codec as a value or the exception [e]. *)
Definition or_raise {A} (e : exn) (o : option A) : py A :=
  match o with
  | Some a => Ret a
  | None => Raise e
  end.

(** [struct.unpack('<B' | '<H' | '<I', bs)[0]]: [struct.error] unless [bs]
    has exactly [n] bytes. *)
Definition unpack_uint (n : nat) (bs : list byte) : py Z :=
  if decide (length bs = n) then Ret (le_value bs) else Raise StructError.

(** [f.seek(pos); f.read(n)] on a file opened with ['rb'], for [0 <= n]. *)
Definition seek_read (c : list byte) (pos n : Z) : py (list byte) :=
  if decide (pos < 0) then Raise SeekError else Ret (read_at c pos n).

(** *** The codecs *)

(** [bytes.decode('utf-8')], strict: the well-formed sequences of the
    Unicode standard (no overlong forms, no surrogates, nothing above
    [U+10FFFF]); [None] is [UnicodeDecodeError]. *)
Definition utf8_cont (c : Z) : bool := bool_decide (0x80 <= c <= 0xBF).

Fixpoint utf8_decode (bs : list byte) : option pystr :=
  match bs with
  | [] => Some []
  | b0 :: r0 =>
      let c0 := Z_of_byte b0 in
      if decide (c0 < 0x80) then cons c0 <$> utf8_decode r0
      else if decide (0xC2 <= c0 <= 0xDF) then
        match r0 with
        | b1 :: r1 =>
            let c1 := Z_of_byte b1 in
            if utf8_cont c1
            then cons ((c0 - 0xC0) * 0x40 + (c1 - 0x80)) <$> utf8_decode r1
            else None
        | _ => None
        end
      else if decide (0xE0 <= c0 <= 0xEF) then
        match r0 with
        | b1 :: b2 :: r2 =>
            let c1 := Z_of_byte b1 in
            let c2 := Z_of_byte b2 in
            if bool_decide ((if decide (c0 = 0xE0) then 0xA0 else 0x80) <= c1
                            <= (if decide (c0 = 0xED) then 0x9F else 0xBF))
               && utf8_cont c2
            then cons ((c0 - 0xE0) * 0x1000 + (c1 - 0x80) * 0x40 + (c2 - 0x80))
                   <$> utf8_decode r2
            else None
        | _ => None
        end
      else if decide (0xF0 <= c0 <= 0xF4) then
        match r0 with
        | b1 :: b2 :: b3 :: r3 =>
            let c1 := Z_of_byte b1 in
            let c2 := Z_of_byte b2 in
            let c3 := Z_of_byte b3 in
            if bool_decide ((if decide (c0 = 0xF0) then 0x90 else 0x80) <= c1
                            <= (if decide (c0 = 0xF4) then 0x8F else 0xBF))
               && utf8_cont c2 && utf8_cont c3
            then cons ((c0 - 0xF0) * 0x40000 + (c1 - 0x80) * 0x1000
                       + (c2 - 0x80) * 0x40 + (c3 - 0x80))
                   <$> utf8_decode r3
            else None
        | _ => None
        end
      else None
  end.

(** The 16-bit code units of a byte string, little-endian; [None] when a
    byte is left over. *)
Fixpoint utf16_units (bs : list byte) : option (list Z) :=
  match bs with
  | [] => Some []
  | [_] => None
  | b0 :: b1 :: r => cons (le_value [b0; b1]) <$> utf16_units r
  end.

(** Code units to code points: a high surrogate needs a low one behind it,
    a low surrogate cannot stand alone. *)
Fixpoint utf16_join (us : list Z) : option pystr :=
  match us with
  | [] => Some []
  | u :: r =>
      if decide (0xD800 <= u <= 0xDBFF) then
        match r with
        | v :: r' =>
            if decide (0xDC00 <= v <= 0xDFFF)
            then cons (0x10000 + (u - 0xD800) * 0x400 + (v - 0xDC00))
                   <$> utf16_join r'
            else None
        | [] => None
        end
      else if decide (0xDC00 <= u <= 0xDFFF) then None
      else cons u <$> utf16_join r
  end.

(** [bytes.decode('utf-16-le')], strict; [None] is [UnicodeDecodeError]. *)
Definition utf16le_decode (bs : list byte) : option pystr :=
  us ← utf16_units bs; utf16_join us.

(** The code units of one code point; a surrogate cannot be encoded. *)
Definition utf16_code_units (c : Z) : option (list Z) :=
  if decide (0xD800 <= c <= 0xDFFF) then None
  else if decide (c < 0x10000) then Some [c]
  else Some [0xD800 + (c - 0x10000) / 0x400; 0xDC00 + (c - 0x10000) mod 0x400].

(** [str.encode('utf-16-le')], strict; [None] is [UnicodeEncodeError]. *)
Fixpoint utf16le_encode (s : pystr) : option (list byte) :=
  match s with
  | [] => Some []
  | c :: r =>
      us ← utf16_code_units c;
      bs ← utf16le_encode r;
      Some (flat_map (le_bytes 2) us ++ bs)
  end.

(** [s.ljust(width, fill)] *)
Definition ljust (s : pystr) (width : nat) (fill : Z) : pystr :=
  s ++ replicate (width - length s) fill.

(** The name the directory walk of [get_default_xbe_file_offset_in_iso]
    looks for, ['default.xbe']. *)
Definition default_xbe_name : pystr :=
  [100; 101; 102; 97; 117; 108; 116; 46; 120; 98; 101].

(** The magic of an XBE file, [b'XBEH']. *)
Definition XBE_MAGIC : list byte := [Byte.x58; Byte.x42; Byte.x45; Byte.x48].

(** *** The functions *)

(** [get_xbe_title_offset(in_file, offset)], [c] being the contents of
    [in_file]. *)
Definition get_xbe_title_offset (c : list byte) (offset : Z) : py Z :=
  let base_addr_offset := offset + 0x104 in
  let cert_addr_offset := offset + 0x118 in
  let title_addr_offset := 0xc in
  bs ← seek_read c base_addr_offset 4;
  base_addr ← unpack_uint 4 bs;
  bs ← seek_read c cert_addr_offset 4;
  cert_addr ← unpack_uint 4 bs;
  Ret (offset + (cert_addr - base_addr + title_addr_offset)).

(** [is_xbe_file(xbe)]: [os.path.isfile] is the presence of the path in the
    file system. *)
Definition is_xbe_file (fs : gmap string (list byte)) (xbe : string) : bool :=
  match fs !! xbe with
  | None => false
  | Some c => bool_decide (take 4 c = XBE_MAGIC)
  end.

(** The [while True] loop of [get_file_offset_in_iso], entered with the
    file positioned at [pos]; [fuel] bounds the number of iterations. *)
Fixpoint scan_root_dir (fuel : nat) (iso : list byte) (image_offset : Z)
    (search_file : pystr) (pos : Z) : py Z :=
  match fuel with
  | O => Raise OutOfFuel
  | S fuel =>
      let sector_size := 0x800 in
      let filename_offset := 14 in
      let dword := 4 in
      l_offset ← unpack_uint 2 (read_at iso pos 2);
      if decide (l_offset = 0xffff) then Ret 0
      else
        r_offset ← unpack_uint 2 (read_at iso (pos + 2) 2);
        start_sector ← unpack_uint 4 (read_at iso (pos + 4) 4);
        file_size ← unpack_uint 4 (read_at iso (pos + 8) 4);
        attribs ← unpack_uint 1 (read_at iso (pos + 12) 1);
        filename_len ← unpack_uint 1 (read_at iso (pos + 13) 1);
        let name := read_at iso (pos + 14) filename_len in
        filename ← or_raise DecodeError (utf8_decode name);
        let next_offset :=
          (dword - ((filename_offset + filename_len) mod dword)) mod dword in
        if decide (filename = search_file)
        then Ret (image_offset + start_sector * sector_size)
        else scan_root_dir fuel iso image_offset search_file
               (pos + 14 + len name + next_offset)
  end.

(** [get_file_offset_in_iso(iso_file, search_file)], [iso] being the
    contents of [iso_file].  Every iteration that does not raise reads 14
    bytes at least, so the length of the image is fuel enough. *)
Definition get_file_offset_in_iso (iso : list byte) (search_file : pystr)
  : py Z :=
  let sector_size := 0x800 in
  let iso_header_offset := 0x10000 in
  let iso_header_magic_len := 20 in
  image_offset ← or_raise SysExit (detect_iso_type iso);
  bs ← seek_read iso (image_offset + iso_header_offset + iso_header_magic_len) 4;
  root_sector ← unpack_uint 4 bs;
  let root_dir_offset := image_offset + root_sector * sector_size in
  scan_root_dir (S (length iso)) iso image_offset search_file root_dir_offset.

Definition get_default_xbe_file_offset_in_iso (iso : list byte) : py Z :=
  get_file_offset_in_iso iso default_xbe_name.

(** [read_default_xbe_title_from_iso(iso_file)]; [stem] is
    [os.path.splitext(os.path.basename(iso_file))[0]]. *)
Definition read_default_xbe_title_from_iso (iso : list byte) (stem : pystr)
  : py pystr :=
  xbe_offset ← get_default_xbe_file_offset_in_iso iso;
  if decide (xbe_offset = 0) then Ret stem
  else
    title_offset ← get_xbe_title_offset iso xbe_offset;
    bs ← seek_read iso title_offset (TITLE_MAX_LENGTH * 2);
    or_raise DecodeError (utf16le_decode bs).

(** [in_xbe.read(n)] from the start of the template: everything for
    [n = -1], [ValueError] below that. *)
Definition read_head (c : list byte) (n : Z) : py (list byte) :=
  if decide (n < -1) then Raise ReadLengthError
  else if decide (n = -1) then Ret c
  else Ret (take (Z.to_nat n) c).

Section Launcher.

(** [os.path.dirname(os.path.abspath(__file__))] and
    [os.path.dirname(os.path.abspath(iso_file))]. *)
Variable script_dir : string.
Variable iso_dir : string.

Definition in_file_name : string := script_dir +:+ "/attach_cso.xbe".
Definition out_file_name : string := iso_dir +:+ "/default.xbe".

(** [gen_attach_xbe(iso_file)] on the file system [fs]: the file system it
    leaves and the exception it ends in, if any.  ([print] is left out.) *)
Definition gen_attach_xbe (fs : gmap string (list byte)) (iso : list byte)
    (stem : pystr) : gmap string (list byte) * option exn :=
  if negb (is_xbe_file fs in_file_name) then (fs, None)
  else
    match get_xbe_title_offset (contents fs in_file_name) 0 with
    | Raise e => (fs, Some e)
    | Ret title_offset =>
        match read_default_xbe_title_from_iso iso stem with
        | Raise e => (fs, Some e)
        | Ret title =>
            let title := take (Z.to_nat TITLE_MAX_LENGTH) title in
            let '(fs, out_xbe) := py_open_wb fs out_file_name in
            let template := contents fs in_file_name in
            match read_head template title_offset with
            | Raise e => (fs, Some e)
            | Ret before =>
                let after :=
                  drop (Z.to_nat (len before + TITLE_MAX_LENGTH * 2))
                    template in
                let title := ljust title (Z.to_nat TITLE_MAX_LENGTH) 0 in
                match utf16le_encode title with
                | None => (fs, Some EncodeError)
                | Some title_bytes =>
                    let '(fs, out_xbe) := py_write fs out_xbe before in
                    let '(fs, out_xbe) := py_write fs out_xbe title_bytes in
                    let '(fs, out_xbe) := py_write fs out_xbe after in
                    (fs, None)
                end
            end
        end
    end.

End Launcher.

(** How [main] ends: done, left by [sys.exit] or an exception of
    [compress_iso], or by an exception of [gen_attach_xbe]. *)
Inductive main_outcome :=
| MainDone (fs : gmap string (list byte))
| MainExit (why : exit_reason) (fs : gmap string (list byte))
| MainRaise (e : exn) (fs : gmap string (list byte)).

(** [main(argv)] for [infile = argv[1]] with the contents [src]. *)
Definition main (compress : list byte -> list byte) (base : string)
    (script_dir iso_dir : string) (stem : pystr)
    (fs : gmap string (list byte)) (src : list byte) : main_outcome :=
  match compress_iso compress base fs src with
  | Exit why fs => MainExit why fs
  | Done st _ =>
      match gen_attach_xbe script_dir iso_dir (files st) src stem with
      | (fs, None) => MainDone fs
      | (fs, Some e) => MainRaise e fs
      end
  end.

(** *** The root directory as the walk reads it *)

(** One entry of an XDVDFS directory: the offsets of the subtrees, the
    first sector and the size of the file, its attributes, its name and the
    bytes that pad the entry. *)
Record dir_entry := DirEntry {
  de_left : Z;
  de_right : Z;
  de_sector : Z;
  de_size : Z;
  de_attribs : Z;
  de_name : list byte;
  de_pad : list byte;
}.

Definition dir_entry_bytes (e : dir_entry) : list byte :=
  le_bytes 2 (de_left e) ++ le_bytes 2 (de_right e)
    ++ le_bytes 4 (de_sector e) ++ le_bytes 4 (de_size e)
    ++ le_bytes 1 (de_attribs e) ++ le_bytes 1 (len (de_name e))
    ++ de_name e ++ de_pad e.

(** The fields fit their widths, the entry is not the end marker, the name
    is UTF-8 and the padding brings the entry to a multiple of 4 bytes. *)
Definition dir_entry_wf (e : dir_entry) : Prop :=
  0 <= de_left e < 0xffff
  /\ 0 <= de_right e < 2 ^ 16
  /\ 0 <= de_sector e < 2 ^ 32
  /\ 0 <= de_size e < 2 ^ 32
  /\ 0 <= de_attribs e < 2 ^ 8
  /\ len (de_name e) < 2 ^ 8
  /\ is_Some (utf8_decode (de_name e))
  /\ len (de_pad e) = (4 - (14 + len (de_name e)) mod 4) mod 4.

(** The first entry of a list whose name decodes to [search_file]. *)
Definition find_entry (search_file : pystr) (es : list dir_entry)
  : option dir_entry :=
  snd <$> list_find (fun e => utf8_decode (de_name e) = Some search_file) es.

(** *** Code points *)

(** A Unicode scalar value: a code point that is not a surrogate. *)
Definition scalar_value (c : Z) : Prop :=
  0 <= c <= 0x10FFFF /\ ~ (0xD800 <= c <= 0xDFFF).

(** The number of code points of [s] above [U+FFFF], which UTF-16 writes as
    two code units. *)
Definition supplementary (s : pystr) : Z :=
  len (filter (fun c => 0x10000 <= c) s).

(** ** Concrete inputs *)

(** A stand-in for the LZ4 codec on small examples: a block that starts with
    sixteen zero bytes loses them to a one-byte marker. *)
Definition toy_compress (b : list byte) : list byte :=
  if decide (take 16 b = zeros 16) then Byte.x00 :: drop 16 b
  else Byte.x01 :: b.

Definition toy_decompress (c : list byte) : list byte :=
  match c with
  | [] => []
  | m :: r => if decide (m = Byte.x00) then zeros 16 ++ r else r
  end.

(** A raw XDVDFS image of 35 blocks and 100 trailing bytes: the signature at
    [0x10000], zero blocks around it, one block of [0x07] bytes. *)
Definition demo_src : list byte :=
  zeros 0x10000 ++ XBOX_MEDIA ++ zeros (2048 * 2 - 20)
    ++ replicate 2048 Byte.x07 ++ zeros 100.

(** A compressor that returns its input: the behaviour of the codec on data
    it cannot shrink, where every block ends up stored. *)
Definition store_only (b : list byte) : list byte := b.

(** A Redump image: the payload starts at [0x18300000], the signature sits
    at [0x18310000]; after it come [mid] zero bytes and a last chunk. *)
Definition redump_image (mid : Z) (last : list byte) : list byte :=
  zeros 0x18310000 ++ XBOX_MEDIA ++ zeros mid ++ last.

(** A Redump image with a payload of 4182003 blocks (8.6 GB): zero bytes
    but for the signature and a last block of [0x01] bytes. *)
Definition big_blocks : Z := 4182003.

Definition big_src : list byte :=
  redump_image (2048 * big_blocks - 0x10014 - 2048) (replicate 2048 Byte.x01).

(** A raw image whose size is [2^53 + 2047] bytes. *)
Definition huge_src : list byte :=
  zeros 0x10000 ++ XBOX_MEDIA ++ zeros (2 ^ 53 + 2047 - 0x10014).

(** A state past the threshold with the second volume already open. *)
Definition reopen_state : enc_state :=
  EncState {[ "game.2.cso" := [Byte.x01; Byte.x02] ]}
    (PyFile "game.1.cso" 0 false) (Some (PyFile "game.2.cso" 2 false)) Fout2
    0 (SPLIT_THRESHOLD + 1) [0; 0].

(** *** A small image with a root directory, and a template *)

(** An XBE of 0x1E4 bytes: the magic, the base address [0x10000] at
    [0x104], the certificate address [0x10178] at [0x118], so that the title
    field lies at [0x184], the 80 bytes [field] there and 16 bytes behind
    it. *)
Definition demo_xbe (field : list byte) (fill : byte) : list byte :=
  XBE_MAGIC ++ zeros (0x104 - 4) ++ le_bytes 4 0x10000 ++ zeros 0x10
    ++ le_bytes 4 0x10178 ++ zeros (0x184 - 0x11C) ++ field
    ++ replicate 16 fill.

(** The title [Halo] in a field of 40 UTF-16 code units. *)
Definition demo_title : pystr := [72; 97; 108; 111].

Definition demo_title_field : list byte :=
  flat_map (le_bytes 2) demo_title ++ zeros 72.

(** The entries of the root directory: [game.bin] in sector 40 and
    [default.xbe] in sector 34. *)
Definition demo_game_bin : dir_entry :=
  DirEntry 0 0 40 5 0x80
    [Byte.x67; Byte.x61; Byte.x6d; Byte.x65; Byte.x2e; Byte.x62; Byte.x69;
     Byte.x6e]
    (zeros 2).

Definition demo_default_xbe : dir_entry :=
  DirEntry 0 0 34 0x1E4 0x80
    [Byte.x64; Byte.x65; Byte.x66; Byte.x61; Byte.x75; Byte.x6c; Byte.x74;
     Byte.x2e; Byte.x78; Byte.x62; Byte.x65]
    (zeros 3).

Definition demo_dir : list dir_entry := [demo_game_bin; demo_default_xbe].

(** A raw XDVDFS image: the signature at [0x10000], behind it the sector of
    the root directory, 33; the directory and its end marker in sector 33;
    the XBE in sector 34. *)
Definition demo_iso_pre : list byte :=
  zeros 0x10000 ++ XBOX_MEDIA ++ le_bytes 4 33 ++ zeros (33 * 0x800 - 0x10018).

Definition demo_iso_post : list byte :=
  [Byte.xff; Byte.xff] ++ zeros (0x800 - 54)
    ++ demo_xbe demo_title_field Byte.x07.

Definition demo_iso : list byte :=
  demo_iso_pre ++ flat_map dir_entry_bytes demo_dir ++ demo_iso_post.

(** The template: an XBE whose title field is filled with [0x2a]. *)
Definition demo_template : list byte :=
  demo_xbe (replicate 80 Byte.x2a) Byte.x09.

Definition demo_fs : gmap string (list byte) :=
  {[ "/opt/cso/attach_cso.xbe" := demo_template ]}.

(** The same image with a root directory that holds [game.bin] alone. *)
Definition demo_iso_plain : list byte :=
  demo_iso_pre ++ flat_map dir_entry_bytes [demo_game_bin] ++ demo_iso_post.

(** * Properties *)

(** ** Lengths and slices *)

Lemma len_nonneg {A} (l : list A) : 0 <= len l.
Proof. unfold len. lia. Qed.

Lemma len_nil {A} : len (@nil A) = 0.
Proof. reflexivity. Qed.

Lemma len_cons {A} (x : A) (l : list A) : len (x :: l) = 1 + len l.
Proof. unfold len. simpl. lia. Qed.

Lemma len_app {A} (l k : list A) : len (l ++ k) = len l + len k.
Proof. unfold len. rewrite length_app. lia. Qed.

Lemma len_zeros (n : Z) : len (zeros n) = Z.max 0 n.
Proof. unfold len, zeros. rewrite length_replicate. lia. Qed.

Lemma len_replicate {A} (n : nat) (x : A) : len (replicate n x) = Z.of_nat n.
Proof. unfold len. by rewrite length_replicate. Qed.

Lemma len_take {A} (n : Z) (l : list A) :
  len (take (Z.to_nat n) l) = Z.min (Z.max 0 n) (len l).
Proof. unfold len. rewrite length_take. lia. Qed.

Lemma len_drop {A} (n : Z) (l : list A) :
  len (drop (Z.to_nat n) l) = Z.max 0 (len l - Z.max 0 n).
Proof. unfold len. rewrite length_drop. lia. Qed.

Lemma len_insert {A} (i : nat) (x : A) (l : list A) : len (<[i := x]> l) = len l.
Proof. unfold len. by rewrite length_insert. Qed.

Lemma len_0_nil {A} (l : list A) : len l = 0 -> l = [].
Proof. unfold len. destruct l; [done | simpl; lia]. Qed.

Lemma zeros_nonpos (n : Z) : n <= 0 -> zeros n = [].
Proof. intros. unfold zeros. by replace (Z.to_nat n) with 0%nat by lia. Qed.

Lemma zeros_add (n m : Z) : 0 <= n -> 0 <= m -> zeros (n + m) = zeros n ++ zeros m.
Proof.
  intros. unfold zeros. rewrite Z2Nat.inj_add by lia. apply replicate_add.
Qed.

Lemma take_zeros (n m : Z) :
  0 <= n <= m -> take (Z.to_nat n) (zeros m) = zeros n.
Proof.
  intros. unfold zeros. rewrite take_replicate. f_equal. lia.
Qed.

Lemma len_le_bytes (n : nat) (v : Z) : len (le_bytes n v) = Z.of_nat n.
Proof.
  revert v. induction n as [|n IH]; intros v; [done|].
  cbn [le_bytes]. rewrite len_cons, IH. lia.
Qed.

Lemma pack_uint_Some (n : nat) (v : Z) :
  0 <= v < 2 ^ (8 * Z.of_nat n) -> pack_uint n v = Some (le_bytes n v).
Proof. intros. unfold pack_uint. by rewrite decide_True. Qed.

(** A write at the end of a file appends. *)
Lemma write_at_end (c d : list byte) (pos : Z) :
  pos = len c -> write_at c pos d = c ++ d.
Proof.
  intros ->. unfold write_at, len.
  rewrite Nat2Z.id, take_ge, zeros_nonpos, drop_ge by lia. simpl.
  by rewrite app_nil_r.
Qed.

(** A write inside a file replaces a slice and keeps the length. *)
Lemma write_at_inside (c d : list byte) (pos : Z) :
  0 <= pos -> pos + len d <= len c ->
  write_at c pos d
  = take (Z.to_nat pos) c ++ d ++ drop (Z.to_nat (pos + len d)) c.
Proof.
  intros. unfold write_at. rewrite zeros_nonpos by (unfold len in *; lia).
  simpl.
  replace (Z.to_nat pos + length d)%nat with (Z.to_nat (pos + len d))
    by (unfold len; lia).
  done.
Qed.

(** Reading [n] bytes that lie inside the file returns [n] bytes. *)
Lemma len_read_at (src : list byte) (pos n : Z) :
  0 <= pos -> 0 <= n -> pos + n <= len src -> len (read_at src pos n) = n.
Proof.
  intros. unfold read_at. case_decide.
  - rewrite len_nil. lia.
  - rewrite len_take, len_drop. lia.
Qed.

Lemma len_read_at_le (src : list byte) (pos n : Z) :
  0 <= n -> len (read_at src pos n) <= n.
Proof.
  intros. unfold read_at. case_decide.
  - rewrite len_nil. lia.
  - rewrite len_take. lia.
Qed.

(** A slice that was written is read back. *)
Lemma read_at_app_mid (a d b : list byte) :
  read_at (a ++ d ++ b) (len a) (len d) = d.
Proof.
  unfold read_at. case_decide as Hc.
  - rewrite !len_app in Hc. pose proof (len_nonneg d). pose proof (len_nonneg b).
    assert (len d = 0) by lia. symmetry. by apply len_0_nil.
  - unfold len. rewrite !Nat2Z.id, drop_app_length, take_app_length. done.
Qed.

Lemma read_at_app_end (a d : list byte) (pos : Z) :
  pos = len a -> read_at (a ++ d) pos (len d) = d.
Proof.
  intros ->. rewrite <- (app_nil_r d) at 1. apply read_at_app_mid.
Qed.

(** Appending to a file does not change a slice inside it. *)
Lemma read_at_app_l (c x : list byte) (pos n : Z) :
  0 <= pos -> 0 <= n -> pos + n <= len c ->
  read_at (c ++ x) pos n = read_at c pos n.
Proof.
  intros Hp Hn Hle. unfold read_at. rewrite len_app.
  pose proof (len_nonneg x).
  destruct (decide (len c <= pos)) as [Hc|Hc].
  - assert (n = 0) as -> by lia. simpl. by case_decide.
  - rewrite decide_False by lia.
    rewrite drop_app_le by (unfold len in *; lia).
    rewrite take_app_le; [done|]. rewrite length_drop. unfold len in *. lia.
Qed.

(** A slice past a prefix. *)
Lemma read_at_app_r (a c : list byte) (pos n : Z) :
  0 <= pos -> 0 <= n ->
  read_at (a ++ c) (len a + pos) n = read_at c pos n.
Proof.
  intros Hp Hn. unfold read_at. rewrite len_app.
  destruct (decide (len c <= pos)) as [Hc|Hc].
  - by rewrite decide_True by lia.
  - rewrite decide_False by lia.
    rewrite drop_app_ge by (unfold len; lia).
    do 2 f_equal. unfold len. lia.
Qed.

(** ** Index entries *)

Lemma lor_flag (q : Z) : 0 <= q < 2 ^ 31 -> Z.lor q 0x80000000 = q + 2 ^ 31.
Proof.
  intros Hq. pose proof (Zbitwise.Z.add_lor_land q 0x80000000) as Hadd.
  assert (Z.land q 0x80000000 = 0) as Hland; [|lia].
  apply Z.bits_inj'. intros n Hn.
  rewrite Z.land_spec, Z.bits_0.
  change 0x80000000 with (2 ^ 31). rewrite Z.pow2_bits_eqb by lia.
  destruct (Z.eqb_spec 31 n) as [<-|]; [|apply andb_false_r].
  rewrite andb_true_r. apply Z.testbit_false; [lia|].
  by rewrite Z.div_small by lia.
Qed.

Lemma entry_offset_mod (e : Z) : entry_offset 2 e = 4 * (e mod 2 ^ 31).
Proof.
  unfold entry_offset. change 0x7FFFFFFF with (Z.ones 31).
  rewrite Z.land_ones, Z.shiftl_mul_pow2 by lia. lia.
Qed.

Lemma entry_compressed_div (e : Z) :
  entry_compressed e = bool_decide ((e / 2 ^ 31) mod 2 = 1).
Proof.
  unfold entry_compressed. symmetry.
  destruct (Z.testbit e 31) eqn:Hb.
  - apply bool_decide_eq_true. by apply Z.testbit_true in Hb.
  - apply bool_decide_eq_false. apply Z.testbit_false in Hb; lia.
Qed.

Lemma shiftr_2 (p : Z) : Z.shiftr p 2 = p / 4.
Proof. by rewrite Z.shiftr_div_pow2. Qed.

Lemma land_3 (p : Z) : Z.land p 3 = p mod 4.
Proof. change 3 with (Z.ones 2). by rewrite Z.land_ones. Qed.

Lemma aligned_mod (p : Z) : aligned p mod 4 = 0.
Proof. unfold aligned. case_decide; Z.div_mod_to_equations; lia. Qed.

Lemma aligned_bounds (p : Z) : p <= aligned p <= p + 3.
Proof. unfold aligned. case_decide; Z.div_mod_to_equations; lia. Qed.

Lemma aligned_id (p : Z) : p mod 4 = 0 -> aligned p = p.
Proof. intros. unfold aligned. by rewrite decide_True. Qed.

(** An entry decodes to the offset and the flag it was built from. *)
Lemma index_entry_decode (off : Z) (c : bool) :
  0 <= off < 2 ^ 33 -> off mod 4 = 0 ->
  entry_offset 2 (index_entry off c) = off
  /\ entry_compressed (index_entry off c) = c.
Proof.
  intros Hoff Hal. rewrite entry_offset_mod, entry_compressed_div.
  unfold index_entry. rewrite shiftr_2.
  assert (0 <= off / 4 < 2 ^ 31) by (Z.div_mod_to_equations; lia).
  destruct c.
  - rewrite lor_flag by done. split.
    + Z.div_mod_to_equations; lia.
    + apply bool_decide_eq_true. Z.div_mod_to_equations; lia.
  - split.
    + Z.div_mod_to_equations; lia.
    + apply bool_decide_eq_false. Z.div_mod_to_equations; lia.
Qed.

Lemma index_entry_range (off : Z) (c : bool) :
  0 <= off < 2 ^ 33 -> 0 <= index_entry off c < 2 ^ 32.
Proof.
  intros. unfold index_entry. rewrite shiftr_2.
  assert (0 <= off / 4 < 2 ^ 31) by (Z.div_mod_to_equations; lia).
  destruct c; [rewrite lor_flag by done|]; lia.
Qed.

(** ** One iteration of the encode loop *)

Section EncoderFacts.

Variable compress : list byte -> list byte.
Variable base : string.

Lemma path_1_ne_2 : path_1 base <> path_2 base.
Proof. unfold path_1, path_2. intros H. apply (inj _) in H. discriminate. Qed.

Lemma contents_insert_eq (fs : gmap string (list byte)) (p : string) c :
  contents (<[p := c]> fs) p = c.
Proof. unfold contents. by rewrite lookup_insert_eq. Qed.

Lemma contents_insert_ne (fs : gmap string (list byte)) (p q : string) c :
  p <> q -> contents (<[p := c]> fs) q = contents fs q.
Proof. intros. unfold contents. by rewrite lookup_insert_ne. Qed.

(** The split test: the cursor leaves it at most at the threshold. *)
Lemma maybe_split_spec (st : enc_state) :
  enc_inv base st ->
  let sw := bool_decide (write_pos st > SPLIT_THRESHOLD) in
  exists st1,
    maybe_split base st = (st1, sw)
    /\ enc_inv base st1
    /\ write_pos st1 = (if sw then 0 else write_pos st)
    /\ write_pos st1 <= SPLIT_THRESHOLD
    /\ files st1 = (if sw then <[path_2 base := []]> (files st) else files st)
    /\ split_fout st1 = (if sw then Fout2 else split_fout st)
    /\ fout_1 st1 = fout_1 st
    /\ fin_pos st1 = fin_pos st
    /\ block_index st1 = block_index st.
Proof.
  intros Hinv sw. subst sw. unfold maybe_split.
  destruct (decide (write_pos st > SPLIT_THRESHOLD)) as [Hgt|Hle].
  - rewrite bool_decide_eq_true_2 by done. simpl.
    eexists. split; [done|]. destruct Hinv as (? & ? & ? & ? & ?).
    split; [|by split_and!].
    unfold enc_inv, enc_inv_at, active_path. simpl.
    rewrite contents_insert_eq, lookup_insert_eq.
    rewrite lookup_insert_ne by (apply not_eq_sym, path_1_ne_2).
    by split_and!.
  - rewrite bool_decide_eq_false_2 by done.
    eexists. split_and!; try done; lia.
Qed.

(** A write through [split_fout] appends to the active file. *)
Lemma split_write_spec (st : enc_state) (p : Z) (d : list byte) :
  enc_inv_at base st p ->
  exists st2,
    split_write st d = Some st2
    /\ enc_inv_at base st2 (p + len d)
    /\ files st2 = <[active_path base st :=
                      contents (files st) (active_path base st) ++ d]> (files st)
    /\ split_fout st2 = split_fout st
    /\ write_pos st2 = write_pos st
    /\ fin_pos st2 = fin_pos st
    /\ block_index st2 = block_index st.
Proof.
  intros (Hp & Hpath & Hopen & Hex1 & Hex & Hlen & Hact).
  destruct st as [fs f1 f2 sf fp wp bi]. simpl in *.
  unfold split_write, active_path in *. simpl in *.
  pose proof (len_nonneg d).
  assert (forall q c, is_Some (<[q := c]> fs !! path_1 base)) as Hex1'.
  { intros q c. rewrite lookup_insert. case_decide; [by eexists | done]. }
  destruct sf; simpl in *.
  - destruct Hact as [-> Hpos]. unfold py_write. rewrite Hpath, Hpos.
    rewrite write_at_end by done.
    eexists. split; [done|]. unfold enc_inv_at, active_path; simpl.
    rewrite contents_insert_eq, len_app, lookup_insert_eq.
    split_and!; try done; lia.
  - rewrite Hact. simpl. rewrite write_at_end by done.
    eexists. split; [done|]. unfold enc_inv_at, active_path; simpl.
    rewrite contents_insert_eq, len_app, lookup_insert_eq.
    split_and!; try done; lia.
Qed.

Lemma insert_contents_id (fs : gmap string (list byte)) (p : string) :
  is_Some (fs !! p) -> <[p := contents fs p]> fs = fs.
Proof. intros [c Hc]. apply insert_id. unfold contents. by rewrite Hc. Qed.

(** The alignment step leaves the cursor at the next multiple of 4. *)
Lemma write_alignment_spec (st : enc_state) :
  enc_inv base st ->
  exists st2,
    write_alignment 4 st = Some st2
    /\ enc_inv base st2
    /\ write_pos st2 = aligned (write_pos st)
    /\ files st2 = <[active_path base st :=
                      contents (files st) (active_path base st)
                        ++ zeros (aligned (write_pos st) - write_pos st)]>
                     (files st)
    /\ split_fout st2 = split_fout st
    /\ fin_pos st2 = fin_pos st
    /\ block_index st2 = block_index st.
Proof.
  intros Hinv. unfold write_alignment. change (4 - 1) with 3.
  rewrite land_3. unfold aligned.
  destruct (decide (write_pos st mod 4 = 0)) as [H0|Hn0].
  - rewrite decide_False by lia. eexists. split; [done|].
    rewrite Z.sub_diag. change (zeros 0) with (@nil byte).
    rewrite app_nil_r. split_and!; try done.
    symmetry. apply insert_contents_id. apply Hinv.
  - rewrite decide_True by done.
    assert (0 < 4 - write_pos st mod 4 <= 3) by (Z.div_mod_to_equations; lia).
    rewrite take_zeros by lia.
    destruct (split_write_spec st _ (zeros (4 - write_pos st mod 4)) Hinv)
      as (st2 & -> & Hinv2 & Hfs & Hsf & Hwp & Hfp & Hbi).
    simpl. eexists. split; [done|].
    rewrite len_zeros in Hinv2.
    replace (write_pos st + (4 - write_pos st mod 4) - write_pos st)
      with (4 - write_pos st mod 4) by lia.
    destruct st2; simpl in *. subst.
    split_and!; try done.
    unfold enc_inv, enc_inv_at in *. simpl in *.
    replace (write_pos st + Z.max 0 (4 - write_pos st mod 4))
      with (write_pos st + (4 - write_pos st mod 4)) in Hinv2 by lia.
    done.
Qed.

Lemma set_index_Some (st : enc_state) (i v : Z) :
  0 <= i < len (block_index st) ->
  set_index st i v
  = Some (EncState (files st) (fout_1 st) (fout_2 st) (split_fout st)
            (fin_pos st) (write_pos st) (<[Z.to_nat i := v]> (block_index st))).
Proof. intros. unfold set_index. by rewrite decide_True. Qed.

(** The invariant on file objects does not read the other variables. *)
Lemma enc_inv_at_fields (st : enc_state) (fp wp : Z) (bi : list Z) (p : Z) :
  enc_inv_at base st p ->
  enc_inv_at base
    (EncState (files st) (fout_1 st) (fout_2 st) (split_fout st) fp wp bi) p.
Proof. done. Qed.

Variable src : list byte.
Variable ciso : ciso_info.

(** What one iteration does to a state that satisfies the invariant: it
    always completes, and every variable of the next state is determined. *)
Lemma encode_block_spec (st : enc_state) (block : Z) :
  align ciso = 2 -> block_size ciso = CISO_BLOCK_SIZE ->
  enc_inv base st -> 0 <= block < len (block_index st) ->
  let sw := bool_decide (write_pos st > SPLIT_THRESHOLD) in
  let p0 := if sw then 0 else write_pos st in
  let off := aligned p0 in
  let raw := read_at src (fin_pos st) CISO_BLOCK_SIZE in
  let comp := bool_decide (len (compress raw) + 12 < len raw) in
  let data := if comp then compress raw else raw in
  exists st',
    encode_block compress base src ciso st block
      = Some (st', Placement sw off raw comp data)
    /\ enc_inv base st'
    /\ write_pos st' = off + len data
    /\ fin_pos st' = fin_pos st + len raw
    /\ block_index st' = <[Z.to_nat block := index_entry off comp]> (block_index st)
    /\ split_fout st' = (if sw then Fout2 else split_fout st)
    /\ files st' = <[active_path base st' :=
                      (if sw then [] else contents (files st) (active_path base st))
                        ++ zeros (off - p0) ++ data]> (files st).
Proof.
  intros Hal Hbs Hinv Hblock sw p0 off raw comp data.
  unfold encode_block.
  destruct (maybe_split_spec st Hinv)
    as (st1 & -> & Hinv1 & Hwp1 & Hle1 & Hfs1 & Hsf1 & Hf1 & Hfp1 & Hbi1).
  fold sw in Hwp1, Hfs1, Hsf1. fold p0 in Hwp1.
  rewrite Hal. change (Z.shiftl 1 2) with 4.
  destruct (write_alignment_spec st1 Hinv1)
    as (st2 & -> & Hinv2 & Hwp2 & Hfs2 & Hsf2 & Hfp2 & Hbi2).
  rewrite Hwp1 in Hwp2, Hfs2. fold off in Hwp2, Hfs2.
  cbn [mbind option_bind].
  rewrite (set_index_Some st2 block) by (rewrite Hbi2, Hbi1; done).
  cbn [mbind option_bind fin_pos write_pos block_index files fout_1 fout_2
       split_fout].
  rewrite Hbs, Hfp2, Hfp1. fold raw.
  assert (active_path base st2 = active_path base st1) as Hap2
    by (unfold active_path; by rewrite Hsf2).
  assert (active_path base st1 = if sw then path_2 base else active_path base st)
    as Hap1.
  { unfold active_path. rewrite Hsf1. by destruct sw. }
  assert (contents (files st2) (active_path base st2)
          = (if sw then [] else contents (files st) (active_path base st))
              ++ zeros (off - p0)) as Hc2.
  { rewrite Hfs2, Hap2, contents_insert_eq. f_equal.
    rewrite Hfs1, Hap1. destruct sw; [|done]. apply contents_insert_eq. }
  assert (forall c, <[active_path base st2 := c]> (files st2)
                    = <[active_path base st2 := c]> (files st)) as Hins.
  { intros c. rewrite Hfs2, Hap2, insert_insert_eq, Hfs1, Hap1.
    destruct sw; [|done]. by rewrite insert_insert_eq. }
  destruct (decide (len (compress raw) + 12 >= len raw)) as [Hst|Hcomp].
  - assert (comp = false) as Hc by (apply bool_decide_eq_false; lia).
    subst data. rewrite Hc.
    match goal with |- context [split_write ?s raw] =>
      destruct (split_write_spec s (write_pos st2) raw)
        as (st3 & -> & Hinv3 & Hfs3 & Hsf3 & Hwp3 & Hfp3 & Hbi3);
        [by apply enc_inv_at_fields|] end.
    cbn [mbind option_bind]. eexists. split; [by rewrite Hwp2|].
    cbn [files split_fout write_pos fin_pos block_index set_write_pos] in *.
    unfold index_entry. rewrite Hbi3, Hbi2, Hbi1, Hfp3, Hwp3, Hwp2.
    split_and!; try done.
    + unfold enc_inv. rewrite Hwp3. exact Hinv3.
    + rewrite Hsf3, Hsf2. done.
    + replace (active_path base st3) with (active_path base st2)
        by (unfold active_path; by rewrite Hsf3).
      change (active_path base (set_write_pos _ _))
        with (active_path base st2) in Hfs3.
      rewrite Hfs3, Hc2, Hins, <- app_assoc. done.
  - assert (comp = true) as Hc by (apply bool_decide_eq_true; lia).
    subst data. rewrite Hc.
    cbn [block_index].
    rewrite list_lookup_insert_eq
      by (rewrite Hbi2, Hbi1; unfold len in Hblock; lia).
    cbn [mbind option_bind].
    rewrite set_index_Some
      by (cbn [block_index]; rewrite len_insert, Hbi2, Hbi1; done).
    cbn [mbind option_bind set_write_pos block_index files fout_1 fout_2
         split_fout fin_pos write_pos].
    match goal with |- context [split_write ?s (compress raw)] =>
      destruct (split_write_spec s (write_pos st2) (compress raw))
        as (st3 & -> & Hinv3 & Hfs3 & Hsf3 & Hwp3 & Hfp3 & Hbi3);
        [by apply enc_inv_at_fields|] end.
    cbn [mbind option_bind]. eexists. split; [by rewrite Hwp2|].
    cbn [files split_fout write_pos fin_pos block_index set_write_pos] in *.
    unfold index_entry.
    rewrite Hbi3, list_insert_insert_eq, Hbi2, Hbi1, Hfp3, Hwp3, Hwp2.
    split_and!; try done.
    + unfold enc_inv. rewrite Hwp3. exact Hinv3.
    + rewrite Hsf3, Hsf2. done.
    + replace (active_path base st3) with (active_path base st2)
        by (unfold active_path; by rewrite Hsf3).
      change (active_path base (set_write_pos _ _))
        with (active_path base st2) in Hfs3.
      rewrite Hfs3, Hc2, Hins, <- app_assoc. done.
Qed.

(** ** The encode loop *)

Lemma encode_loop_app (st : enc_state) (l1 l2 : list Z) :
  encode_loop compress base src ciso st (l1 ++ l2)
  = '(st1, log1) ← encode_loop compress base src ciso st l1;
    '(st2, log2) ← encode_loop compress base src ciso st1 l2;
    Some (st2, log1 ++ log2).
Proof.
  revert st. induction l1 as [|b l1 IH]; intros st; simpl.
  - by destruct (encode_loop compress base src ciso st l2) as [[??]|].
  - destruct (encode_block compress base src ciso st b) as [[st1 p]|]; [|done].
    simpl. rewrite IH.
    destruct (encode_loop compress base src ciso st1 l1) as [[st2 log1]|];
      [|done].
    simpl.
    by destruct (encode_loop compress base src ciso st2 l2) as [[??]|].
Qed.

End EncoderFacts.

(** ** The layout of a run *)

Section Layout.

Variable compress : list byte -> list byte.
Variable src : list byte.

Lemma cursor_after_snoc (w : Z) (log : list placement) (p : placement) :
  cursor_after w (log ++ [p]) = pl_end p.
Proof. unfold cursor_after. by rewrite foldl_app. Qed.

Lemma source_after_snoc (fp : Z) (log : list placement) (p : placement) :
  source_after fp (log ++ [p]) = source_after fp log + len (pl_raw p).
Proof. unfold source_after. by rewrite foldl_app. Qed.

Lemma length_layout (w fp : Z) (k : nat) :
  length (layout compress src w fp k) = k.
Proof. revert w fp. induction k; intros; simpl; [done|]. by rewrite IHk. Qed.

Lemma layout_add (a b : nat) (w fp : Z) :
  layout compress src w fp (a + b)
  = layout compress src w fp a
      ++ layout compress src
           (cursor_after w (layout compress src w fp a))
           (source_after fp (layout compress src w fp a)) b.
Proof.
  revert w fp. induction a as [|a IH]; intros w fp; [done|].
  cbn [Nat.add layout]. rewrite IH. done.
Qed.

Lemma layout_S_r (k : nat) (w fp : Z) :
  layout compress src w fp (S k)
  = layout compress src w fp k
      ++ [place compress src
            (cursor_after w (layout compress src w fp k))
            (source_after fp (layout compress src w fp k))].
Proof. replace (S k) with (k + 1)%nat by lia. by rewrite layout_add. Qed.

Lemma take_layout (i k : nat) (w fp : Z) :
  (i <= k)%nat ->
  take i (layout compress src w fp k) = layout compress src w fp i.
Proof.
  intros. replace k with (i + (k - i))%nat by lia.
  rewrite layout_add. apply take_app_length'. by rewrite length_layout.
Qed.

(** Every entry of a layout is [place] at the cursor the entries before it
    leave. *)
Lemma layout_lookup (w fp : Z) (k i : nat) (p : placement) :
  layout compress src w fp k !! i = Some p ->
  (i < k)%nat
  /\ p = place compress src
           (cursor_after w (layout compress src w fp i))
           (source_after fp (layout compress src w fp i)).
Proof.
  intros Hp. assert (i < k)%nat as Hi.
  { apply lookup_lt_Some in Hp. by rewrite length_layout in Hp. }
  split; [done|].
  replace k with (S i + (k - S i))%nat in Hp by lia.
  rewrite layout_add, layout_S_r in Hp.
  rewrite lookup_app_l in Hp by (rewrite length_app, length_layout; simpl; lia).
  rewrite lookup_app_r in Hp by (rewrite length_layout; lia).
  rewrite length_layout, Nat.sub_diag in Hp. by injection Hp.
Qed.

Lemma pl_end_place_bounds (w fp : Z) :
  0 <= w ->
  0 <= pl_offset (place compress src w fp) <= SPLIT_THRESHOLD
  /\ pl_offset (place compress src w fp)
     <= pl_end (place compress src w fp)
     <= SPLIT_THRESHOLD + CISO_BLOCK_SIZE.
Proof.
  intros Hw. unfold pl_end, place. cbn [pl_offset pl_data].
  set (raw := read_at src fp CISO_BLOCK_SIZE).
  assert (len raw <= CISO_BLOCK_SIZE) as Hraw by (by apply len_read_at_le).
  assert (0 <= len (if bool_decide (len (compress raw) + 12 < len raw)
                    then compress raw else raw) <= CISO_BLOCK_SIZE) as Hd.
  { case_bool_decide; unfold len in *; lia. }
  revert Hd. generalize (len (if bool_decide (len (compress raw) + 12 < len raw)
                    then compress raw else raw)). intros d Hd.
  assert (forall x, 0 <= x <= SPLIT_THRESHOLD ->
                    0 <= aligned x <= SPLIT_THRESHOLD) as Hal.
  { intros x Hx. pose proof (aligned_bounds x). pose proof (aligned_mod x).
    unfold SPLIT_THRESHOLD in *. Z.div_mod_to_equations. lia. }
  case_bool_decide.
  - specialize (Hal 0). unfold SPLIT_THRESHOLD in *. lia.
  - specialize (Hal w). lia.
Qed.

Lemma cursor_after_layout_nonneg (w fp : Z) (k : nat) :
  0 <= w -> 0 <= cursor_after w (layout compress src w fp k).
Proof.
  intros Hw. induction k as [|k IH]; [done|].
  rewrite layout_S_r, cursor_after_snoc.
  match goal with |- context [place _ _ ?c ?f] =>
    pose proof (pl_end_place_bounds c f IH) end.
  lia.
Qed.

Lemma cursor_after_layout_S (w fp : Z) (k : nat) (p : placement) :
  layout compress src w fp (S k) !! k = Some p ->
  cursor_after w (layout compress src w fp (S k)) = pl_end p.
Proof.
  rewrite layout_S_r, cursor_after_snoc.
  rewrite lookup_app_r by (rewrite length_layout; lia).
  rewrite length_layout, Nat.sub_diag. by intros [= <-].
Qed.

(** The recorded offsets are multiples of 4 below the threshold, and every
    payload ends within one block of it. *)
Lemma layout_offsets (w fp : Z) (k i : nat) (p : placement) :
  0 <= w ->
  layout compress src w fp k !! i = Some p ->
  0 <= pl_offset p <= SPLIT_THRESHOLD
  /\ pl_offset p mod 4 = 0
  /\ pl_offset p <= pl_end p <= SPLIT_THRESHOLD + CISO_BLOCK_SIZE.
Proof.
  intros Hw Hp. apply layout_lookup in Hp as [Hi ->].
  match goal with |- context [place _ _ ?c ?f] =>
    pose proof (pl_end_place_bounds c f
                  (cursor_after_layout_nonneg w fp i Hw)) as [H1 H2] end.
  split_and!; try lia. apply aligned_mod.
Qed.

(** The store-or-compress decision recorded in a log entry. *)
Lemma layout_decision (w fp : Z) (k i : nat) (p : placement) :
  layout compress src w fp k !! i = Some p ->
  pl_compressed p = bool_decide (len (compress (pl_raw p)) + 12 < len (pl_raw p))
  /\ pl_data p = (if pl_compressed p then compress (pl_raw p) else pl_raw p)
  /\ (pl_switched p = true -> pl_offset p = 0).
Proof.
  intros Hp. apply layout_lookup in Hp as [Hi ->].
  unfold place. cbn [pl_compressed pl_data pl_raw pl_offset pl_switched].
  split_and!; try done. by intros ->.
Qed.

(** Consecutive entries: the next block is placed at the aligned end of the
    previous payload unless the split branch is taken. *)
Lemma layout_next (w fp : Z) (k i : nat) (p q : placement) :
  layout compress src w fp k !! i = Some p ->
  layout compress src w fp k !! S i = Some q ->
  pl_switched q = bool_decide (pl_end p > SPLIT_THRESHOLD)
  /\ pl_offset q = aligned (if pl_switched q then 0 else pl_end p).
Proof.
  intros Hp Hq. pose proof Hq as Hq'. apply layout_lookup in Hq' as [Hi ->].
  assert (layout compress src w fp (S i) !! i = Some p) as Hp'.
  { rewrite <- (take_layout (S i) k) by lia. rewrite lookup_take_lt by lia. done. }
  rewrite (cursor_after_layout_S _ _ _ _ Hp'). done.
Qed.

(** With whole blocks left to read, block [i] is read at [fp + 2048 * i]. *)
Lemma source_after_layout (fp w : Z) (k : nat) :
  0 <= fp -> fp + CISO_BLOCK_SIZE * Z.of_nat k <= len src ->
  source_after fp (layout compress src w fp k)
  = fp + CISO_BLOCK_SIZE * Z.of_nat k.
Proof.
  unfold CISO_BLOCK_SIZE. intros Hfp. induction k as [|k IH]; intros Hle.
  - simpl. lia.
  - rewrite layout_S_r, source_after_snoc, IH by lia.
    unfold place. cbn [pl_raw]. unfold CISO_BLOCK_SIZE.
    rewrite len_read_at; lia.
Qed.

Lemma layout_raw (fp w : Z) (k i : nat) (p : placement) :
  0 <= fp -> fp + CISO_BLOCK_SIZE * Z.of_nat k <= len src ->
  layout compress src w fp k !! i = Some p ->
  pl_raw p = read_at src (fp + CISO_BLOCK_SIZE * Z.of_nat i) CISO_BLOCK_SIZE
  /\ len (pl_raw p) = CISO_BLOCK_SIZE.
Proof.
  intros Hfp Hle Hp. apply layout_lookup in Hp as [Hi ->].
  unfold place. cbn [pl_raw].
  rewrite source_after_layout by (unfold CISO_BLOCK_SIZE in *; lia).
  split; [done|]. apply len_read_at; unfold CISO_BLOCK_SIZE in *; lia.
Qed.

End Layout.

(** ** Volumes *)

Lemma switches_app (l1 l2 : list placement) :
  switches (l1 ++ l2) = (switches l1 + switches l2)%nat.
Proof. induction l1 as [|p l1 IH]; simpl; [done|]. rewrite IH. lia. Qed.

Lemma switches_take_le (log : list placement) (i : nat) :
  (switches (take i log) <= switches log)%nat.
Proof.
  rewrite <- (take_drop i log) at 2. rewrite switches_app. lia.
Qed.

Lemma volume_of_le (log : list placement) (i : nat) :
  (volume_of log i <= switches log)%nat.
Proof. apply switches_take_le. Qed.

Lemma volume_of_S (log : list placement) (i : nat) (q : placement) :
  log !! S i = Some q ->
  volume_of log (S i)
  = (volume_of log i + if pl_switched q then 1 else 0)%nat.
Proof.
  intros Hq. unfold volume_of.
  rewrite (take_S_r _ (S i) q) by done. rewrite switches_app. simpl. lia.
Qed.

Lemma volume_of_mono (log : list placement) (i j : nat) :
  (i <= j)%nat -> (volume_of log i <= volume_of log j)%nat.
Proof.
  intros Hij. unfold volume_of.
  replace (take (S i) log) with (take (S i) (take (S j) log))
    by (rewrite take_take; f_equal; lia).
  apply switches_take_le.
Qed.

Lemma volume_of_app_l (l1 l2 : list placement) (i : nat) :
  (i < length l1)%nat -> volume_of (l1 ++ l2) i = volume_of l1 i.
Proof. intros. unfold volume_of. by rewrite take_app_le by lia. Qed.

Lemma volume_of_last (log : list placement) (i : nat) :
  (length log <= S i)%nat -> volume_of log i = switches log.
Proof. intros. unfold volume_of. by rewrite take_ge by lia. Qed.

(** ** Writing the header and the index table *)

Lemma len_write_at (c d : list byte) (pos : Z) :
  0 <= pos <= len c -> len (write_at c pos d) = Z.max (len c) (pos + len d).
Proof.
  intros. unfold write_at. rewrite !len_app, len_take, len_zeros.
  unfold len. rewrite length_drop. lia.
Qed.

(** Two writes in a row are one write of the concatenation. *)
Lemma write_at_seq (c d1 d2 : list byte) (pos : Z) :
  0 <= pos <= len c ->
  write_at (write_at c pos d1) (pos + len d1) d2 = write_at c pos (d1 ++ d2).
Proof.
  intros Hpos.
  assert (length (take (Z.to_nat pos) c) = Z.to_nat pos) as Htk
    by (rewrite length_take; unfold len in *; lia).
  unfold write_at at 1. rewrite len_write_at by done.
  rewrite (zeros_nonpos (_ - _)) by lia.
  unfold write_at. rewrite (zeros_nonpos (pos - len c)) by lia. simpl.
  replace (Z.to_nat (pos + len d1))
    with (length (take (Z.to_nat pos) c ++ d1))
    by (rewrite length_app, Htk; unfold len; lia).
  rewrite (app_assoc (take _ c) d1 (drop _ c)).
  rewrite take_app_length, drop_app_add, drop_drop, length_app.
  rewrite <- !app_assoc, Nat.add_assoc. done.
Qed.

Lemma write_at_nil (c : list byte) (pos : Z) :
  0 <= pos <= len c -> write_at c pos [] = c.
Proof.
  intros. unfold write_at. rewrite zeros_nonpos by lia. simpl.
  rewrite Nat.add_0_r. apply take_drop.
Qed.

Lemma len_index_bytes (index : list Z) :
  len (index_bytes index) = 4 * len index.
Proof.
  induction index as [|e r IH]; [done|].
  cbn [index_bytes flat_map]. fold (index_bytes r).
  rewrite len_app, IH, len_le_bytes, len_cons. lia.
Qed.

Lemma index_bytes_zeros (n : nat) :
  index_bytes (replicate n 0) = zeros (4 * Z.of_nat n).
Proof.
  induction n as [|n IH]; [done|].
  cbn [replicate index_bytes flat_map]. fold (index_bytes (replicate n 0)).
  rewrite IH. replace (4 * Z.of_nat (S n)) with (4 + 4 * Z.of_nat n) by lia.
  rewrite zeros_add by lia. done.
Qed.

(** [write_block_index] with entries that all fit 32 bits: it completes, and
    the table lands at the position of the file object. *)
Lemma write_block_index_spec (index : list Z) (fs : gmap string (list byte))
    (f : pyfile) :
  Forall (fun e => 0 <= e < 2 ^ 32) index ->
  is_Some (fs !! f_path f) ->
  0 <= f_pos f <= len (contents fs (f_path f)) ->
  write_block_index fs f index
  = inl (<[f_path f := write_at (contents fs (f_path f)) (f_pos f)
                         (index_bytes index)]> fs,
         PyFile (f_path f) (f_pos f + 4 * len index) (f_closed f)).
Proof.
  revert fs f. induction index as [|e r IH]; intros fs f Hr Hex Hpos.
  - simpl. rewrite write_at_nil by done. rewrite insert_contents_id by done.
    destruct f. simpl. do 3 f_equal. unfold len. simpl. lia.
  - apply Forall_cons in Hr as [He Hr].
    cbn [write_block_index]. rewrite pack_uint_Some by done.
    unfold py_write. rewrite IH; cbn [f_path f_pos f_closed].
    + rewrite contents_insert_eq, insert_insert_eq.
      rewrite len_le_bytes, write_at_seq by done.
      rewrite len_cons. do 3 f_equal. lia.
    + done.
    + rewrite lookup_insert_eq. by eexists.
    + rewrite contents_insert_eq, len_write_at, len_le_bytes by done. lia.
Qed.

Lemma len_header_bytes (tb : Z) : len (header_bytes tb) = CISO_HEADER_SIZE.
Proof.
  unfold header_bytes. rewrite !len_app, !len_le_bytes. reflexivity.
Qed.

Lemma pack_header_check_file_size (src : list byte) (off : Z) :
  0 <= len src - off < 2 ^ 64 ->
  let ciso := check_file_size src off in
  pack_header (magic ciso) CISO_HEADER_SIZE (total_bytes ciso)
    (block_size ciso) (ver ciso) (align ciso)
  = Some (header_bytes (len src - off)).
Proof.
  intros Hr. cbn [magic total_bytes block_size ver align check_file_size].
  unfold pack_header.
  rewrite (pack_uint_Some 4 CISO_MAGIC) by (by compute).
  rewrite (pack_uint_Some 4 CISO_HEADER_SIZE) by (by compute).
  rewrite (pack_uint_Some 8 (len src - off)) by done.
  rewrite (pack_uint_Some 4 CISO_BLOCK_SIZE) by (by compute).
  rewrite !(pack_uint_Some 1 2) by (by compute).
  reflexivity.
Qed.

(** A source size that does not fit 64 bits makes [struct.pack] raise. *)
Lemma pack_header_too_big (src : list byte) (off : Z) :
  ~ len src - off < 2 ^ 64 ->
  let ciso := check_file_size src off in
  pack_header (magic ciso) CISO_HEADER_SIZE (total_bytes ciso)
    (block_size ciso) (ver ciso) (align ciso)
  = None.
Proof.
  intros Hbig. cbn [magic total_bytes block_size ver align check_file_size].
  unfold pack_header.
  rewrite (pack_uint_Some 4 CISO_MAGIC) by (by compute).
  rewrite (pack_uint_Some 4 CISO_HEADER_SIZE) by (by compute).
  cbn [mbind option_bind].
  assert (pack_uint 8 (len src - off) = None) as ->; [|done].
  unfold pack_uint. rewrite decide_False; [done|].
  change (8 * Z.of_nat 8) with 64. lia.
Qed.

(** ** The block count *)

Lemma round53_small (a : Z) : 0 <= a < 2 ^ 53 -> round53 a = a.
Proof.
  intros Ha. unfold round53. rewrite decide_True; [done|].
  rewrite Z.abs_eq by lia.
  destruct (decide (a = 0)) as [->|]; [done|].
  assert (Z.log2 a < 53) by (apply Z.log2_lt_pow2; lia). lia.
Qed.

Lemma round53_nonneg (a : Z) : 0 <= a -> 0 <= round53 a.
Proof.
  intros Ha. unfold round53. rewrite Z.abs_eq by lia. case_decide; [done|].
  assert (0 < 2 ^ (Z.log2 a + 1 - 53)) by (apply Z.pow_pos_nonneg; lia).
  assert (0 <= a / 2 ^ (Z.log2 a + 1 - 53)) by (apply Z.div_pos; lia).
  repeat case_decide; try destruct (Z.even _); nia.
Qed.

Lemma total_blocks_nonneg (src : list byte) (off : Z) :
  0 <= len src - off -> 0 <= total_blocks (check_file_size src off).
Proof.
  intros. simpl. unfold int_truediv_pow2.
  apply Z.quot_pos; [by apply round53_nonneg | done].
Qed.

(** Below [2^53] bytes the block count is the exact integer quotient. *)
Lemma total_blocks_exact (src : list byte) (off : Z) :
  0 <= len src - off < 2 ^ 53 ->
  total_blocks (check_file_size src off) = (len src - off) / CISO_BLOCK_SIZE.
Proof.
  intros. simpl. unfold int_truediv_pow2. rewrite round53_small by done.
  apply Z.quot_div_nonneg; [lia | done].
Qed.

(** ** Detection *)

Lemma len_XBOX_MEDIA : len XBOX_MEDIA = 20.
Proof. reflexivity. Qed.

Lemma read_at_full_inv (src d : list byte) (pos : Z) :
  0 <= pos -> d <> [] -> read_at src pos (len d) = d -> pos + len d <= len src.
Proof.
  intros Hpos Hd Hr. unfold read_at in Hr. case_decide; [congruence|].
  apply (f_equal len) in Hr. rewrite len_take, len_drop in Hr. lia.
Qed.

(** A source that passes detection holds the signature [0x10000] bytes past
    the detected payload offset: the payload is not empty. *)
Lemma detect_iso_type_Some (src : list byte) (off : Z) :
  detect_iso_type src = Some off ->
  (off = 0x18300000 \/ off = 0)
  /\ read_at src (off + 0x10000) 20 = XBOX_MEDIA
  /\ off + 0x10014 <= len src.
Proof.
  unfold detect_iso_type. intros H.
  repeat case_decide; simplify_eq; (split; [auto|]); (split; [done|]).
  - eapply (read_at_full_inv _ XBOX_MEDIA 0x18310000) in H0; [|lia|done].
    rewrite len_XBOX_MEDIA in H0. lia.
  - eapply (read_at_full_inv _ XBOX_MEDIA 0x10000) in H1; [|lia|done].
    rewrite len_XBOX_MEDIA in H1. lia.
Qed.

(** ** The state of the loop after [k] iterations *)

Section Run.

Variable compress : list byte -> list byte.
Variable base : string.
Variable src : list byte.
Variable ciso : ciso_info.
Hypothesis Hal : align ciso = 2.
Hypothesis Hbs : block_size ciso = CISO_BLOCK_SIZE.

Lemma active_path_cases (st : enc_state) :
  active_path base st = path_1 base /\ split_fout st = Fout1
  \/ active_path base st = path_2 base /\ split_fout st = Fout2.
Proof. unfold active_path. destruct (split_fout st); auto. Qed.

Lemma loop_inv_init (st0 : enc_state) :
  enc_inv base st0 -> split_fout st0 = Fout1 -> loop_inv compress base src st0 st0 [].
Proof.
  intros Hinv Hsf. split; try done.
  - apply Hinv.
  - exists []. by rewrite app_nil_r.
Qed.

Lemma loop_inv_step (st0 st : enc_state) (log : list placement) :
  loop_inv compress base src st0 st log ->
  (length log < length (block_index st0))%nat ->
  let p := place compress src (write_pos st) (fin_pos st) in
  exists st',
    encode_block compress base src ciso st (Z.of_nat (length log)) = Some (st', p)
    /\ loop_inv compress base src st0 st' (log ++ [p]).
Proof.
  intros [Hinv Hst0 Hlog Hwp Hfp Hbi Hother Hfirst Hsplit Hsecond Hcur Hlow
          Hstored] Hlt p.
  assert (length (block_index st) = length (block_index st0)) as Hlenbi.
  { rewrite Hbi, length_app, length_fmap, length_drop. lia. }
  destruct (encode_block_spec compress base src ciso st (Z.of_nat (length log))
              Hal Hbs Hinv) as (st' & He & Hinv' & Hwp' & Hfp' & Hbi' & Hsf' & Hfs');
    [unfold len; lia|].
  fold p in He. change (bool_decide (write_pos st > SPLIT_THRESHOLD))
    with (pl_switched p) in Hwp', Hbi', Hsf', Hfs'.
  change (aligned (if pl_switched p then 0 else write_pos st))
    with (pl_offset p) in Hwp', Hbi', Hfs'.
  change (read_at src (fin_pos st) CISO_BLOCK_SIZE) with (pl_raw p)
    in Hwp', Hfp', Hbi', Hfs'.
  change (bool_decide (len (compress (pl_raw p)) + 12 < len (pl_raw p)))
    with (pl_compressed p) in Hwp', Hbi', Hfs'.
  change (if pl_compressed p then compress (pl_raw p) else pl_raw p)
    with (pl_data p) in Hwp', Hfs'.
  fold (pl_end p) in Hwp'. fold (entry_of p) in Hbi'.
  exists st'. split; [done|].
  pose proof (path_1_ne_2 base) as Hne.
  assert (switches (log ++ [p]) = (switches log + if pl_switched p then 1 else 0)%nat)
    as Hsw by (rewrite switches_app; simpl; lia).
  assert (split_fout st'
          = if decide (switches (log ++ [p]) = O) then Fout1 else Fout2) as Hsplit'.
  { rewrite Hsf', Hsw, Hsplit. destruct (pl_switched p).
    - by rewrite decide_False by lia.
    - rewrite Nat.add_0_r. done. }
  assert (0 <= write_pos st) as Hw0 by apply Hinv.
  assert (pl_offset p <= pl_end p) as Hoe.
  { unfold pl_end. pose proof (len_nonneg (pl_data p)). lia. }
  assert (len ((if pl_switched p then []
                else contents (files st) (active_path base st))
               ++ zeros (pl_offset p - (if pl_switched p then 0 else write_pos st)))
          = pl_offset p) as Hpre.
  { rewrite len_app, len_zeros.
    pose proof (aligned_bounds (if pl_switched p then 0 else write_pos st)) as Hab.
    change (aligned (if pl_switched p then 0 else write_pos st))
      with (pl_offset p) in Hab.
    destruct (pl_switched p); [rewrite len_nil; lia|].
    destruct Hinv as (_ & _ & _ & _ & _ & -> & _). lia. }
  split.
  - done.
  - done.
  - rewrite length_app. simpl. rewrite Nat.add_1_r, layout_S_r, <- Hlog.
    by rewrite <- Hwp, <- Hfp.
  - by rewrite cursor_after_snoc.
  - by rewrite source_after_snoc, Hfp', Hfp.
  - rewrite Hbi', Hbi, Nat2Z.id.
    rewrite insert_app_r_alt by (rewrite length_fmap; lia).
    rewrite length_fmap, Nat.sub_diag, fmap_app, length_app. simpl.
    destruct (lookup_lt_is_Some_2 (block_index st0) (length log) Hlt) as [y Hy].
    rewrite (drop_S _ y _ Hy). simpl.
    rewrite <- app_assoc. simpl. by rewrite Nat.add_1_r.
  - intros q Hq1 Hq2. rewrite Hfs', lookup_insert_ne; [by apply Hother|].
    destruct (active_path_cases st') as [[-> _]|[-> _]]; done.
  - destruct Hfirst as [rest Hrest].
    destruct (active_path_cases st') as [[Hap' Hs']|[Hap' Hs']].
    + assert (pl_switched p = false) as Hnsw.
      { rewrite Hsf' in Hs'. by destruct (pl_switched p). }
      rewrite Hnsw in Hsf', Hfs'.
      assert (active_path base st = path_1 base) as Hap.
      { unfold active_path. by rewrite <- Hsf', Hs'. }
      rewrite Hfs', Hap', contents_insert_eq, Hap, Hrest.
      eexists. by rewrite <- app_assoc.
    + exists rest. rewrite Hfs', Hap', contents_insert_ne by done. done.
  - done.
  - intros Hz. rewrite Hsw in Hz.
    assert (pl_switched p = false) as Hnsw by (destruct (pl_switched p); [lia|done]).
    rewrite Hnsw, Nat.add_0_r in Hz.
    rewrite Hfs'. unfold active_path. rewrite Hsf', Hnsw, Hsplit.
    rewrite decide_True by done. rewrite lookup_insert_ne by done.
    by apply Hsecond.
  - intros Hz. rewrite Hsw in Hz.
    assert (pl_switched p = false) as Hnsw by (destruct (pl_switched p); [lia|done]).
    rewrite Hnsw, Nat.add_0_r in Hz. specialize (Hcur Hz).
    rewrite Hwp'.
    pose proof (aligned_bounds (if pl_switched p then 0 else write_pos st)) as Hab.
    change (aligned (if pl_switched p then 0 else write_pos st))
      with (pl_offset p) in Hab. rewrite Hnsw in Hab. lia.
  - intros i q Hq Hv.
    destruct (decide (i < length log)%nat) as [Hi|Hi].
    + rewrite lookup_app_l in Hq by done.
      rewrite volume_of_app_l in Hv by done. by eapply Hlow.
    + assert (i = length log) as ->.
      { apply lookup_lt_Some in Hq. rewrite length_app in Hq. simpl in Hq. lia. }
      rewrite lookup_app_r, Nat.sub_diag in Hq by lia. injection Hq as <-.
      rewrite volume_of_last in Hv by (rewrite length_app; simpl; lia).
      rewrite Hsw in Hv.
      assert (pl_switched p = false) as Hnsw
        by (destruct (pl_switched p); [lia|done]).
      rewrite Hnsw, Nat.add_0_r in Hv. specialize (Hcur Hv).
      pose proof (aligned_bounds (if pl_switched p then 0 else write_pos st)) as Hab.
      change (aligned (if pl_switched p then 0 else write_pos st))
        with (pl_offset p) in Hab. rewrite Hnsw in Hab. lia.
  - intros i q Hq Hret.
    destruct (decide (i < length log)%nat) as [Hi|Hi].
    + rewrite lookup_app_l in Hq by done.
      unfold retrievable, volume_path in *.
      rewrite volume_of_app_l in * by done.
      pose proof (volume_of_le log i) as Hvle.
      assert (0 <= pl_offset q) as Hq0.
      { rewrite Hlog in Hq. by apply layout_offsets in Hq as [[? _] _]. }
      pose proof (len_nonneg (pl_data q)) as Hdq.
      destruct (pl_switched p) eqn:Hswp.
      * assert (volume_of log i = O) as Hv0 by lia.
        destruct (Hstored i q Hq (or_introl Hv0)) as [Hle Hrd].
        rewrite decide_True in * by done.
        rewrite Hfs'. unfold active_path. rewrite Hsf'.
        by rewrite contents_insert_ne by done.
      * rewrite Hsw, Nat.add_0_r in Hret.
        destruct (Hstored i q Hq Hret) as [Hle Hrd].
        assert (active_path base st' = active_path base st) as Hap
          by (unfold active_path; by rewrite Hsf').
        rewrite Hfs', Hap.
        set (vp := if decide (volume_of log i = O) then path_1 base
                   else path_2 base) in *.
        destruct (decide (vp = active_path base st)) as [Heq|Hneq].
        -- rewrite <- Heq, contents_insert_eq.
           unfold pl_end in Hle.
           rewrite read_at_app_l by lia. rewrite len_app.
           pose proof (len_nonneg (zeros (pl_offset p - write_pos st) ++ pl_data p)).
           split; [unfold pl_end; lia|done].
        -- by rewrite contents_insert_ne by done.
    + assert (i = length log) as ->.
      { apply lookup_lt_Some in Hq. rewrite length_app in Hq. simpl in Hq. lia. }
      rewrite lookup_app_r, Nat.sub_diag in Hq by lia. injection Hq as <-.
      unfold volume_path.
      rewrite volume_of_last by (rewrite length_app; simpl; lia).
      assert ((if decide (switches (log ++ [p]) = O) then path_1 base
               else path_2 base) = active_path base st') as ->.
      { unfold active_path. rewrite Hsplit'. by case_decide. }
      rewrite Hfs', contents_insert_eq, app_assoc.
      rewrite read_at_app_end by done.
      split; [|done]. rewrite len_app, Hpre. unfold pl_end. lia.
Qed.

(** The loop over the first [k] block numbers completes; its log is the
    layout from the cursor and source position on entry. *)
Lemma encode_prefix_spec (st0 : enc_state) (k : nat) :
  enc_inv base st0 -> split_fout st0 = Fout1 ->
  (k <= length (block_index st0))%nat ->
  exists st,
    encode_loop compress base src ciso st0 (Z.of_nat <$> seq 0 k)
      = Some (st, layout compress src (write_pos st0) (fin_pos st0) k)
    /\ loop_inv compress base src st0 st
         (layout compress src (write_pos st0) (fin_pos st0) k).
Proof.
  intros Hinv Hsf. induction k as [|k IH]; intros Hk.
  - exists st0. split; [done|]. by apply loop_inv_init.
  - destruct IH as (st & He & Hli); [lia|].
    destruct (loop_inv_step st0 st _ Hli) as (st' & Hstep & Hli').
    { rewrite length_layout. lia. }
    rewrite length_layout in Hstep.
    exists st'. rewrite seq_S, fmap_app, encode_loop_app, He.
    cbn [mbind option_bind fmap list_fmap encode_loop Nat.add].
    rewrite Hstep. cbn [mbind option_bind].
    rewrite layout_S_r, <- (li_write_pos _ _ _ _ _ _ Hli), <- (li_fin_pos _ _ _ _ _ _ Hli).
    split; [done|]. exact Hli'.
Qed.

End Run.

(** ** Padding *)

Lemma land_3FF (n : Z) : Z.land n 0x3FF = n mod 0x400.
Proof. change 0x3FF with (Z.ones 10). by rewrite Z.land_ones. Qed.

Lemma padded_spec (c : list byte) :
  exists k, padded c = c ++ zeros k /\ 1 <= k <= 0x400
            /\ len (padded c) mod 0x400 = 0
            /\ len c < len (padded c) <= len c + 0x400.
Proof.
  unfold padded. rewrite land_3FF. eexists. split; [done|].
  rewrite len_app, len_zeros. pose proof (len_nonneg c).
  Z.div_mod_to_equations. lia.
Qed.

Lemma pad_file_size_spec (fs : gmap string (list byte)) (f : pyfile) :
  pad_file_size fs f
  = (<[f_path f := padded (contents fs (f_path f))]> fs,
     PyFile (f_path f) (len (padded (contents fs (f_path f)))) (f_closed f)).
Proof.
  unfold pad_file_size, py_seek_end, py_write. cbn [f_path f_pos f_closed].
  rewrite write_at_end by done. unfold padded. f_equal. f_equal.
  by rewrite len_app.
Qed.

(** ** A whole run *)

Section WholeRun.

Variable compress : list byte -> list byte.
Variable base : string.

Lemma header_reserved_spec (fs : gmap string (list byte)) (src : list byte)
    (off : Z) :
  0 <= len src - off < 2 ^ 64 ->
  header_reserved (<[path_1 base := []]> fs) (PyFile (path_1 base) 0 false)
    (check_file_size src off) off
  = inr (loop_entry base fs src off).
Proof.
  intros Hr. unfold header_reserved, write_cso_header.
  rewrite pack_header_check_file_size by done. cbn [mbind option_bind].
  unfold py_write. cbn [f_path f_pos f_closed].
  rewrite contents_insert_eq, insert_insert_eq.
  rewrite (write_at_end []) by done. rewrite app_nil_l.
  rewrite write_block_index_spec; cbn [f_path f_pos f_closed].
  - rewrite contents_insert_eq, insert_insert_eq, len_header_bytes.
    rewrite write_at_end by (by rewrite len_header_bytes).
    rewrite index_bytes_zeros, len_replicate. unfold loop_entry.
    change (total_bytes (check_file_size src off)) with (len src - off).
    done.
  - apply Forall_replicate. lia.
  - rewrite lookup_insert_eq. by eexists.
  - rewrite contents_insert_eq, len_header_bytes. unfold CISO_HEADER_SIZE. lia.
Qed.

Lemma loop_entry_inv (fs : gmap string (list byte)) (src : list byte) (off : Z) :
  enc_inv base (loop_entry base fs src off).
Proof.
  unfold enc_inv, enc_inv_at, loop_entry, active_path.
  cbn [files fout_1 fout_2 split_fout write_pos f_path f_pos f_closed].
  rewrite contents_insert_eq, lookup_insert_eq, len_app, len_header_bytes,
    len_zeros.
  unfold CISO_HEADER_SIZE. split_and!; try done; lia.
Qed.

(** Overwriting a slice with bytes of the same length. *)
Lemma write_at_app_mid (a d d' b : list byte) (pos : Z) :
  pos = len a -> len d' = len d ->
  write_at (a ++ d ++ b) pos d' = a ++ d' ++ b.
Proof.
  intros -> Hd. pose proof (len_nonneg a). pose proof (len_nonneg d).
  rewrite write_at_inside by (rewrite ?len_app; unfold len in *; lia).
  unfold len at 1. rewrite Nat2Z.id, take_app_length. do 2 f_equal.
  replace (Z.to_nat (len a + len d')) with (length a + length d)%nat
    by (unfold len in *; lia).
  by rewrite drop_app_add, drop_app_length.
Qed.

(** [finalize] on a loop state whose first volume starts with a header and an
    index table of the right size. *)
Lemma finalize_spec (ciso : ciso_info) (st1 : enc_state) (hdr old rest : list byte) :
  align ciso = 2 ->
  enc_inv base st1 ->
  contents (files st1) (path_1 base) = hdr ++ old ++ rest ->
  len hdr = CISO_HEADER_SIZE ->
  len old = 4 * len (block_index st1) ->
  block_index st1 <> [] ->
  Forall (fun e => 0 <= e < 2 ^ 32) (block_index st1) ->
  write_pos st1 < 2 ^ 34 ->
  let bi := <[Nat.pred (length (block_index st1)) := Z.shiftr (write_pos st1) 2]>
              (block_index st1) in
  let fs1 := <[path_1 base := padded (hdr ++ index_bytes bi ++ rest)]>
               (files st1) in
  exists st,
    finalize ciso st1 = inr st
    /\ block_index st = bi
    /\ f_closed (fout_1 st) = true
    /\ split_fout st = split_fout st1
    /\ match split_fout st1 with
       | Fout1 => files st = fs1 /\ fout_2 st = None
       | Fout2 =>
           files st = <[path_2 base := padded (contents (files st1) (path_2 base))]> fs1
           /\ exists f2, fout_2 st = Some f2 /\ f_closed f2 = true
                         /\ f_path f2 = path_2 base
       end.
Proof.
  intros Hal Hinv Hc Hhdr Hold Hne Hrange Hwp bi fs1.
  pose proof Hinv as (Hw0 & Hp1 & Hopen & Hex1 & Hex & Hlen & Hact).
  unfold finalize. rewrite Hal.
  assert (0 < len (block_index st1)) as Hpos.
  { destruct (block_index st1); [done|]. rewrite len_cons.
    pose proof (len_nonneg l). lia. }
  rewrite set_index_Some by lia.
  cbn [block_index files fout_1 fout_2 split_fout write_pos fin_pos].
  replace (Z.to_nat (len (block_index st1) - 1))
    with (Nat.pred (length (block_index st1))) by (unfold len; lia).
  fold bi. unfold py_seek_set. rewrite Hp1.
  assert (Forall (fun e => 0 <= e < 2 ^ 32) bi) as Hrange'.
  { subst bi. apply Forall_insert; [done|]. rewrite shiftr_2.
    Z.div_mod_to_equations. lia. }
  assert (len (index_bytes bi) = len old) as Hlenbi.
  { rewrite len_index_bytes. subst bi. rewrite len_insert. lia. }
  rewrite write_block_index_spec; cbn [f_path f_pos f_closed]; try done.
  2:{ rewrite Hc, !len_app, Hhdr. unfold CISO_HEADER_SIZE.
      pose proof (len_nonneg old). pose proof (len_nonneg rest). lia. }
  rewrite Hc, write_at_app_mid by done.
  rewrite pad_file_size_spec. cbn [f_path f_pos f_closed].
  rewrite contents_insert_eq, insert_insert_eq. fold fs1.
  destruct (split_fout st1) eqn:Hsf.
  - destruct Hact as [-> _].
    eexists. split; [done|]. cbn. by split_and!.
  - rewrite Hact. rewrite pad_file_size_spec. cbn [f_path f_pos f_closed].
    eexists. split; [done|]. cbn. split_and!; try done.
    + subst fs1.
      rewrite (contents_insert_ne _ (path_1 base) (path_2 base))
        by apply path_1_ne_2. done.
    + eexists. by split_and!.
Qed.

Lemma cursor_after_layout_bound (src : list byte) (w fp : Z) (k : nat) :
  0 <= w -> (0 < k)%nat ->
  cursor_after w (layout compress src w fp k) <= SPLIT_THRESHOLD + CISO_BLOCK_SIZE.
Proof.
  intros Hw Hk. destruct k as [|k]; [lia|].
  rewrite layout_S_r, cursor_after_snoc.
  apply pl_end_place_bounds. by apply cursor_after_layout_nonneg.
Qed.

Lemma entries_in_range (src : list byte) (w fp : Z) (k : nat) :
  0 <= w ->
  Forall (fun e => 0 <= e < 2 ^ 32)
    (entry_of <$> layout compress src w fp k).
Proof.
  intros Hw. apply Forall_fmap, Forall_lookup. intros i p Hp.
  apply layout_offsets in Hp as [Ho _]; [|done].
  apply index_entry_range. unfold SPLIT_THRESHOLD in Ho. lia.
Qed.

(** A run on a source that passes detection completes.  Its log is the
    layout from the end of the index table, and the final state is described
    from the state [st1] the loop ends in. *)
Theorem compress_iso_run (fs : gmap string (list byte)) (src : list byte)
    (off : Z) :
  detect_iso_type src = Some off -> len src - off < 2 ^ 64 ->
  let ciso := check_file_size src off in
  let n := Z.to_nat (total_blocks ciso) in
  let st0 := loop_entry base fs src off in
  let log := layout compress src (write_pos st0) off n in
  exists st1 st rest,
    encode_loop compress base src ciso st0 (py_range (total_blocks ciso))
      = Some (st1, log)
    /\ loop_inv compress base src st0 st1 log
    /\ compress_iso compress base fs src = Done st log
    /\ contents (files st1) (path_1 base)
       = header_bytes (len src - off) ++ zeros (4 * Z.of_nat (S n)) ++ rest
    /\ block_index st = (entry_of <$> log) ++ [Z.shiftr (write_pos st1) 2]
    /\ f_closed (fout_1 st) = true
    /\ let fs1 := <[path_1 base :=
                     padded (header_bytes (len src - off)
                               ++ index_bytes (block_index st) ++ rest)]>
                    (files st1) in
       match split_fout st1 with
       | Fout1 => files st = fs1 /\ fout_2 st = None
       | Fout2 =>
           files st
           = <[path_2 base := padded (contents (files st1) (path_2 base))]> fs1
           /\ exists f2, fout_2 st = Some f2 /\ f_closed f2 = true
                         /\ f_path f2 = path_2 base
       end.
Proof.
  intros Hdet Hlt ciso n st0 log.
  pose proof (detect_iso_type_Some _ _ Hdet) as (Hoff & _ & Hlen).
  assert (0 <= len src - off < 2 ^ 64) as Hr by lia.
  pose proof (total_blocks_nonneg src off (proj1 Hr)) as Htb. fold ciso in Htb.
  assert (Z.to_nat (total_blocks ciso + 1) = S n) as Hn1 by (subst n; lia).
  assert (block_index st0 = replicate (S n) 0) as Hbi0.
  { subst st0. unfold loop_entry. cbn [block_index]. fold ciso. by rewrite Hn1. }
  assert (write_pos st0 = CISO_HEADER_SIZE + 4 * Z.of_nat (S n)) as Hw0.
  { subst st0. unfold loop_entry. cbn [write_pos]. fold ciso. by rewrite Hn1. }
  assert (contents (files st0) (path_1 base)
          = header_bytes (len src - off) ++ zeros (4 * Z.of_nat (S n))) as Hc0.
  { subst st0. unfold loop_entry. cbn [files]. fold ciso.
    by rewrite contents_insert_eq, Hn1. }
  pose proof (loop_entry_inv fs src off) as Hinv0. fold st0 in Hinv0.
  destruct (encode_prefix_spec compress base src ciso eq_refl eq_refl st0 n Hinv0)
    as (st1 & Hloop & Hli); [done | rewrite Hbi0, length_replicate; lia |].
  change (fin_pos st0) with off in Hloop, Hli. fold log in Hloop, Hli.
  destruct (li_first _ _ _ _ _ _ Hli) as [rest Hrest].
  rewrite Hc0, <- app_assoc in Hrest.
  pose proof (li_index _ _ _ _ _ _ Hli) as Hbi1.
  assert (length log = n) as Hlog by (subst log; apply length_layout).
  rewrite Hlog, Hbi0, drop_replicate in Hbi1.
  replace (S n - n)%nat with 1%nat in Hbi1 by lia. cbn [replicate] in Hbi1.
  assert (0 <= write_pos st0) as Hw0pos by (rewrite Hw0; unfold CISO_HEADER_SIZE; lia).
  destruct (finalize_spec ciso st1 (header_bytes (len src - off))
              (zeros (4 * Z.of_nat (S n))) rest)
    as (st & Hfin & Hbi & Hclosed & Hsf & Hfiles).
  - done.
  - apply Hli.
  - done.
  - apply len_header_bytes.
  - rewrite len_zeros, Hbi1. unfold len.
    rewrite length_app, length_fmap, Hlog. simpl. lia.
  - rewrite Hbi1. by destruct (entry_of <$> log).
  - rewrite Hbi1. apply Forall_app. split.
    + by apply entries_in_range.
    + apply Forall_singleton. lia.
  - rewrite (li_write_pos _ _ _ _ _ _ Hli).
    destruct (decide (n = O)) as [Hn0|Hn0].
    + assert (log = []) as -> by (subst log; by rewrite Hn0).
      unfold cursor_after. cbn [foldl]. rewrite Hw0, Hn0.
      unfold CISO_HEADER_SIZE. lia.
    + pose proof (cursor_after_layout_bound src (write_pos st0) off n Hw0pos).
      fold log in H. unfold SPLIT_THRESHOLD, CISO_BLOCK_SIZE in H. lia.
  - assert (block_index st = (entry_of <$> log) ++ [Z.shiftr (write_pos st1) 2])
      as Hbif.
    { rewrite Hbi, Hbi1, length_app, length_fmap, Hlog. simpl.
      rewrite Nat.add_1_r. simpl.
      rewrite insert_app_r_alt by (rewrite length_fmap; lia).
      by rewrite length_fmap, Hlog, Nat.sub_diag. }
    exists st1, st, rest. split_and!; try done.
    + unfold compress_iso, py_open_wb. rewrite Hdet.
      rewrite header_reserved_spec by done. fold st0. fold ciso.
      unfold py_range. fold n. rewrite Hloop, Hfin. done.
    + rewrite <- Hbi in Hfiles. exact Hfiles.
Qed.

(** A run that completes passed detection, and its source size fits the
    header's 64-bit field. *)
Lemma compress_iso_Done_inv (fs : gmap string (list byte)) (src : list byte)
    (st : enc_state) (log : list placement) :
  compress_iso compress base fs src = Done st log ->
  exists off, detect_iso_type src = Some off /\ len src - off < 2 ^ 64.
Proof.
  unfold compress_iso, py_open_wb.
  destruct (detect_iso_type src) as [off|] eqn:Hdet; [|done].
  intros Hrun. exists off. split; [done|].
  destruct (decide (len src - off < 2 ^ 64)) as [|Hbig]; [done|]. exfalso.
  revert Hrun. unfold header_reserved, write_cso_header.
  by rewrite pack_header_too_big.
Qed.

(** The iteration that finds the cursor past the threshold, from any state:
    it opens [path_2] anew, leaves the first file object alone and places the
    block at offset 0 of the new file, whose only contents are then this
    block's payload. *)
Lemma encode_block_switch (src : list byte) (ciso : ciso_info)
    (st : enc_state) (block : Z) :
  align ciso = 2 -> block_size ciso = CISO_BLOCK_SIZE ->
  write_pos st > SPLIT_THRESHOLD -> 0 <= block < len (block_index st) ->
  let p := place compress src (write_pos st) (fin_pos st) in
  pl_switched p = true /\ pl_offset p = 0
  /\ encode_block compress base src ciso st block
     = Some (EncState (<[path_2 base := pl_data p]> (files st)) (fout_1 st)
               (Some (PyFile (path_2 base) (len (pl_data p)) false)) Fout2
               (fin_pos st + len (pl_raw p)) (len (pl_data p))
               (<[Z.to_nat block := entry_of p]> (block_index st)),
             p).
Proof.
  intros Hal Hbs Hgt Hb p.
  assert (pl_switched p = true) as Hsw by (by apply bool_decide_eq_true).
  assert (pl_offset p = 0) as Hoff.
  { subst p. unfold place. cbn [pl_offset].
    by rewrite bool_decide_eq_true_2 by done. }
  split; [done|]. split; [done|].
  unfold encode_block, maybe_split. rewrite decide_True by done.
  unfold py_open_wb, write_alignment. rewrite Hal, Hbs.
  cbn [write_pos files fout_1 fout_2 split_fout fin_pos block_index].
  change (Z.land 0 (Z.shiftl 1 2 - 1)) with 0.
  rewrite decide_False by (intros H; by apply H). cbn [mbind option_bind].
  rewrite set_index_Some by done.
  cbn [mbind option_bind write_pos files fout_1 fout_2 split_fout fin_pos
       block_index].
  unfold entry_of, index_entry. rewrite Hoff.
  change (Z.shiftr 0 2) with 0.
  subst p. unfold place.
  cbn [pl_raw pl_data pl_compressed pl_offset pl_switched].
  set (raw := read_at src (fin_pos st) CISO_BLOCK_SIZE).
  rewrite (bool_decide_eq_true_2 (write_pos st > SPLIT_THRESHOLD)) by done.
  change (aligned 0) with 0.
  destruct (decide (len (compress raw) + 12 >= len raw)) as [Hst|Hc].
  - rewrite bool_decide_eq_false_2 by lia.
    unfold split_write, set_write_pos, py_write.
    cbn [write_pos files fout_1 fout_2 split_fout fin_pos block_index
         mbind option_bind f_path f_pos f_closed].
    rewrite contents_insert_eq, insert_insert_eq, (write_at_end []) by done.
    done.
  - rewrite bool_decide_eq_true_2 by lia.
    cbn [block_index]. rewrite list_lookup_insert_eq by (unfold len in Hb; lia).
    cbn [mbind option_bind]. rewrite set_index_Some
      by (cbn [block_index]; by rewrite len_insert).
    unfold split_write, set_write_pos, py_write.
    cbn [write_pos files fout_1 fout_2 split_fout fin_pos block_index
         mbind option_bind f_path f_pos f_closed].
    rewrite contents_insert_eq, insert_insert_eq, (write_at_end []) by done.
    rewrite list_insert_insert_eq. done.
Qed.

End WholeRun.

(** ** Offsets within one volume *)

Lemma layout_lookup_Some (compress : list byte -> list byte) (src : list byte)
    (w fp : Z) (k i : nat) :
  (i < k)%nat ->
  layout compress src w fp k !! i
  = Some (place compress src
            (cursor_after w (layout compress src w fp i))
            (source_after fp (layout compress src w fp i))).
Proof.
  intros Hi.
  destruct (lookup_lt_is_Some_2 (layout compress src w fp k) i) as [p Hp].
  { by rewrite length_layout. }
  rewrite Hp. f_equal. by apply layout_lookup in Hp as [_ ->].
Qed.

(** Two blocks of the same volume: the later one is recorded at an offset
    that is not smaller. *)
Lemma layout_same_volume_le (compress : list byte -> list byte)
    (src : list byte) (w fp : Z) (k i j : nat) (p q : placement) :
  0 <= w -> (i <= j)%nat ->
  layout compress src w fp k !! i = Some p ->
  layout compress src w fp k !! j = Some q ->
  volume_of (layout compress src w fp k) i
  = volume_of (layout compress src w fp k) j ->
  pl_offset p <= pl_offset q.
Proof.
  intros Hw. set (log := layout compress src w fp k).
  revert q. induction j as [|j IH]; intros q Hij Hp Hq Hv.
  - assert (i = O) as -> by lia. rewrite Hp in Hq. injection Hq as <-. lia.
  - destruct (decide (i = S j)) as [->|Hne].
    { rewrite Hp in Hq. injection Hq as <-. lia. }
    destruct (lookup_lt_is_Some_2 log j) as [q' Hq'].
    { apply lookup_lt_Some in Hq. lia. }
    pose proof (volume_of_S log j q Hq) as HS.
    pose proof (volume_of_mono log i j ltac:(lia)) as Hm.
    assert (pl_switched q = false) as Hnsw
      by (destruct (pl_switched q); [lia|done]).
    rewrite Hnsw in HS.
    specialize (IH q' ltac:(lia) Hp Hq' ltac:(lia)).
    destruct (layout_next compress src w fp k j q' q Hq' Hq) as [_ Hoff].
    rewrite Hnsw in Hoff.
    pose proof (aligned_bounds (pl_end q')).
    destruct (layout_offsets compress src w fp k j q' Hw Hq') as (_ & _ & ? & _).
    lia.
Qed.

(** ** Little-endian fields read back *)

Lemma Z_of_byte_of_Z (z : Z) : Z_of_byte (byte_of_Z z) = z mod 256.
Proof.
  unfold Z_of_byte, byte_of_Z.
  assert (0 <= z mod 256 < 256) as Hr by (apply Z.mod_pos_bound; lia).
  destruct (Byte.of_N (Z.to_N (z mod 256))) as [b|] eqn:Hb.
  - apply Byte.to_of_N in Hb. simpl. rewrite Hb. lia.
  - apply Byte.of_N_None_iff in Hb. lia.
Qed.

Lemma le_value_le_bytes (n : nat) (v : Z) :
  0 <= v < 2 ^ (8 * Z.of_nat n) -> le_value (le_bytes n v) = v.
Proof.
  revert v. induction n as [|n IH]; intros v Hv.
  - simpl in *. lia.
  - cbn [le_bytes le_value]. rewrite Z_of_byte_of_Z, IH.
    + Z.div_mod_to_equations. lia.
    + replace (8 * Z.of_nat (S n)) with (8 + 8 * Z.of_nat n) in Hv by lia.
      rewrite Z.pow_add_r in Hv by lia. change (2 ^ 8) with 256 in Hv.
      Z.div_mod_to_equations. nia.
Qed.

(** ** Where an iteration writes *)

(** An iteration from a state that satisfies the invariant writes the
    payload at the end of the file behind [split_fout], right after the
    bytes [before], whose length is the recorded offset. *)
Lemma encode_block_written (compress : list byte -> list byte) (base : string)
    (src : list byte) (ciso : ciso_info) (st : enc_state) (block : Z) :
  align ciso = 2 -> block_size ciso = CISO_BLOCK_SIZE ->
  enc_inv base st -> 0 <= block < len (block_index st) ->
  let p := place compress src (write_pos st) (fin_pos st) in
  exists st' before,
    encode_block compress base src ciso st block = Some (st', p)
    /\ enc_inv base st'
    /\ write_pos st' = pl_end p
    /\ block_index st' !! Z.to_nat block = Some (entry_of p)
    /\ contents (files st') (active_path base st') = before ++ pl_data p
    /\ len before = pl_offset p
    /\ (pl_switched p = false ->
        active_path base st' = active_path base st
        /\ before = contents (files st) (active_path base st)
                      ++ zeros (pl_offset p - write_pos st)).
Proof.
  intros Hal Hbs Hinv Hb p.
  destruct (encode_block_spec compress base src ciso st block Hal Hbs Hinv Hb)
    as (st' & He & Hinv' & Hwp & Hfp & Hbi & Hsf & Hfs).
  fold p in He.
  change (bool_decide (write_pos st > SPLIT_THRESHOLD))
    with (pl_switched p) in *.
  change (aligned (if pl_switched p then 0 else write_pos st))
    with (pl_offset p) in *.
  change (read_at src (fin_pos st) CISO_BLOCK_SIZE) with (pl_raw p) in *.
  change (bool_decide (len (compress (pl_raw p)) + 12 < len (pl_raw p)))
    with (pl_compressed p) in *.
  change (if pl_compressed p then compress (pl_raw p) else pl_raw p)
    with (pl_data p) in *.
  exists st'. eexists. split; [exact He|]. split; [done|]. split; [done|].
  split.
  { rewrite Hbi. apply list_lookup_insert_eq. unfold len in Hb. lia. }
  split.
  { rewrite Hfs, contents_insert_eq, app_assoc. reflexivity. }
  split.
  { rewrite len_app, len_zeros.
    pose proof (aligned_bounds (if pl_switched p then 0 else write_pos st)) as Hab.
    change (aligned (if pl_switched p then 0 else write_pos st))
      with (pl_offset p) in Hab.
    destruct (pl_switched p); [rewrite len_nil; lia|].
    destruct Hinv as (_ & _ & _ & _ & _ & -> & _). lia. }
  intros Hnsw. rewrite Hnsw in *. split; [|done].
  unfold active_path. by rewrite Hsf.
Qed.

(** ** Reading the blocks back *)

Section Stored.

Variable compress : list byte -> list byte.
Variable base : string.

(** When the run is done, the payload of every block whose volume was not
    reopened after the block was placed lies in that volume at the recorded
    offset. *)
Lemma run_stored (fs : gmap string (list byte)) (src : list byte) (off : Z) :
  detect_iso_type src = Some off -> len src - off < 2 ^ 64 ->
  exists st log,
    compress_iso compress base fs src = Done st log
    /\ log = layout compress src
               (CISO_HEADER_SIZE
                + 4 * Z.of_nat (S (Z.to_nat (total_blocks (check_file_size src off)))))
               off (Z.to_nat (total_blocks (check_file_size src off)))
    /\ (forall i p, log !! i = Some p ->
          block_index st !! i = Some (entry_of p))
    /\ (forall i p, log !! i = Some p -> retrievable log i ->
          read_at (contents (files st) (volume_path base log i))
            (pl_offset p) (len (pl_data p)) = pl_data p).
Proof.
  intros Hdet Hlt.
  destruct (compress_iso_run compress base fs src off Hdet Hlt)
    as (st1 & st & rest & _ & Hli & Hrun & Hc1 & Hbi & _ & Hfiles).
  cbv zeta in Hfiles.
  pose proof (detect_iso_type_Some _ _ Hdet) as (_ & _ & Hlen).
  pose proof (total_blocks_nonneg src off ltac:(lia)) as Htb.
  set (n := Z.to_nat (total_blocks (check_file_size src off))) in *.
  assert (write_pos (loop_entry base fs src off)
          = CISO_HEADER_SIZE + 4 * Z.of_nat (S n)) as Hw0.
  { unfold loop_entry. cbn [write_pos]. do 3 f_equal. subst n. lia. }
  rewrite Hw0 in *.
  set (log := layout compress src (CISO_HEADER_SIZE + 4 * Z.of_nat (S n)) off n)
    in *.
  exists st, log. split; [done|]. split; [done|]. split.
  { intros i p Hp. rewrite Hbi, lookup_app_l
      by (rewrite length_fmap; by apply lookup_lt_Some in Hp).
    by rewrite list_lookup_fmap, Hp. }
  intros i p Hp Hret.
  destruct (li_stored _ _ _ _ _ _ Hli i p Hp Hret) as [Hle Hrd].
  pose proof (li_start _ _ _ _ _ _ Hli) as Hst0. rewrite Hw0 in Hst0.
  assert (0 <= pl_offset p) as Ho0.
  { by apply layout_offsets in Hp as [[? _] _]. }
  pose proof (len_nonneg (pl_data p)) as Hd0.
  assert (split_fout st1 = if decide (switches log = O) then Fout1 else Fout2)
    as Hsf by exact (li_split _ _ _ _ _ _ Hli).
  unfold volume_path in *.
  destruct (decide (volume_of log i = O)) as [Hv0|Hv].
  - pose proof (li_low _ _ _ _ _ _ Hli i p Hp Hv0) as Hlow. rewrite Hw0 in Hlow.
    set (hdr := header_bytes (len src - off)) in *.
    set (idx := index_bytes (block_index st)) in *.
    set (zs := zeros (4 * Z.of_nat (S n))) in *.
    assert (len hdr = CISO_HEADER_SIZE) as Hlh by apply len_header_bytes.
    assert (len zs = 4 * Z.of_nat (S n)) as Hlz
      by (subst zs; rewrite len_zeros; lia).
    assert (len idx = 4 * Z.of_nat (S n)) as Hli'.
    { subst idx. rewrite len_index_bytes, Hbi. unfold len.
      rewrite length_app, length_fmap. subst log. rewrite length_layout.
      cbn [length]. lia. }
    assert (contents (files st) (path_1 base) = padded (hdr ++ idx ++ rest))
      as ->.
    { destruct (split_fout st1).
      - destruct Hfiles as [-> _]. by rewrite contents_insert_eq.
      - destruct Hfiles as [-> _].
        rewrite contents_insert_ne by (apply not_eq_sym, path_1_ne_2).
        by rewrite contents_insert_eq. }
    rewrite Hc1 in Hle, Hrd. unfold pl_end in Hle.
    rewrite !len_app, Hlh, Hlz in Hle.
    replace (pl_offset p)
      with (len (hdr ++ zs) + (pl_offset p - (CISO_HEADER_SIZE + 4 * Z.of_nat (S n))))
      in Hrd by (rewrite len_app, Hlh, Hlz; lia).
    rewrite (app_assoc hdr zs rest), read_at_app_r in Hrd by lia.
    unfold padded. rewrite <- !app_assoc, (app_assoc hdr idx).
    replace (pl_offset p)
      with (len (hdr ++ idx) + (pl_offset p - (CISO_HEADER_SIZE + 4 * Z.of_nat (S n))))
      at 1 by (rewrite len_app, Hlh, Hli'; lia).
    rewrite read_at_app_r by lia. rewrite read_at_app_l by lia. exact Hrd.
  - pose proof (volume_of_le log i) as Hvle.
    rewrite decide_False in Hsf by lia. rewrite Hsf in Hfiles.
    destruct Hfiles as [-> _]. rewrite contents_insert_eq.
    unfold padded, pl_end in *. rewrite read_at_app_l by lia. exact Hrd.
Qed.

(** The round trip for the blocks whose volume was not reopened: decoding
    the block from its entry gives back the bytes that were read from the
    source.  (Blocks of a second volume that is reopened later are lost.) *)
Lemma roundtrip_retrievable (decompress : list byte -> list byte)
    (fs : gmap string (list byte)) (src : list byte) (off : Z) :
  detect_iso_type src = Some off -> len src - off < 2 ^ 64 ->
  (forall b, decompress (compress b) = b) ->
  exists st log,
    compress_iso compress base fs src = Done st log
    /\ forall i p, log !! i = Some p -> retrievable log i ->
         exists e, block_index st !! i = Some e
                   /\ decode_block decompress (files st)
                        (volume_path base log i) e (len (pl_data p))
                      = pl_raw p.
Proof.
  intros Hdet Hlt Hinverse.
  destruct (run_stored fs src off Hdet Hlt)
    as (st & log & Hrun & Hlog & Hidx & Hstored).
  exists st, log. split; [done|]. intros i p Hp Hret.
  exists (entry_of p). split; [by apply Hidx|].
  unfold decode_block, entry_of.
  assert (0 <= pl_offset p <= SPLIT_THRESHOLD /\ pl_offset p mod 4 = 0)
    as [Ho Hm].
  { rewrite Hlog in Hp. apply layout_offsets in Hp as (? & ? & _); [done|].
    unfold CISO_HEADER_SIZE. lia. }
  destruct (index_entry_decode (pl_offset p) (pl_compressed p)) as [-> ->];
    [unfold SPLIT_THRESHOLD in Ho; lia | done |].
  rewrite (Hstored i p Hp Hret).
  rewrite Hlog in Hp. apply layout_decision in Hp as (_ & -> & _).
  by destruct (pl_compressed p).
Qed.

End Stored.

(** ** Runs on data that does not compress *)

Section Incompressible.

Variable compress : list byte -> list byte.
Variable src : list byte.

(** The compressor never gains the 12 bytes the policy asks for. *)
Hypothesis never_shrinks : forall b, len (compress b) + 12 >= len b.

Lemma place_stored (c f : Z) :
  place compress src c f
  = Placement (bool_decide (c > SPLIT_THRESHOLD))
      (aligned (if bool_decide (c > SPLIT_THRESHOLD) then 0 else c))
      (read_at src f CISO_BLOCK_SIZE) false (read_at src f CISO_BLOCK_SIZE).
Proof.
  unfold place.
  rewrite (bool_decide_eq_false_2 (len (compress _) + 12 < len _)); [done|].
  pose proof (never_shrinks (read_at src f CISO_BLOCK_SIZE)). lia.
Qed.

(** [k] whole blocks stored one after the other below the threshold. *)
Lemma layout_stored (w fp : Z) (k : nat) :
  0 <= w -> w mod 4 = 0 -> 0 <= fp ->
  fp + 2048 * Z.of_nat k <= len src ->
  w + 2048 * Z.of_nat k <= SPLIT_THRESHOLD + 2048 ->
  cursor_after w (layout compress src w fp k) = w + 2048 * Z.of_nat k
  /\ switches (layout compress src w fp k) = O.
Proof.
  intros Hw Hm Hfp. induction k as [|k IH]; intros Hlen Hle.
  - split; [|done]. unfold cursor_after. simpl. lia.
  - destruct IH as [Hc Hs]; [lia | lia |].
    rewrite layout_S_r, cursor_after_snoc, switches_app, Hs, Hc.
    rewrite source_after_layout by (unfold CISO_BLOCK_SIZE; lia).
    rewrite place_stored. unfold pl_end. cbn [pl_offset pl_data switches pl_switched].
    rewrite (bool_decide_eq_false_2 (_ > SPLIT_THRESHOLD)) by lia.
    rewrite aligned_id by (Z.div_mod_to_equations; lia).
    unfold CISO_BLOCK_SIZE. rewrite len_read_at by lia.
    split; lia.
Qed.

(** The block that finds the cursor past the threshold. *)
Lemma place_switch (c f : Z) :
  c > SPLIT_THRESHOLD -> 0 <= f -> f + 2048 <= len src ->
  let p := place compress src c f in
  pl_switched p = true /\ pl_offset p = 0 /\ pl_compressed p = false
  /\ pl_raw p = read_at src f 2048 /\ pl_data p = read_at src f 2048
  /\ pl_end p = 2048.
Proof.
  intros Hc Hf Hlen p. subst p. rewrite place_stored.
  unfold pl_end. cbn [pl_switched pl_offset pl_compressed pl_raw pl_data].
  rewrite (bool_decide_eq_true_2 (c > SPLIT_THRESHOLD)) by done.
  unfold CISO_BLOCK_SIZE. rewrite len_read_at by lia. by split_and!.
Qed.

(** A run of whole blocks up to the first switch: [k1] stored blocks, then
    the block that opens the second volume. *)
Lemma layout_first_switch (w0 fp : Z) (k1 : nat) :
  0 <= w0 -> w0 mod 4 = 0 -> 0 <= fp ->
  fp + 2048 * Z.of_nat (S k1) <= len src ->
  w0 + 2048 * Z.of_nat k1 <= SPLIT_THRESHOLD + 2048 ->
  SPLIT_THRESHOLD < w0 + 2048 * Z.of_nat k1 ->
  let log := layout compress src w0 fp (S k1) in
  let p1 := place compress src (w0 + 2048 * Z.of_nat k1)
              (fp + 2048 * Z.of_nat k1) in
  log = layout compress src w0 fp k1 ++ [p1]
  /\ pl_switched p1 = true /\ pl_offset p1 = 0 /\ pl_compressed p1 = false
  /\ pl_raw p1 = read_at src (fp + 2048 * Z.of_nat k1) 2048
  /\ pl_data p1 = pl_raw p1
  /\ cursor_after w0 log = 2048
  /\ source_after fp log = fp + 2048 * Z.of_nat (S k1)
  /\ switches log = 1%nat.
Proof.
  intros Hw Hm Hfp Hlen Hle Hgt log p1.
  destruct (layout_stored w0 fp k1) as [Hc Hs]; try done; [lia|].
  assert (log = layout compress src w0 fp k1 ++ [p1]) as Hlog.
  { subst log p1. rewrite layout_S_r, Hc.
    by rewrite source_after_layout by (unfold CISO_BLOCK_SIZE; lia). }
  destruct (place_switch (w0 + 2048 * Z.of_nat k1) (fp + 2048 * Z.of_nat k1))
    as (H1 & H2 & H3 & H4 & H5 & H6); [lia | lia | lia |].
  fold p1 in H1, H2, H3, H4, H5, H6.
  split; [done|]. split_and!; try done.
  - by rewrite Hlog, cursor_after_snoc.
  - subst log. rewrite source_after_layout; unfold CISO_BLOCK_SIZE; lia.
  - rewrite Hlog, switches_app, Hs. cbn [switches]. by rewrite H1.
Qed.

(** A run of whole blocks with two switches: [k1] stored blocks, the block
    that opens the second volume, [k2] more stored blocks, and a last block
    that finds the cursor past the threshold again. *)
Lemma layout_two_switches (w0 fp : Z) (k1 k2 : nat) :
  0 <= w0 -> w0 mod 4 = 0 -> 0 <= fp ->
  fp + 2048 * Z.of_nat (S k1 + S k2) <= len src ->
  w0 + 2048 * Z.of_nat k1 <= SPLIT_THRESHOLD + 2048 ->
  SPLIT_THRESHOLD < w0 + 2048 * Z.of_nat k1 ->
  2048 * Z.of_nat (S k2) <= SPLIT_THRESHOLD + 2048 ->
  SPLIT_THRESHOLD < 2048 * Z.of_nat (S k2) ->
  let log := layout compress src w0 fp (S k1 + S k2) in
  exists p1 p2,
    log !! k1 = Some p1
    /\ log !! (S k1 + k2)%nat = Some p2
    /\ pl_switched p1 = true /\ pl_offset p1 = 0 /\ pl_compressed p1 = false
    /\ pl_raw p1 = read_at src (fp + 2048 * Z.of_nat k1) 2048
    /\ pl_data p1 = pl_raw p1
    /\ pl_switched p2 = true /\ pl_offset p2 = 0 /\ pl_compressed p2 = false
    /\ pl_raw p2 = read_at src (fp + 2048 * Z.of_nat (S k1 + k2)) 2048
    /\ pl_data p2 = pl_raw p2
    /\ volume_of log k1 = 1%nat
    /\ switches log = 2%nat.
Proof.
  intros Hw Hm Hfp Hlen Hle1 Hgt1 Hle2 Hgt2 log.
  destruct (layout_first_switch w0 fp k1)
    as (Hl1 & Hs1 & Ho1 & Hc1 & Hr1 & Hd1 & Hcur1 & Hsrc1 & Hsw1);
    try done; [lia|].
  set (p1 := place compress src (w0 + 2048 * Z.of_nat k1)
               (fp + 2048 * Z.of_nat k1)) in *.
  set (log1 := layout compress src w0 fp (S k1)) in *.
  set (f1 := fp + 2048 * Z.of_nat (S k1)) in *.
  destruct (layout_stored 2048 f1 k2) as [Hc2 Hs2]; try done; try lia.
  set (p2 := place compress src (2048 + 2048 * Z.of_nat k2)
               (f1 + 2048 * Z.of_nat k2)).
  assert (log = log1 ++ layout compress src 2048 f1 k2 ++ [p2]) as Hlog.
  { subst log. rewrite layout_add. fold log1. rewrite Hcur1, Hsrc1.
    rewrite layout_S_r, Hc2.
    by rewrite source_after_layout by (unfold CISO_BLOCK_SIZE; lia). }
  destruct (place_switch (2048 + 2048 * Z.of_nat k2) (f1 + 2048 * Z.of_nat k2))
    as (H1 & H2 & H3 & H4 & H5 & H6); [lia | lia | lia |].
  fold p2 in H1, H2, H3, H4, H5, H6.
  assert (length log1 = S k1) as Hlen1 by apply length_layout.
  exists p1, p2. split_and!; try done.
  - rewrite Hlog, lookup_app_l by lia.
    rewrite Hl1, lookup_app_r by (rewrite length_layout; lia).
    by rewrite length_layout, Nat.sub_diag.
  - rewrite Hlog, lookup_app_r by lia.
    rewrite lookup_app_r by (rewrite length_layout; lia).
    rewrite length_layout, Hlen1.
    by replace (S k1 + k2 - S k1 - k2)%nat with O by lia.
  - rewrite H4. f_equal. lia.
  - unfold volume_of. rewrite Hlog, take_app_length' by done. done.
  - rewrite Hlog, !switches_app, Hsw1, Hs2. cbn [switches]. by rewrite H1.
Qed.

End Incompressible.

(** ** Large images *)

Lemma read_at_app_mid_at (a d b : list byte) (pos n : Z) :
  pos = len a -> n = len d -> read_at (a ++ d ++ b) pos n = d.
Proof. intros -> ->. apply read_at_app_mid. Qed.

Lemma read_at_zeros (z pos n : Z) :
  0 <= pos -> 0 <= n -> pos + n <= z -> read_at (zeros z) pos n = zeros n.
Proof.
  intros Hp Hn Hle. unfold read_at. rewrite len_zeros.
  destruct (decide (Z.max 0 z <= pos)) as [Hc|Hc].
  - assert (n = 0) as -> by lia. done.
  - unfold zeros. rewrite drop_replicate, take_replicate. f_equal. lia.
Qed.

Lemma len_redump_image (mid : Z) (last : list byte) :
  0 <= mid -> len (redump_image mid last) = 0x18310014 + mid + len last.
Proof.
  intros. unfold redump_image.
  rewrite !len_app, !len_zeros, len_XBOX_MEDIA. lia.
Qed.

Lemma detect_redump_image (mid : Z) (last : list byte) :
  detect_iso_type (redump_image mid last) = Some 0x18300000.
Proof.
  unfold detect_iso_type, redump_image.
  rewrite (read_at_app_mid_at (zeros 0x18310000) XBOX_MEDIA)
    by (rewrite ?len_zeros, ?len_XBOX_MEDIA; lia).
  by rewrite decide_True.
Qed.

(** Reading inside the zero bytes that follow the signature. *)
Lemma read_redump_zeros (mid : Z) (last : list byte) (pos n : Z) :
  0x18310014 <= pos -> 0 <= n -> pos + n <= 0x18310014 + mid ->
  read_at (redump_image mid last) pos n = zeros n.
Proof.
  intros Hp Hn Hle. unfold redump_image.
  rewrite (app_assoc (zeros _) XBOX_MEDIA).
  replace pos with (len (zeros 0x18310000 ++ XBOX_MEDIA) + (pos - 0x18310014))
    by (rewrite len_app, len_zeros, len_XBOX_MEDIA; lia).
  rewrite read_at_app_r by lia.
  rewrite read_at_app_l by (rewrite ?len_zeros; lia).
  apply read_at_zeros; lia.
Qed.

(** Reading the last chunk. *)
Lemma read_redump_last (mid : Z) (last : list byte) (pos : Z) :
  0 <= mid -> pos = 0x18310014 + mid ->
  read_at (redump_image mid last) pos (len last) = last.
Proof.
  intros Hm ->. unfold redump_image.
  rewrite (app_assoc (zeros _) XBOX_MEDIA), app_assoc.
  apply read_at_app_end.
  rewrite !len_app, !len_zeros, len_XBOX_MEDIA. lia.
Qed.

Lemma store_only_never_shrinks (b : list byte) :
  len (store_only b) + 12 >= len b.
Proof. unfold store_only. lia. Qed.

Lemma big_src_detected : detect_iso_type big_src = Some 0x18300000.
Proof. apply detect_redump_image. Qed.

Lemma big_src_len : len big_src = 0x18300000 + 2048 * big_blocks.
Proof.
  unfold big_src. rewrite len_redump_image by (unfold big_blocks; lia).
  rewrite len_replicate. unfold big_blocks. lia.
Qed.

Lemma big_src_size : len big_src - 0x18300000 < 2 ^ 64.
Proof. rewrite big_src_len. unfold big_blocks. lia. Qed.

Lemma big_src_total_blocks :
  total_blocks (check_file_size big_src 0x18300000) = big_blocks.
Proof.
  rewrite total_blocks_exact by (rewrite big_src_len; unfold big_blocks; lia).
  rewrite big_src_len. unfold big_blocks, CISO_BLOCK_SIZE.
  Z.div_mod_to_equations. lia.
Qed.

Lemma ones_ne_zeros : replicate 2048 Byte.x01 <> zeros 2048.
Proof.
  intros H. apply (f_equal (fun l => l !! O)) in H. vm_compute in H.
  discriminate.
Qed.

(** The layout of the run on [big_src] with a compressor that stores every
    block: block 2086917 opens the second volume and the last block,
    4182002, finds the cursor past the threshold again. *)
Lemma big_src_layout :
  let log := layout store_only big_src 16728040 0x18300000
               (S (Z.to_nat 2086917) + S (Z.to_nat 2095084)) in
  exists p1 p2,
    log !! Z.to_nat 2086917 = Some p1
    /\ log !! Z.to_nat 4182002 = Some p2
    /\ pl_switched p1 = true /\ pl_offset p1 = 0 /\ pl_compressed p1 = false
    /\ pl_raw p1 = read_at big_src (0x18300000 + 2048 * 2086917) 2048
    /\ pl_raw p1 = zeros 2048
    /\ pl_data p1 = pl_raw p1
    /\ pl_switched p2 = true /\ pl_offset p2 = 0 /\ pl_compressed p2 = false
    /\ pl_raw p2 = read_at big_src (0x18300000 + 2048 * 4182002) 2048
    /\ pl_raw p2 = replicate 2048 Byte.x01
    /\ pl_data p2 = pl_raw p2
    /\ volume_of log (Z.to_nat 2086917) = 1%nat
    /\ switches log = 2%nat.
Proof.
  intros log.
  pose proof big_src_len as Hlen. unfold big_blocks in Hlen.
  destruct (layout_two_switches store_only big_src store_only_never_shrinks
              16728040 0x18300000 (Z.to_nat 2086917) (Z.to_nat 2095084))
    as (p1 & p2 & Hp1 & Hp2 & Hs1 & Ho1 & Hc1 & Hr1 & Hd1 & Hs2 & Ho2 & Hc2
        & Hr2 & Hd2 & Hv & Hsw);
    try (unfold SPLIT_THRESHOLD; lia); [done|].
  fold log in Hp1, Hp2, Hv, Hsw.
  replace (S (Z.to_nat 2086917) + Z.to_nat 2095084)%nat
    with (Z.to_nat 4182002) in Hp2, Hr2 by lia.
  replace (0x18300000 + 2048 * Z.of_nat (Z.to_nat 2086917))
    with (0x18300000 + 2048 * 2086917) in Hr1 by lia.
  replace (0x18300000 + 2048 * Z.of_nat (Z.to_nat 4182002))
    with (0x18300000 + 2048 * 4182002) in Hr2 by lia.
  assert (pl_raw p1 = zeros 2048) as Hz1.
  { rewrite Hr1. unfold big_src, big_blocks. apply read_redump_zeros; lia. }
  assert (pl_raw p2 = replicate 2048 Byte.x01) as Hz2.
  { rewrite Hr2. unfold big_src, big_blocks.
    apply (read_redump_last _ (replicate 2048 Byte.x01)); lia. }
  exists p1, p2.
  exact (conj Hp1 (conj Hp2 (conj Hs1 (conj Ho1 (conj Hc1 (conj Hr1 (conj Hz1
           (conj Hd1 (conj Hs2 (conj Ho2 (conj Hc2 (conj Hr2 (conj Hz2
           (conj Hd2 (conj Hv Hsw))))))))))))))).
Qed.

Lemma big_loop_entry_write_pos :
  write_pos (loop_entry "game" ∅ big_src 0x18300000) = 16728040.
Proof.
  unfold loop_entry. cbn [write_pos]. rewrite big_src_total_blocks.
  unfold big_blocks, CISO_HEADER_SIZE. lia.
Qed.

Lemma big_loop_entry_index :
  length (block_index (loop_entry "game" ∅ big_src 0x18300000))
  = Z.to_nat 4182004.
Proof.
  unfold loop_entry. cbn [block_index]. rewrite big_src_total_blocks.
  rewrite length_replicate. unfold big_blocks. lia.
Qed.

(** The loop states of the run on [big_src]. *)
Lemma big_run_prefix (k : nat) :
  (k <= Z.to_nat 4182003)%nat ->
  exists st,
    encode_loop store_only "game" big_src (check_file_size big_src 0x18300000)
      (loop_entry "game" ∅ big_src 0x18300000) (Z.of_nat <$> seq 0 k)
    = Some (st, layout store_only big_src 16728040 0x18300000 k)
    /\ loop_inv store_only "game" big_src
         (loop_entry "game" ∅ big_src 0x18300000) st
         (layout store_only big_src 16728040 0x18300000 k)
    /\ length (block_index st) = Z.to_nat 4182004.
Proof.
  intros Hk.
  destruct (encode_prefix_spec store_only "game" big_src
              (check_file_size big_src 0x18300000) eq_refl eq_refl
              (loop_entry "game" ∅ big_src 0x18300000) k
              (loop_entry_inv "game" ∅ big_src 0x18300000) eq_refl)
    as (st & He & Hli).
  { rewrite big_loop_entry_index. lia. }
  change (fin_pos (loop_entry "game" ∅ big_src 0x18300000))
    with 0x18300000 in He, Hli.
  rewrite big_loop_entry_write_pos in He, Hli.
  exists st. split; [exact He|]. split; [exact Hli|].
  rewrite (li_index _ _ _ _ _ _ Hli).
  rewrite length_app, length_fmap, length_drop, length_layout.
  rewrite big_loop_entry_index. lia.
Qed.

(** ** Whole blocks *)

(** X16.  Below [2^53] bytes the loop reads the whole blocks of the payload
    and nothing else: block [i] is the 2048 bytes at [off + 2048 * i], and the
    source position ends at the last block boundary. *)
Lemma whole_blocks_read (compress : list byte -> list byte) (base : string)
    (fs : gmap string (list byte)) (src : list byte) (off : Z) :
  detect_iso_type src = Some off -> len src - off < 2 ^ 53 ->
  let n := (len src - off) / CISO_BLOCK_SIZE in
  exists st log,
    compress_iso compress base fs src = Done st log
    /\ total_blocks (check_file_size src off) = n
    /\ length log = Z.to_nat n
    /\ source_after off log = off + CISO_BLOCK_SIZE * n
    /\ off + CISO_BLOCK_SIZE * n <= len src
    /\ forall i p, log !! i = Some p ->
         pl_raw p = read_at src (off + CISO_BLOCK_SIZE * Z.of_nat i) CISO_BLOCK_SIZE
         /\ len (pl_raw p) = CISO_BLOCK_SIZE.
Proof.
  intros Hdet Hlt n.
  pose proof (detect_iso_type_Some _ _ Hdet) as (Hoff & _ & Hlen).
  destruct (run_stored compress base fs src off Hdet ltac:(lia))
    as (st & log & Hrun & Hlog & _).
  pose proof (total_blocks_exact src off ltac:(lia)) as Htb. fold n in Htb.
  rewrite Htb in Hlog.
  assert (0 <= n /\ off + CISO_BLOCK_SIZE * n <= len src) as [Hn Hle].
  { subst n. unfold CISO_BLOCK_SIZE. Z.div_mod_to_equations. lia. }
  assert (0 <= off) as Hoff0 by (destruct Hoff; lia).
  exists st, log. split; [done|]. split; [done|].
  split; [by rewrite Hlog, length_layout|].
  split.
  { rewrite Hlog, source_after_layout;
      unfold CISO_BLOCK_SIZE in *; [lia | done | lia]. }
  split; [done|].
  intros i p Hp. rewrite Hlog in Hp.
  eapply (layout_raw compress src off); [done | | exact Hp].
  unfold CISO_BLOCK_SIZE in *. lia.
Qed.

(** ** A source of more than [2^53] bytes *)

Lemma huge_src_len : len huge_src = 2 ^ 53 + 2047.
Proof.
  unfold huge_src. rewrite !len_app, !len_zeros, len_XBOX_MEDIA. lia.
Qed.

Lemma huge_src_detected : detect_iso_type huge_src = Some 0.
Proof.
  unfold detect_iso_type, huge_src.
  assert (read_at (zeros 0x10000 ++ XBOX_MEDIA ++ zeros (2 ^ 53 + 2047 - 0x10014))
            0x18310000 20 = zeros 20) as ->.
  { rewrite (app_assoc (zeros _) XBOX_MEDIA).
    replace 0x18310000
      with (len (zeros 0x10000 ++ XBOX_MEDIA) + (0x18310000 - 0x10014))
      by (rewrite len_app, len_zeros, len_XBOX_MEDIA; lia).
    rewrite read_at_app_r by lia. apply read_at_zeros; lia. }
  rewrite decide_False by (intros H; vm_compute in H; discriminate).
  rewrite (read_at_app_mid_at (zeros 0x10000) XBOX_MEDIA)
    by (rewrite ?len_zeros, ?len_XBOX_MEDIA; lia).
  by rewrite decide_True.
Qed.

(** * The statements C1 to C10 *)

Section Claims.

Variable compress : list byte -> list byte.
Variable base : string.

(** C1.  On a source that passes detection, every block number [k] below
    the block count is processed by one iteration, entered in the state [st]
    the first [k] iterations leave.  The iteration stores or compresses, and
    never both: when [len(compress(raw)) + 12 >= len(raw)] the raw bytes are
    what is written, the entry of the block has the flag bit clear and the
    cursor ends [len(raw)] past the recorded offset; otherwise the compressed
    bytes are written, the flag bit is set and the cursor ends
    [len(compress(raw))] past the offset.  The bytes go to the end of the
    active volume, at the recorded offset; the entry is the one found in the
    index when the run is done.  So an entry with the flag set belongs to a
    block with [len(compress(raw)) + 12 < len(raw)]. *)
Theorem C1_store_or_compress (fs : gmap string (list byte)) (src : list byte)
    (off : Z) (k : nat) :
  detect_iso_type src = Some off -> len src - off < 2 ^ 64 ->
  (k < Z.to_nat (total_blocks (check_file_size src off)))%nat ->
  let ciso := check_file_size src off in
  exists st logk st' p e before stf log,
    encode_loop compress base src ciso (loop_entry base fs src off)
      (py_range (Z.of_nat k)) = Some (st, logk)
    /\ encode_block compress base src ciso st (Z.of_nat k) = Some (st', p)
    /\ pl_raw p = read_at src (fin_pos st) CISO_BLOCK_SIZE
    /\ block_index st' !! k = Some e
    /\ entry_offset 2 e = pl_offset p
    /\ contents (files st') (active_path base st') = before ++ pl_data p
    /\ len before = pl_offset p
    /\ (if decide (len (compress (pl_raw p)) + 12 >= len (pl_raw p))
        then pl_data p = pl_raw p
             /\ entry_compressed e = false
             /\ write_pos st' = pl_offset p + len (pl_raw p)
        else pl_data p = compress (pl_raw p)
             /\ entry_compressed e = true
             /\ write_pos st' = pl_offset p + len (compress (pl_raw p)))
    /\ (entry_compressed e = true ->
        len (compress (pl_raw p)) + 12 < len (pl_raw p))
    /\ compress_iso compress base fs src = Done stf log
    /\ log !! k = Some p
    /\ block_index stf !! k = Some e.
Proof.
  intros Hdet Hlt Hk ciso.
  destruct (compress_iso_run compress base fs src off Hdet Hlt)
    as (st1 & stf & rest & _ & Hli1 & Hrun & _ & Hbif & _).
  fold ciso in Hbif, Hli1.
  set (st0 := loop_entry base fs src off) in *.
  set (n := Z.to_nat (total_blocks ciso)) in *.
  assert (k < n)%nat as Hkn by exact Hk.
  assert (length (block_index st0) = S n) as Hlen0.
  { pose proof (li_index _ _ _ _ _ _ Hli1) as Hi.
    apply (f_equal length) in Hbif.
    pose proof (li_inv _ _ _ _ _ _ Hli1).
    subst st0. unfold loop_entry. cbn [block_index]. fold ciso.
    rewrite length_replicate.
    pose proof (detect_iso_type_Some _ _ Hdet) as (_ & _ & Hl).
    pose proof (total_blocks_nonneg src off ltac:(lia)). fold ciso in H0.
    subst n. lia. }
  destruct (encode_prefix_spec compress base src ciso eq_refl eq_refl st0 k
              (loop_entry_inv base fs src off) eq_refl)
    as (st & Hpre & Hli); [rewrite Hlen0; lia|].
  change (fin_pos st0) with off in Hpre, Hli.
  set (logk := layout compress src (write_pos st0) off k) in *.
  pose proof (li_index _ _ _ _ _ _ Hli) as Hbik.
  assert (length logk = k) as Hlk by apply length_layout.
  destruct (encode_block_written compress base src ciso st (Z.of_nat k)
              eq_refl eq_refl (li_inv _ _ _ _ _ _ Hli))
    as (st' & before & He & Hinv' & Hwp' & Hbi' & Hc' & Hlb & _).
  { rewrite Hbik. unfold len. rewrite length_app, length_fmap, length_drop. lia. }
  set (p := place compress src (write_pos st) (fin_pos st)) in *.
  rewrite Nat2Z.id in Hbi'.
  assert (layout compress src (write_pos st0) off n !! k = Some p) as Hp.
  { rewrite layout_lookup_Some by done. fold logk.
    pose proof (li_fin_pos _ _ _ _ _ _ Hli) as Hfpk.
    change (fin_pos st0) with off in Hfpk.
    by rewrite <- (li_write_pos _ _ _ _ _ _ Hli), <- Hfpk. }
  pose proof (li_start _ _ _ _ _ _ Hli) as Hw0.
  destruct (layout_offsets _ _ _ _ _ _ _ Hw0 Hp) as (Ho & Hm & _).
  destruct (index_entry_decode (pl_offset p) (pl_compressed p)) as [Hoff Hflag];
    [unfold SPLIT_THRESHOLD in Ho; lia | done |].
  fold (entry_of p) in Hoff, Hflag.
  destruct (layout_decision _ _ _ _ _ _ _ Hp) as (Hcomp & Hdata & _).
  exists st, logk, st', p, (entry_of p), before, stf,
    (layout compress src (write_pos st0) off n).
  unfold py_range. rewrite Nat2Z.id.
  split_and!; try done.
  - rewrite Hflag, Hdata, Hcomp, Hwp'. unfold pl_end. rewrite Hdata, Hcomp.
    destruct (decide (len (compress (pl_raw p)) + 12 >= len (pl_raw p))).
    + rewrite bool_decide_eq_false_2 by lia. done.
    + rewrite bool_decide_eq_true_2 by lia. done.
  - rewrite Hflag, Hcomp. intros Ht. by apply bool_decide_eq_true in Ht.
  - rewrite Hbif, lookup_app_l by (rewrite length_fmap, length_layout; lia).
    by rewrite list_lookup_fmap, Hp.
Qed.


(** C6, as the code has it.  When neither signature is found the run ends
    with the unrecognized-format exit before a single byte of output is
    written; at that moment the first volume exists and is empty (it was
    created, or truncated, before detection) and no other file was touched. *)
Theorem C6_unrecognized_exits_before_any_write (fs : gmap string (list byte))
    (src : list byte) :
  detect_iso_type src = None ->
  compress_iso compress base fs src
  = Exit UnrecognizedSourceFormat (<[path_1 base := []]> fs).
Proof. intros Hdet. unfold compress_iso, py_open_wb. by rewrite Hdet. Qed.

(** C8.  The header that [write_cso_header] puts at the start of the first
    volume is 24 bytes: magic, header size 24, the source size on 8 bytes,
    block size 2048, version, align shift and two zero bytes, little-endian.
    On loop entry it is followed by a zeroed table of [total_blocks + 1]
    entries; when the run is done the first volume is the same header, the
    final table in the same [4 * (total_blocks + 1)] bytes, the same payload
    [rest] and the padding, whatever the number of volumes. *)
Theorem C8_header_and_index_footprint (fs : gmap string (list byte))
    (src : list byte) (off : Z) :
  detect_iso_type src = Some off -> len src - off < 2 ^ 64 ->
  let ciso := check_file_size src off in
  let hdr := header_bytes (total_bytes ciso) in
  total_bytes ciso = len src - off
  /\ len hdr = 24
  /\ hdr = le_bytes 4 0x4F534943 ++ le_bytes 4 24 ++ le_bytes 8 (total_bytes ciso)
             ++ le_bytes 4 2048 ++ le_bytes 1 (ver ciso)
             ++ le_bytes 1 (align ciso) ++ [Byte.x00; Byte.x00]
  /\ le_value (le_bytes 8 (total_bytes ciso)) = total_bytes ciso
  /\ header_reserved (<[path_1 base := []]> fs)
       (PyFile (path_1 base) 0 false) ciso off
     = inr (loop_entry base fs src off)
  /\ contents (files (loop_entry base fs src off)) (path_1 base)
     = hdr ++ zeros (4 * (total_blocks ciso + 1))
  /\ write_pos (loop_entry base fs src off)
     = CISO_HEADER_SIZE + 4 * (total_blocks ciso + 1)
  /\ exists st1 st log rest,
       encode_loop compress base src ciso (loop_entry base fs src off)
         (py_range (total_blocks ciso)) = Some (st1, log)
       /\ contents (files st1) (path_1 base)
          = hdr ++ zeros (4 * (total_blocks ciso + 1)) ++ rest
       /\ compress_iso compress base fs src = Done st log
       /\ len (block_index st) = total_blocks ciso + 1
       /\ len (index_bytes (block_index st)) = 4 * (total_blocks ciso + 1)
       /\ contents (files st) (path_1 base)
          = padded (hdr ++ index_bytes (block_index st) ++ rest).
Proof.
  intros Hdet Hlt ciso hdr.
  pose proof (detect_iso_type_Some _ _ Hdet) as (_ & _ & Hlen).
  assert (0 <= len src - off < 2 ^ 64) as Hr by lia.
  pose proof (total_blocks_nonneg src off (proj1 Hr)) as Htb. fold ciso in Htb.
  assert (Z.of_nat (Z.to_nat (total_blocks ciso + 1)) = total_blocks ciso + 1)
    as Hn1 by lia.
  split; [done|]. split; [apply len_header_bytes|]. split; [done|].
  split; [by apply le_value_le_bytes|].
  split; [by apply header_reserved_spec|].
  split.
  { unfold loop_entry. cbn [files]. fold ciso. by rewrite contents_insert_eq, Hn1. }
  split.
  { unfold loop_entry. cbn [write_pos]. fold ciso. by rewrite Hn1. }
  destruct (compress_iso_run compress base fs src off Hdet Hlt)
    as (st1 & st & rest & Hloop & Hli & Hrun & Hc1 & Hbi & _ & Hfiles).
  fold ciso in Hloop, Hbi, Hc1.
  assert (Z.of_nat (S (Z.to_nat (total_blocks ciso))) = total_blocks ciso + 1)
    as HSn by lia.
  rewrite HSn in Hc1.
  assert (len (block_index st) = total_blocks ciso + 1) as Hlenbi.
  { rewrite Hbi. unfold len. rewrite length_app, length_fmap, length_layout.
    cbn [length]. lia. }
  eexists st1, st, _, rest. split_and!; try done.
  - rewrite len_index_bytes, Hlenbi. done.
  - cbv zeta in Hfiles. destruct (split_fout st1).
    + destruct Hfiles as [-> _]. by rewrite contents_insert_eq.
    + destruct Hfiles as [-> _].
      rewrite contents_insert_ne by (apply not_eq_sym, path_1_ne_2).
      by rewrite contents_insert_eq.
Qed.

(** C9.  When the run is done every volume that was opened has been padded
    once: the first volume is its contents after the index rewrite followed
    by 1 to 1024 zero bytes, the second volume (opened exactly when some
    iteration took the split branch) is its contents at the end of the loop
    followed by 1 to 1024 zero bytes, and both sizes are multiples of 1024.
    Without a switch no second volume is produced. *)
Theorem C9_volumes_padded_once (fs : gmap string (list byte))
    (src : list byte) (off : Z) :
  detect_iso_type src = Some off -> len src - off < 2 ^ 64 ->
  let ciso := check_file_size src off in
  exists st1 st log,
    encode_loop compress base src ciso (loop_entry base fs src off)
      (py_range (total_blocks ciso)) = Some (st1, log)
    /\ compress_iso compress base fs src = Done st log
    /\ (exists k1,
          contents (files st) (path_1 base)
          = write_at (contents (files st1) (path_1 base)) CISO_HEADER_SIZE
              (index_bytes (block_index st)) ++ zeros k1
          /\ 1 <= k1 <= 1024)
    /\ len (contents (files st) (path_1 base)) mod 1024 = 0
    /\ (if decide (switches log = O)
        then fout_2 st = None /\ files st !! path_2 base = fs !! path_2 base
        else (exists f2, fout_2 st = Some f2 /\ f_path f2 = path_2 base)
             /\ (exists k2,
                   contents (files st) (path_2 base)
                   = contents (files st1) (path_2 base) ++ zeros k2
                   /\ 1 <= k2 <= 1024)
             /\ len (contents (files st) (path_2 base)) mod 1024 = 0).
Proof.
  intros Hdet Hlt ciso.
  destruct (compress_iso_run compress base fs src off Hdet Hlt)
    as (st1 & st & rest & Hloop & Hli & Hrun & Hc1 & Hbi & _ & Hfiles).
  fold ciso in Hloop, Hbi, Hc1. cbv zeta in Hfiles.
  set (log := layout compress src (write_pos (loop_entry base fs src off)) off
                (Z.to_nat (total_blocks ciso))) in *.
  set (body1 := header_bytes (len src - off)
                  ++ index_bytes (block_index st) ++ rest) in *.
  assert (write_at (contents (files st1) (path_1 base)) CISO_HEADER_SIZE
            (index_bytes (block_index st)) = body1) as Hbody.
  { rewrite Hc1. apply write_at_app_mid; [by rewrite len_header_bytes|].
    rewrite len_index_bytes, len_zeros, Hbi. unfold len.
    rewrite length_app, length_fmap. subst log. rewrite length_layout.
    simpl. lia. }
  assert (contents (files st) (path_1 base) = padded body1) as Hp1.
  { destruct (split_fout st1).
    - destruct Hfiles as [-> _]. by rewrite contents_insert_eq.
    - destruct Hfiles as [-> _].
      rewrite contents_insert_ne by (apply not_eq_sym, path_1_ne_2).
      by rewrite contents_insert_eq. }
  exists st1, st, log. split; [done|]. split; [done|].
  destruct (padded_spec body1) as (k1 & Hk1 & Hr1 & Hm1 & _).
  split; [exists k1; by rewrite Hp1, Hbody|].
  split; [by rewrite Hp1|].
  assert (split_fout st1 = if decide (switches log = O) then Fout1 else Fout2)
    as Hsf by exact (li_split _ _ _ _ _ _ Hli).
  destruct (decide (switches log = O)) as [Hz|Hnz]; rewrite Hsf in Hfiles.
  - destruct Hfiles as [-> ->]. split; [done|].
    rewrite lookup_insert_ne by apply path_1_ne_2.
    rewrite (li_second _ _ _ _ _ _ Hli Hz).
    unfold loop_entry. cbn [files].
    by rewrite lookup_insert_ne by apply path_1_ne_2.
  - destruct Hfiles as [-> (f2 & Hf2 & _ & Hpath)].
    rewrite contents_insert_eq.
    destruct (padded_spec (contents (files st1) (path_2 base)))
      as (k2 & Hk2 & Hr2 & Hm2 & _).
    split; [by exists f2|]. split; [by exists k2|]. done.
Qed.




End Claims.

(** ** A small image *)

Lemma demo_src_detected : detect_iso_type demo_src = Some 0.
Proof. by vm_compute. Qed.

Lemma demo_src_size : len demo_src - 0 < 2 ^ 64.
Proof. by vm_compute. Qed.

Lemma demo_src_blocks :
  Z.to_nat (total_blocks (check_file_size demo_src 0)) = 35%nat.
Proof. by vm_compute. Qed.

(** The run on [demo_src]: the zero blocks are compressed (flag set), the
    signature block and the block of [0x07] bytes are stored, the sentinel is
    the final cursor, one volume of 70 KiB is produced. *)
Example demo_run :
  match compress_iso toy_compress "game" ∅ demo_src with
  | Done st log =>
      block_index st !! 0%nat = Some (Z.lor (168 / 4) 0x80000000)
      /\ block_index st !! 1%nat = Some (Z.lor (2204 / 4) 0x80000000)
      /\ block_index st !! 32%nat = Some (65320 / 4)
      /\ block_index st !! 34%nat = Some (69404 / 4)
      /\ block_index st !! 35%nat = Some (71452 / 4)
      /\ length log = 35%nat
      /\ len (contents (files st) "game.1.cso") = 71680
      /\ files st !! "game.2.cso" = None
      /\ fout_2 st = None
  | Exit _ _ => False
  end.
Proof. vm_compute. repeat split; reflexivity. Qed.

Lemma toy_codec_inverse (b : list byte) : toy_decompress (toy_compress b) = b.
Proof.
  unfold toy_compress, toy_decompress. case_decide as H.
  - rewrite decide_True by done. by rewrite <- H, take_drop.
  - by rewrite decide_False by done.
Qed.

(** Every block of the run on [demo_src] decodes to the bytes read from the
    source. *)
Example demo_roundtrip :
  exists st log,
    compress_iso toy_compress "game" ∅ demo_src = Done st log
    /\ forall i p, log !! i = Some p -> retrievable log i ->
         exists e, block_index st !! i = Some e
                   /\ decode_block toy_decompress (files st)
                        (volume_path "game" log i) e (len (pl_data p))
                      = pl_raw p.
Proof.
  exact (roundtrip_retrievable toy_compress "game" toy_decompress ∅ demo_src 0
           demo_src_detected demo_src_size toy_codec_inverse).
Qed.

(** C1 on block 32 of [demo_src], the stored signature block. *)
Lemma C1_witness :
  detect_iso_type demo_src = Some 0
  /\ len demo_src - 0 < 2 ^ 64
  /\ (32 < Z.to_nat (total_blocks (check_file_size demo_src 0)))%nat
  /\ exists p stf log,
       compress_iso toy_compress "game" ∅ demo_src = Done stf log
       /\ log !! 32%nat = Some p.
Proof.
  assert (32 < Z.to_nat (total_blocks (check_file_size demo_src 0)))%nat as Hk
    by (rewrite demo_src_blocks; lia).
  split; [exact demo_src_detected|]. split; [exact demo_src_size|].
  split; [exact Hk|].
  destruct (C1_store_or_compress toy_compress "game" ∅ demo_src 0 32
              demo_src_detected demo_src_size Hk)
    as (st & logk & st' & p & e & before & stf & log & H).
  exists p, stf, log. split; apply H.
Defined.


(** C6 as stated fails: on an empty source, with no file in the destination,
    detection fails and the run exits, yet the first volume has been
    created. *)
Lemma C6_output_created_before_abort :
  detect_iso_type [] = None
  /\ (∅ : gmap string (list byte)) !! "game.1.cso" = None
  /\ exists fs',
       compress_iso toy_compress "game" ∅ [] = Exit UnrecognizedSourceFormat fs'
       /\ fs' !! "game.1.cso" = Some [].
Proof.
  split; [done|]. split; [done|]. eexists. split; [reflexivity|]. done.
Qed.

(** C6 on a two-byte source with an existing first volume, which ends up
    empty. *)
Lemma C6_witness :
  detect_iso_type [Byte.x4d; Byte.x49] = None
  /\ compress_iso toy_compress "game" {["game.1.cso" := [Byte.x01]]}
       [Byte.x4d; Byte.x49]
     = Exit UnrecognizedSourceFormat
         (<[path_1 "game" := []]> {["game.1.cso" := [Byte.x01]]}).
Proof.
  assert (detect_iso_type [Byte.x4d; Byte.x49] = None) as Hdet by done.
  split; [exact Hdet|].
  exact (C6_unrecognized_exits_before_any_write toy_compress "game" _ _ Hdet).
Defined.

(** C8 on the run on [demo_src]. *)
Lemma C8_witness :
  detect_iso_type demo_src = Some 0
  /\ len demo_src - 0 < 2 ^ 64
  /\ len (header_bytes (total_bytes (check_file_size demo_src 0))) = 24.
Proof.
  split; [exact demo_src_detected|]. split; [exact demo_src_size|].
  exact (proj1 (proj2 (C8_header_and_index_footprint toy_compress "game" ∅
                         demo_src 0 demo_src_detected demo_src_size))).
Defined.

(** C9 on the run on [demo_src]. *)
Lemma C9_witness :
  detect_iso_type demo_src = Some 0
  /\ len demo_src - 0 < 2 ^ 64
  /\ exists st log,
       compress_iso toy_compress "game" ∅ demo_src = Done st log
       /\ len (contents (files st) (path_1 "game")) mod 1024 = 0.
Proof.
  split; [exact demo_src_detected|]. split; [exact demo_src_size|].
  destruct (C9_volumes_padded_once toy_compress "game" ∅ demo_src 0
              demo_src_detected demo_src_size)
    as (st1 & st & log & _ & Hrun & _ & Hmod & _).
  exists st, log. split; [exact Hrun | exact Hmod].
Defined.


(** ** A large image *)




(** ** The block count of a source of [2^53 + 2047] bytes *)


(** ** C5 and C7 on a small image *)



(** * Further properties of the encoder *)

(** ** How far the cursor moves *)

Section Growth.

Variable compress : list byte -> list byte.
Variable src : list byte.

(** One iteration either switches, and then ends within one block of the
    start of the new volume, or moves the cursor by at most three bytes of
    alignment and one block. *)
Lemma place_growth (w fp : Z) :
  let p := place compress src w fp in
  pl_switched p = bool_decide (w > SPLIT_THRESHOLD)
  /\ (if pl_switched p then 0 <= pl_end p <= CISO_BLOCK_SIZE
      else w <= pl_end p <= w + 3 + CISO_BLOCK_SIZE).
Proof.
  unfold pl_end, place. cbn [pl_switched pl_offset pl_data].
  set (raw := read_at src fp CISO_BLOCK_SIZE).
  assert (len raw <= CISO_BLOCK_SIZE) as Hraw by (by apply len_read_at_le).
  assert (0 <= len (if bool_decide (len (compress raw) + 12 < len raw)
                    then compress raw else raw) <= CISO_BLOCK_SIZE) as Hd.
  { case_bool_decide; unfold len in *; lia. }
  revert Hd. generalize (len (if bool_decide (len (compress raw) + 12 < len raw)
                    then compress raw else raw)). intros d Hd.
  split; [done|]. case_bool_decide.
  - rewrite aligned_id by done. lia.
  - pose proof (aligned_bounds w). lia.
Qed.

(** As long as [w + 2051 * (k - 1)] is at most twice the threshold, the
    first [k] iterations switch at most once: a volume needs more than
    [0xFFBF6000 / 2051] blocks before its cursor passes the threshold. *)
Lemma layout_growth (w fp : Z) (k : nat) :
  0 <= w ->
  w + 2051 * (Z.of_nat k - 1) <= 2 * SPLIT_THRESHOLD ->
  let log := layout compress src w fp k in
  (switches log = O /\ cursor_after w log <= w + 2051 * Z.of_nat k)
  \/ (switches log = 1%nat
      /\ exists i, 0 <= i <= Z.of_nat k - 1
           /\ SPLIT_THRESHOLD < w + 2051 * i
           /\ cursor_after w log <= 2051 * (Z.of_nat k - i)).
Proof.
  intros Hw. induction k as [|k IH]; intros Hk log.
  { left. split; [done|]. unfold cursor_after. simpl. lia. }
  subst log. rewrite layout_S_r, switches_app, cursor_after_snoc.
  set (c := cursor_after w (layout compress src w fp k)) in *.
  set (fp' := source_after fp (layout compress src w fp k)).
  destruct (place_growth c fp') as [Hsw Hend]. fold (place compress src c fp') in *.
  cbn [switches]. rewrite Nat.add_0_r.
  destruct IH as [[Hs Hc]|(Hs & i & Hi & HT & Hc)]; [lia| |]; rewrite Hs.
  - destruct (pl_switched (place compress src c fp')).
    + right. split; [done|]. exists (Z.of_nat k).
      symmetry in Hsw. apply bool_decide_eq_true_1 in Hsw.
      unfold CISO_BLOCK_SIZE in *. lia.
    + left. unfold CISO_BLOCK_SIZE in *. split; lia.
  - destruct (pl_switched (place compress src c fp')).
    + symmetry in Hsw. apply bool_decide_eq_true_1 in Hsw. lia.
    + right. split; [done|]. exists i. unfold CISO_BLOCK_SIZE in *. lia.
Qed.

(** While [w + 2051 * (k - 1)] is at most the threshold the first [k]
    iterations do not switch at all. *)
Lemma layout_no_switch (w fp : Z) (k : nat) :
  0 <= w ->
  w + 2051 * (Z.of_nat k - 1) <= SPLIT_THRESHOLD ->
  switches (layout compress src w fp k) = O.
Proof.
  intros Hw Hk.
  destruct (layout_growth w fp k Hw) as [[Hs _]|(_ & i & Hi & HT & _)];
    [unfold SPLIT_THRESHOLD in *; lia | done | lia].
Qed.

Lemma layout_one_switch (w fp : Z) (k : nat) :
  0 <= w ->
  w + 2051 * (Z.of_nat k - 1) <= 2 * SPLIT_THRESHOLD ->
  (switches (layout compress src w fp k) <= 1)%nat.
Proof.
  intros Hw Hk.
  destruct (layout_growth w fp k Hw Hk) as [[Hs _]|(Hs & _)]; lia.
Qed.

End Growth.

(** ** Runs that fit one or two volumes *)

Section SmallRuns.

Variable compress : list byte -> list byte.
Variable base : string.

Lemma loop_entry_write_pos (fs : gmap string (list byte)) (src : list byte)
    (off : Z) :
  0 <= total_blocks (check_file_size src off) ->
  write_pos (loop_entry base fs src off)
  = 28 + 4 * total_blocks (check_file_size src off).
Proof.
  intros Htb. unfold loop_entry. cbn [write_pos]. unfold CISO_HEADER_SIZE. lia.
Qed.

(** X1.  A source of at most [0xFFBF6000 / 2055] = 2087947 blocks ends up
    in one volume: no iteration takes the split branch, the second file is
    neither created nor touched, and every block lies in the first
    volume. *)
Theorem single_volume_run (fs : gmap string (list byte)) (src : list byte)
    (off : Z) :
  detect_iso_type src = Some off -> len src - off < 2 ^ 64 ->
  2055 * total_blocks (check_file_size src off) <= SPLIT_THRESHOLD ->
  exists st log,
    compress_iso compress base fs src = Done st log
    /\ length log = Z.to_nat (total_blocks (check_file_size src off))
    /\ switches log = O
    /\ fout_2 st = None
    /\ files st !! path_2 base = fs !! path_2 base
    /\ forall i, volume_path base log i = path_1 base.
Proof.
  intros Hdet Hlt Hsmall.
  destruct (compress_iso_run compress base fs src off Hdet Hlt)
    as (st1 & st & rest & _ & Hli & Hrun & _ & _ & _ & Hfiles).
  cbv zeta in Hfiles.
  pose proof (detect_iso_type_Some _ _ Hdet) as (_ & _ & Hlen).
  pose proof (total_blocks_nonneg src off ltac:(lia)) as Htb.
  pose proof (loop_entry_write_pos fs src off Htb) as Hw0.
  set (n := Z.to_nat (total_blocks (check_file_size src off))) in *.
  set (st0 := loop_entry base fs src off) in *.
  set (log := layout compress src (write_pos st0) off n) in *.
  assert (switches log = O) as Hsw.
  { subst log. apply layout_no_switch; rewrite Hw0; subst n; lia. }
  assert (split_fout st1 = Fout1) as Hsf.
  { rewrite (li_split _ _ _ _ _ _ Hli). by rewrite decide_True. }
  rewrite Hsf in Hfiles. destruct Hfiles as [Hfs Hf2].
  exists st, log. split; [done|]. split; [by subst log; rewrite length_layout|].
  split; [done|]. split; [done|]. split.
  - rewrite Hfs, lookup_insert_ne by apply path_1_ne_2.
    rewrite (li_second _ _ _ _ _ _ Hli Hsw). subst st0. unfold loop_entry.
    cbn [files]. by rewrite lookup_insert_ne by apply path_1_ne_2.
  - intros i. unfold volume_path. pose proof (volume_of_le log i).
    rewrite decide_True by lia. done.
Qed.

(** X2.  The round trip for every source of at most
    [2 * 0xFFBF6000 / 2055] = 4175894 blocks (8.5 GB): the run switches at
    most once, so no volume is reopened, and each block, decoded from its
    index entry in the volume it was placed in, is the 2048 bytes of the
    source at [off + 2048 * i]. *)
Theorem roundtrip_up_to_one_switch (decompress : list byte -> list byte)
    (fs : gmap string (list byte)) (src : list byte) (off : Z) :
  detect_iso_type src = Some off ->
  len src - off < 4175895 * CISO_BLOCK_SIZE ->
  (forall b, decompress (compress b) = b) ->
  exists st log,
    compress_iso compress base fs src = Done st log
    /\ length log = Z.to_nat ((len src - off) / CISO_BLOCK_SIZE)
    /\ (switches log <= 1)%nat
    /\ forall i p, log !! i = Some p ->
         exists e, block_index st !! i = Some e
           /\ decode_block decompress (files st) (volume_path base log i) e
                (len (pl_data p))
              = read_at src (off + CISO_BLOCK_SIZE * Z.of_nat i)
                  CISO_BLOCK_SIZE.
Proof.
  intros Hdet Hlt Hinverse.
  pose proof (detect_iso_type_Some _ _ Hdet) as (Hoff & _ & Hlen).
  assert (0 <= off) as Hoff0 by (destruct Hoff; lia).
  assert (len src - off < 2 ^ 53) as H53 by (unfold CISO_BLOCK_SIZE in Hlt; lia).
  destruct (run_stored compress base fs src off Hdet ltac:(lia))
    as (st & log & Hrun & Hlog & Hidx & Hstored).
  pose proof (total_blocks_exact src off ltac:(lia)) as Htb.
  rewrite Htb in Hlog.
  set (nz := (len src - off) / CISO_BLOCK_SIZE) in *.
  assert (0 <= nz <= 4175894 /\ off + CISO_BLOCK_SIZE * nz <= len src)
    as [Hn Hle].
  { subst nz. unfold CISO_BLOCK_SIZE in *. Z.div_mod_to_equations. lia. }
  assert (switches log <= 1)%nat as Hsw.
  { rewrite Hlog. apply layout_one_switch;
      unfold CISO_HEADER_SIZE, SPLIT_THRESHOLD; lia. }
  exists st, log. split; [done|]. split; [by rewrite Hlog, length_layout|].
  split; [done|]. intros i p Hp.
  assert (retrievable log i) as Hret.
  { unfold retrievable. pose proof (volume_of_le log i). lia. }
  exists (entry_of p). split; [by apply Hidx|].
  unfold decode_block, entry_of.
  assert (0 <= pl_offset p <= SPLIT_THRESHOLD /\ pl_offset p mod 4 = 0)
    as [Ho Hm].
  { rewrite Hlog in Hp. apply layout_offsets in Hp as (? & ? & _); [done|].
    unfold CISO_HEADER_SIZE. lia. }
  destruct (index_entry_decode (pl_offset p) (pl_compressed p)) as [-> ->];
    [unfold SPLIT_THRESHOLD in Ho; lia | done |].
  rewrite (Hstored i p Hp Hret).
  rewrite Hlog in Hp.
  assert (off + CISO_BLOCK_SIZE * Z.of_nat (Z.to_nat nz) <= len src) as Hle'
    by (rewrite Z2Nat.id by lia; done).
  destruct (layout_raw compress src off _ _ _ _ Hoff0 Hle' Hp) as [<- _].
  apply layout_decision in Hp as (_ & -> & _).
  by destruct (pl_compressed p).
Qed.

End SmallRuns.

(** ** The sizes of the volumes *)

Section Sizes.

Variable compress : list byte -> list byte.
Variable base : string.

(** After any number of iterations the first volume is no longer than the
    larger of its length on loop entry and the threshold plus one block. *)
Lemma first_volume_bound (src : list byte) (ciso : ciso_info)
    (st0 : enc_state) (k : nat) :
  align ciso = 2 -> block_size ciso = CISO_BLOCK_SIZE ->
  enc_inv base st0 -> split_fout st0 = Fout1 ->
  (k <= length (block_index st0))%nat ->
  exists st,
    encode_loop compress base src ciso st0 (Z.of_nat <$> seq 0 k)
      = Some (st, layout compress src (write_pos st0) (fin_pos st0) k)
    /\ len (contents (files st) (path_1 base))
       <= Z.max (write_pos st0) (SPLIT_THRESHOLD + CISO_BLOCK_SIZE).
Proof.
  intros Hal Hbs Hinv Hsf. induction k as [|k IH]; intros Hk.
  - exists st0. split; [done|].
    destruct Hinv as (_ & _ & _ & _ & _ & Hlen & _).
    unfold active_path in Hlen. rewrite Hsf in Hlen. lia.
  - destruct IH as (st & He & Hsize); [lia|].
    destruct (encode_prefix_spec compress base src ciso Hal Hbs st0 k Hinv Hsf)
      as (st_ & He_ & Hli); [lia|].
    rewrite He in He_. injection He_ as <-.
    destruct (loop_inv_step compress base src ciso Hal Hbs st0 st _ Hli)
      as (st' & Hstep & Hli').
    { rewrite length_layout. lia. }
    rewrite length_layout in Hstep.
    assert (length (block_index st) = length (block_index st0)) as Hlenbi.
    { rewrite (li_index _ _ _ _ _ _ Hli), length_app, length_fmap, length_drop,
        length_layout. lia. }
    destruct (encode_block_spec compress base src ciso st (Z.of_nat k) Hal Hbs
                (li_inv _ _ _ _ _ _ Hli))
      as (st'' & Hstep' & Hinv' & _ & _ & _ & _ & Hfs').
    { unfold len. lia. }
    fold (place compress src (write_pos st) (fin_pos st)) in Hstep'.
    rewrite Hstep in Hstep'. injection Hstep' as <-.
    exists st'. split.
    { rewrite seq_S, fmap_app, encode_loop_app, He.
      cbn [mbind option_bind fmap list_fmap encode_loop Nat.add].
      rewrite Hstep. cbn [mbind option_bind].
      by rewrite layout_S_r, <- (li_write_pos _ _ _ _ _ _ Hli),
        <- (li_fin_pos _ _ _ _ _ _ Hli). }
    destruct (decide (active_path base st' = path_1 base)) as [Heq|Hne].
    + destruct Hinv' as (_ & _ & _ & _ & _ & Hlen & _). rewrite Heq in Hlen.
      rewrite Hlen, (li_write_pos _ _ _ _ _ _ Hli'), cursor_after_snoc.
      destruct (li_inv _ _ _ _ _ _ Hli) as (Hw & _).
      pose proof (pl_end_place_bounds compress src (write_pos st) (fin_pos st)
                    Hw). lia.
    + rewrite Hfs', contents_insert_ne by done. exact Hsize.
Qed.

(** X3.  No volume reaches 4 GiB.  When the header and the index table fit
    below the threshold plus one block (a source of up to 2 TiB), the
    finished first volume is at most [0xFFBF6000 + 2048 + 1024] bytes long,
    and so is the second one if the run switched. *)
Theorem volumes_below_4GiB (fs : gmap string (list byte)) (src : list byte)
    (off : Z) :
  detect_iso_type src = Some off -> len src - off < 2 ^ 64 ->
  28 + 4 * total_blocks (check_file_size src off)
    <= SPLIT_THRESHOLD + CISO_BLOCK_SIZE ->
  exists st log,
    compress_iso compress base fs src = Done st log
    /\ len (contents (files st) (path_1 base))
       <= SPLIT_THRESHOLD + CISO_BLOCK_SIZE + 0x400 < 2 ^ 32
    /\ (switches log <> O ->
        len (contents (files st) (path_2 base))
        <= SPLIT_THRESHOLD + CISO_BLOCK_SIZE + 0x400 < 2 ^ 32).
Proof.
  intros Hdet Hlt Hsmall.
  destruct (compress_iso_run compress base fs src off Hdet Hlt)
    as (st1 & st & rest & Hloop & Hli & Hrun & Hc1 & Hbi & _ & Hfiles).
  cbv zeta in Hfiles.
  pose proof (detect_iso_type_Some _ _ Hdet) as (_ & _ & Hlen).
  pose proof (total_blocks_nonneg src off ltac:(lia)) as Htb.
  pose proof (loop_entry_write_pos base fs src off Htb) as Hw0.
  set (n := Z.to_nat (total_blocks (check_file_size src off))) in *.
  set (st0 := loop_entry base fs src off) in *.
  set (log := layout compress src (write_pos st0) off n) in *.
  destruct (first_volume_bound src (check_file_size src off) st0 n eq_refl
              eq_refl (loop_entry_inv base fs src off) eq_refl)
    as (st1' & Hloop' & Hsize).
  { subst st0 n. unfold loop_entry. cbn [block_index].
    rewrite length_replicate. lia. }
  assert (py_range (total_blocks (check_file_size src off))
          = Z.of_nat <$> seq 0 n) as Hrange by done.
  rewrite Hrange in Hloop. rewrite Hloop in Hloop'. injection Hloop' as <-.
  assert (len (index_bytes (block_index st)) = 4 * Z.of_nat (S n)) as Hlidx.
  { rewrite len_index_bytes, Hbi. unfold len.
    rewrite length_app, length_fmap. subst log. rewrite length_layout.
    cbn [length]. lia. }
  assert (len (contents (files st) (path_1 base))
          <= SPLIT_THRESHOLD + CISO_BLOCK_SIZE + 0x400) as H1.
  { assert (contents (files st) (path_1 base)
            = padded (header_bytes (len src - off)
                        ++ index_bytes (block_index st) ++ rest)) as ->.
    { destruct (split_fout st1).
      - destruct Hfiles as [-> _]. by rewrite contents_insert_eq.
      - destruct Hfiles as [-> _].
        rewrite contents_insert_ne by (apply not_eq_sym, path_1_ne_2).
        by rewrite contents_insert_eq. }
    destruct (padded_spec (header_bytes (len src - off)
                             ++ index_bytes (block_index st) ++ rest))
      as (_ & _ & _ & _ & [_ Hp]).
    rewrite Hc1, !len_app, len_zeros in Hsize by lia.
    rewrite !len_app, Hlidx in Hp. lia. }
  exists st, log. split; [done|]. split.
  { split; [done|]. unfold SPLIT_THRESHOLD, CISO_BLOCK_SIZE in *. lia. }
  intros Hsw.
  assert (split_fout st1 = Fout2) as Hsf.
  { rewrite (li_split _ _ _ _ _ _ Hli). by rewrite decide_False. }
  rewrite Hsf in Hfiles. destruct Hfiles as [-> _].
  rewrite contents_insert_eq.
  destruct (padded_spec (contents (files st1) (path_2 base)))
    as (_ & _ & _ & _ & [_ Hp]).
  destruct (li_inv _ _ _ _ _ _ Hli) as (_ & _ & _ & _ & _ & Hl2 & _).
  unfold active_path in Hl2. rewrite Hsf in Hl2.
  assert (0 < n)%nat as Hn.
  { destruct n; [|lia]. by subst log. }
  pose proof (cursor_after_layout_bound compress src (write_pos st0) off n
                (li_start _ _ _ _ _ _ Hli) Hn) as Hcur.
  fold log in Hcur. rewrite <- (li_write_pos _ _ _ _ _ _ Hli) in Hcur.
  unfold SPLIT_THRESHOLD, CISO_BLOCK_SIZE in *. lia.
Qed.

End Sizes.

(** ** How a run ends *)

Section Outcomes.

Variable compress : list byte -> list byte.
Variable base : string.


(** X5.  What the index says about stored lengths.  For two consecutive
    blocks of one volume the second offset is the end of the first payload
    rounded up to a multiple of 4, so the difference of the two offsets is
    the stored length plus at most three bytes of padding. *)
Theorem consecutive_offsets (fs : gmap string (list byte)) (src : list byte)
    (off : Z) :
  detect_iso_type src = Some off -> len src - off < 2 ^ 64 ->
  exists st log,
    compress_iso compress base fs src = Done st log
    /\ forall i p q,
         log !! i = Some p -> log !! S i = Some q -> pl_switched q = false ->
         exists e e',
           block_index st !! i = Some e
           /\ block_index st !! S i = Some e'
           /\ entry_offset 2 e' = aligned (entry_offset 2 e + len (pl_data p))
           /\ len (pl_data p) <= entry_offset 2 e' - entry_offset 2 e
              <= len (pl_data p) + 3.
Proof.
  intros Hdet Hlt.
  destruct (run_stored compress base fs src off Hdet Hlt)
    as (st & log & Hrun & Hlog & Hidx & _).
  exists st, log. split; [done|]. intros i p q Hp Hq Hsw.
  exists (entry_of p), (entry_of q).
  split; [by apply Hidx|]. split; [by apply Hidx|].
  rewrite Hlog in Hp, Hq.
  assert (0 <= CISO_HEADER_SIZE
               + 4 * Z.of_nat (S (Z.to_nat (total_blocks (check_file_size src off)))))
    as Hw by (unfold CISO_HEADER_SIZE; lia).
  destruct (layout_offsets _ _ _ _ _ _ _ Hw Hp) as (Hop & Hmp & _).
  destruct (layout_offsets _ _ _ _ _ _ _ Hw Hq) as (Hoq & Hmq & _).
  destruct (layout_next _ _ _ _ _ _ _ _ Hp Hq) as [_ Hnext].
  rewrite Hsw in Hnext. unfold entry_of.
  destruct (index_entry_decode (pl_offset p) (pl_compressed p)) as [-> _];
    [unfold SPLIT_THRESHOLD in *; lia | done |].
  destruct (index_entry_decode (pl_offset q) (pl_compressed q)) as [-> _];
    [unfold SPLIT_THRESHOLD in *; lia | done |].
  fold (pl_end p). rewrite Hnext.
  pose proof (aligned_bounds (pl_end p)). unfold pl_end in *.
  split; [done|]. lia.
Qed.

(** X6.  The last entry of the table, the sentinel, is the final cursor
    shifted right by 2: the end of the last payload rounded down to a
    multiple of 4 (the offsets of the blocks are rounded up). *)
Theorem sentinel_entry (fs : gmap string (list byte)) (src : list byte)
    (off : Z) :
  detect_iso_type src = Some off -> len src - off < 2 ^ 64 ->
  exists st log,
    compress_iso compress base fs src = Done st log
    /\ forall p, last log = Some p ->
         exists s,
           block_index st !! length log = Some s
           /\ entry_compressed s = false
           /\ entry_offset 2 s <= pl_end p <= entry_offset 2 s + 3.
Proof.
  intros Hdet Hlt.
  destruct (compress_iso_run compress base fs src off Hdet Hlt)
    as (st1 & st & rest & _ & Hli & Hrun & _ & Hbi & _).
  set (st0 := loop_entry base fs src off) in *.
  set (log := layout compress src (write_pos st0) off
                (Z.to_nat (total_blocks (check_file_size src off)))) in *.
  exists st, log. split; [done|]. intros p Hp.
  exists (Z.shiftr (write_pos st1) 2).
  split.
  { rewrite Hbi, lookup_app_r by (by rewrite length_fmap).
    by rewrite length_fmap, Nat.sub_diag. }
  pose proof (li_write_pos _ _ _ _ _ _ Hli) as Hwp.
  apply last_Some in Hp as [log' Hlog']. rewrite Hlog' in Hwp.
  rewrite cursor_after_snoc in Hwp.
  assert (log !! length log' = Some p) as Hlk.
  { rewrite Hlog', lookup_app_r, Nat.sub_diag by lia. done. }
  destruct (layout_offsets _ _ _ _ _ _ _ (li_start _ _ _ _ _ _ Hli) Hlk)
    as (Ho & _ & He).
  rewrite Hwp. unfold entry_compressed, entry_offset.
  assert (0 <= pl_end p < 2 ^ 33) as Hr
    by (unfold SPLIT_THRESHOLD, CISO_BLOCK_SIZE in *; lia).
  revert Hr. generalize (pl_end p). intros c Hc.
  rewrite Z.shiftr_div_pow2 by lia. change (2 ^ 2) with 4.
  assert (0 <= c / 4 < 2 ^ 31) as Hq by (Z.div_mod_to_equations; lia).
  split.
  { apply Z.bits_above_log2; [lia|].
    destruct (decide (c / 4 = 0)) as [->|]; [done|].
    apply Z.log2_lt_pow2; lia. }
  change 0x7FFFFFFF with (Z.ones 31). rewrite Z.land_ones by lia.
  rewrite Z.mod_small by lia. rewrite Z.shiftl_mul_pow2 by lia.
  Z.div_mod_to_equations. lia.
Qed.

End Outcomes.

(** ** The index table on disk *)

Lemma write_block_index_app (l1 l2 : list Z) (fs : gmap string (list byte))
    (f : pyfile) :
  write_block_index fs f (l1 ++ l2)
  = match write_block_index fs f l1 with
    | inl (fs', f') => write_block_index fs' f' l2
    | inr fs' => inr fs'
    end.
Proof.
  revert fs f. induction l1 as [|e l1 IH]; intros fs f; [done|].
  cbn [app write_block_index]. destruct (pack_uint 4 e); [|done].
  destruct (py_write fs f l) as [fs' f']. apply IH.
Qed.

(** X14.  [write_block_index] packs and writes the entries one at a time:
    at the first entry that does not fit 32 bits it stops the run, and the
    entries before it have been written to the file by then. *)
Theorem write_block_index_stops_at_bad_entry (good rest : list Z) (bad : Z)
    (fs : gmap string (list byte)) (f : pyfile) :
  Forall (fun e => 0 <= e < 2 ^ 32) good ->
  ~ (0 <= bad < 2 ^ 32) ->
  is_Some (fs !! f_path f) ->
  0 <= f_pos f <= len (contents fs (f_path f)) ->
  write_block_index fs f (good ++ bad :: rest)
  = inr (<[f_path f := write_at (contents fs (f_path f)) (f_pos f)
                         (index_bytes good)]> fs).
Proof.
  intros Hgood Hbad Hex Hpos.
  rewrite write_block_index_app, write_block_index_spec by done.
  cbn [write_block_index]. unfold pack_uint.
  by rewrite decide_False by done.
Qed.

Lemma unpack_index_bytes (index : list Z) (tail : list byte) :
  Forall (fun e => 0 <= e < 2 ^ 32) index ->
  unpack_index (length index) (index_bytes index ++ tail) = index.
Proof.
  induction 1 as [|e index He _ IH]; [done|].
  unfold index_bytes in *. cbn [flat_map length unpack_index].
  rewrite <- app_assoc.
  assert (length (le_bytes 4 e) = 4%nat) as Hl
    by (pose proof (len_le_bytes 4 e); unfold len in *; lia).
  rewrite take_app_length', drop_app_length' by done.
  rewrite le_value_le_bytes by done. by rewrite IH.
Qed.

Section IndexOnDisk.

Variable compress : list byte -> list byte.
Variable base : string.

(** X15.  The table of the finished first volume reads back as the index
    of the run: the [total_blocks + 1] little-endian words behind the
    24-byte header are the entries of the blocks in order and the sentinel,
    each below [2^32]. *)
Theorem index_read_back (fs : gmap string (list byte)) (src : list byte)
    (off : Z) :
  detect_iso_type src = Some off -> len src - off < 2 ^ 64 ->
  exists st log,
    compress_iso compress base fs src = Done st log
    /\ length (block_index st) = S (length log)
    /\ Forall (fun e => 0 <= e < 2 ^ 32) (block_index st)
    /\ take (length log) (block_index st) = entry_of <$> log
    /\ unpack_index (length (block_index st))
         (read_at (contents (files st) (path_1 base)) CISO_HEADER_SIZE
            (4 * len (block_index st)))
       = block_index st.
Proof.
  intros Hdet Hlt.
  destruct (compress_iso_run compress base fs src off Hdet Hlt)
    as (st1 & st & rest & _ & Hli & Hrun & _ & Hbi & _ & Hfiles).
  cbv zeta in Hfiles.
  set (st0 := loop_entry base fs src off) in *.
  set (n := Z.to_nat (total_blocks (check_file_size src off))) in *.
  set (log := layout compress src (write_pos st0) off n) in *.
  pose proof (li_start _ _ _ _ _ _ Hli) as Hw0.
  assert (0 <= Z.shiftr (write_pos st1) 2 < 2 ^ 32) as Hsent.
  { rewrite (li_write_pos _ _ _ _ _ _ Hli), Z.shiftr_div_pow2 by lia.
    change (2 ^ 2) with 4.
    destruct n as [|n'] eqn:Hn.
    - subst log. change (cursor_after (write_pos st0) (layout _ _ _ _ 0))
        with (write_pos st0).
      pose proof (detect_iso_type_Some _ _ Hdet) as (_ & _ & Hlen).
      pose proof (total_blocks_nonneg src off ltac:(lia)) as Htb.
      subst st0. rewrite loop_entry_write_pos by done.
      Z.div_mod_to_equations. lia.
    - pose proof (cursor_after_layout_bound compress src (write_pos st0) off
                    (S n') Hw0 ltac:(lia)) as Hub.
      pose proof (cursor_after_layout_nonneg compress src (write_pos st0) off
                    (S n') Hw0) as Hlb.
      fold log in Hub, Hlb.
      unfold SPLIT_THRESHOLD, CISO_BLOCK_SIZE in Hub.
      Z.div_mod_to_equations. lia. }
  assert (Forall (fun e => 0 <= e < 2 ^ 32) (block_index st)) as Hrange.
  { rewrite Hbi. apply Forall_app. split; [by apply entries_in_range|].
    by apply Forall_singleton. }
  exists st, log. split; [done|].
  split; [by rewrite Hbi, length_app, length_fmap, Nat.add_1_r|].
  split; [done|].
  split.
  { rewrite Hbi, take_app_length'; [done|]. by rewrite length_fmap. }
  assert (contents (files st) (path_1 base)
          = padded (header_bytes (len src - off)
                      ++ index_bytes (block_index st) ++ rest)) as ->.
  { destruct (split_fout st1).
    - destruct Hfiles as [-> _]. by rewrite contents_insert_eq.
    - destruct Hfiles as [-> _].
      rewrite contents_insert_ne by (apply not_eq_sym, path_1_ne_2).
      by rewrite contents_insert_eq. }
  unfold padded. rewrite <- !app_assoc.
  rewrite read_at_app_mid_at;
    [| by rewrite len_header_bytes | by rewrite len_index_bytes].
  rewrite <- (app_nil_r (index_bytes (block_index st))).
  by apply unpack_index_bytes.
Qed.

End IndexOnDisk.

(** ** The further properties on the small image *)

(** X1 on [demo_src]. *)
Lemma single_volume_run_witness :
  detect_iso_type demo_src = Some 0
  /\ len demo_src - 0 < 2 ^ 64
  /\ 2055 * total_blocks (check_file_size demo_src 0) <= SPLIT_THRESHOLD
  /\ exists st log,
       compress_iso toy_compress "game" ∅ demo_src = Done st log
       /\ length log = Z.to_nat (total_blocks (check_file_size demo_src 0))
       /\ switches log = O
       /\ fout_2 st = None
       /\ files st !! path_2 "game"
          = (∅ : gmap string (list byte)) !! path_2 "game"
       /\ forall i, volume_path "game" log i = path_1 "game".
Proof.
  assert (2055 * total_blocks (check_file_size demo_src 0) <= SPLIT_THRESHOLD)
    as Hsmall by (by vm_compute).
  split; [exact demo_src_detected|]. split; [exact demo_src_size|].
  split; [exact Hsmall|].
  exact (single_volume_run toy_compress "game" ∅ demo_src 0 demo_src_detected
           demo_src_size Hsmall).
Defined.

(** X2 on [demo_src], with the toy codec. *)
Lemma roundtrip_up_to_one_switch_witness :
  detect_iso_type demo_src = Some 0
  /\ len demo_src - 0 < 4175895 * CISO_BLOCK_SIZE
  /\ (forall b, toy_decompress (toy_compress b) = b)
  /\ exists st log,
       compress_iso toy_compress "game" ∅ demo_src = Done st log
       /\ length log = Z.to_nat ((len demo_src - 0) / CISO_BLOCK_SIZE)
       /\ (switches log <= 1)%nat
       /\ forall i p, log !! i = Some p ->
            exists e, block_index st !! i = Some e
              /\ decode_block toy_decompress (files st)
                   (volume_path "game" log i) e (len (pl_data p))
                 = read_at demo_src (0 + CISO_BLOCK_SIZE * Z.of_nat i)
                     CISO_BLOCK_SIZE.
Proof.
  assert (len demo_src - 0 < 4175895 * CISO_BLOCK_SIZE) as Hlt
    by (by vm_compute).
  split; [exact demo_src_detected|]. split; [exact Hlt|].
  split; [exact toy_codec_inverse|].
  exact (roundtrip_up_to_one_switch toy_compress "game" toy_decompress ∅
           demo_src 0 demo_src_detected Hlt toy_codec_inverse).
Defined.

(** X3 on [demo_src]. *)
Lemma volumes_below_4GiB_witness :
  detect_iso_type demo_src = Some 0
  /\ len demo_src - 0 < 2 ^ 64
  /\ 28 + 4 * total_blocks (check_file_size demo_src 0)
     <= SPLIT_THRESHOLD + CISO_BLOCK_SIZE
  /\ exists st log,
       compress_iso toy_compress "game" ∅ demo_src = Done st log
       /\ len (contents (files st) (path_1 "game"))
          <= SPLIT_THRESHOLD + CISO_BLOCK_SIZE + 0x400 < 2 ^ 32
       /\ (switches log <> O ->
           len (contents (files st) (path_2 "game"))
           <= SPLIT_THRESHOLD + CISO_BLOCK_SIZE + 0x400 < 2 ^ 32).
Proof.
  assert (28 + 4 * total_blocks (check_file_size demo_src 0)
          <= SPLIT_THRESHOLD + CISO_BLOCK_SIZE) as Hsmall by (by vm_compute).
  split; [exact demo_src_detected|]. split; [exact demo_src_size|].
  split; [exact Hsmall|].
  exact (volumes_below_4GiB toy_compress "game" ∅ demo_src 0 demo_src_detected
           demo_src_size Hsmall).
Defined.

(** X5 on [demo_src]. *)
Lemma consecutive_offsets_witness :
  detect_iso_type demo_src = Some 0
  /\ len demo_src - 0 < 2 ^ 64
  /\ exists st log,
       compress_iso toy_compress "game" ∅ demo_src = Done st log
       /\ forall i p q,
            log !! i = Some p -> log !! S i = Some q ->
            pl_switched q = false ->
            exists e e',
              block_index st !! i = Some e
              /\ block_index st !! S i = Some e'
              /\ entry_offset 2 e'
                 = aligned (entry_offset 2 e + len (pl_data p))
              /\ len (pl_data p) <= entry_offset 2 e' - entry_offset 2 e
                 <= len (pl_data p) + 3.
Proof.
  split; [exact demo_src_detected|]. split; [exact demo_src_size|].
  exact (consecutive_offsets toy_compress "game" ∅ demo_src 0 demo_src_detected
           demo_src_size).
Defined.

(** X6 on [demo_src]. *)
Lemma sentinel_entry_witness :
  detect_iso_type demo_src = Some 0
  /\ len demo_src - 0 < 2 ^ 64
  /\ exists st log,
       compress_iso toy_compress "game" ∅ demo_src = Done st log
       /\ forall p, last log = Some p ->
            exists s,
              block_index st !! length log = Some s
              /\ entry_compressed s = false
              /\ entry_offset 2 s <= pl_end p <= entry_offset 2 s + 3.
Proof.
  split; [exact demo_src_detected|]. split; [exact demo_src_size|].
  exact (sentinel_entry toy_compress "game" ∅ demo_src 0 demo_src_detected
           demo_src_size).
Defined.

(** X14 on a table of three entries, the last of which is [2^32]. *)
Lemma write_block_index_stops_at_bad_entry_witness :
  Forall (fun e => 0 <= e < 2 ^ 32) [1; 2]
  /\ ~ (0 <= 2 ^ 32 < 2 ^ 32)
  /\ is_Some (({[ "game.1.cso" := [Byte.x07] ]} : gmap string (list byte))
                !! f_path (PyFile "game.1.cso" 1 false))
  /\ 0 <= f_pos (PyFile "game.1.cso" 1 false)
     <= len (contents {[ "game.1.cso" := [Byte.x07] ]}
               (f_path (PyFile "game.1.cso" 1 false)))
  /\ write_block_index {[ "game.1.cso" := [Byte.x07] ]}
       (PyFile "game.1.cso" 1 false) ([1; 2] ++ 2 ^ 32 :: [3])
     = inr (<["game.1.cso" :=
               write_at (contents {[ "game.1.cso" := [Byte.x07] ]} "game.1.cso")
                 1 (index_bytes [1; 2])]> {[ "game.1.cso" := [Byte.x07] ]}).
Proof.
  assert (Forall (fun e => 0 <= e < 2 ^ 32) [1; 2]) as Hgood
    by (repeat constructor; lia).
  assert (~ (0 <= 2 ^ 32 < 2 ^ 32)) as Hbad by lia.
  assert (is_Some (({[ "game.1.cso" := [Byte.x07] ]}
                      : gmap string (list byte))
                     !! f_path (PyFile "game.1.cso" 1 false))) as Hex
    by (eexists; apply lookup_singleton_eq).
  assert (0 <= f_pos (PyFile "game.1.cso" 1 false)
          <= len (contents {[ "game.1.cso" := [Byte.x07] ]}
                    (f_path (PyFile "game.1.cso" 1 false)))) as Hpos
    by (by vm_compute).
  split; [exact Hgood|]. split; [exact Hbad|]. split; [exact Hex|].
  split; [exact Hpos|].
  exact (write_block_index_stops_at_bad_entry [1; 2] [3] (2 ^ 32) _ _ Hgood
           Hbad Hex Hpos).
Defined.

(** X15 on [demo_src]. *)
Lemma index_read_back_witness :
  detect_iso_type demo_src = Some 0
  /\ len demo_src - 0 < 2 ^ 64
  /\ exists st log,
       compress_iso toy_compress "game" ∅ demo_src = Done st log
       /\ length (block_index st) = S (length log)
       /\ Forall (fun e => 0 <= e < 2 ^ 32) (block_index st)
       /\ take (length log) (block_index st) = entry_of <$> log
       /\ unpack_index (length (block_index st))
            (read_at (contents (files st) (path_1 "game")) CISO_HEADER_SIZE
               (4 * len (block_index st)))
          = block_index st.
Proof.
  split; [exact demo_src_detected|]. split; [exact demo_src_size|].
  exact (index_read_back toy_compress "game" ∅ demo_src 0 demo_src_detected
           demo_src_size).
Defined.

(** X16 on [demo_src]: 35 whole blocks are read, the 100 bytes behind them
    are not. *)
Lemma whole_blocks_read_witness :
  detect_iso_type demo_src = Some 0
  /\ len demo_src - 0 < 2 ^ 53
  /\ exists st log,
       compress_iso toy_compress "game" ∅ demo_src = Done st log
       /\ total_blocks (check_file_size demo_src 0)
          = (len demo_src - 0) / CISO_BLOCK_SIZE
       /\ length log = Z.to_nat ((len demo_src - 0) / CISO_BLOCK_SIZE)
       /\ source_after 0 log
          = 0 + CISO_BLOCK_SIZE * ((len demo_src - 0) / CISO_BLOCK_SIZE)
       /\ 0 + CISO_BLOCK_SIZE * ((len demo_src - 0) / CISO_BLOCK_SIZE)
          <= len demo_src
       /\ forall i p, log !! i = Some p ->
            pl_raw p = read_at demo_src (0 + CISO_BLOCK_SIZE * Z.of_nat i)
                         CISO_BLOCK_SIZE
            /\ len (pl_raw p) = CISO_BLOCK_SIZE.
Proof.
  assert (len demo_src - 0 < 2 ^ 53) as Hlt by (by vm_compute).
  split; [exact demo_src_detected|]. split; [exact Hlt|].
  exact (whole_blocks_read toy_compress "game" ∅ demo_src 0 demo_src_detected
           Hlt).
Defined.

(** * The launcher *)

(** ** Reading fields *)

Lemma unpack_uint_le_bytes (n : nat) (v : Z) :
  0 <= v < 2 ^ (8 * Z.of_nat n) -> unpack_uint n (le_bytes n v) = Ret v.
Proof.
  intros Hv. unfold unpack_uint.
  pose proof (len_le_bytes n v) as Hl. unfold len in Hl.
  rewrite decide_True by lia. by rewrite le_value_le_bytes.
Qed.

Lemma le_value_bounds (bs : list byte) :
  0 <= le_value bs < 2 ^ (8 * len bs).
Proof.
  induction bs as [|b bs IH].
  - unfold len. simpl. lia.
  - rewrite len_cons. cbn [le_value].
    assert (0 <= Z_of_byte b < 256) as Hb.
    { unfold Z_of_byte. pose proof (Byte.to_N_bounded b). lia. }
    pose proof (len_nonneg bs).
    replace (8 * (1 + len bs)) with (8 + 8 * len bs) by lia.
    rewrite Z.pow_add_r by lia. change (2 ^ 8) with 256. nia.
Qed.

Lemma unpack_uint_Ret (n : nat) (bs : list byte) (v : Z) :
  unpack_uint n bs = Ret v ->
  length bs = n /\ v = le_value bs /\ 0 <= v < 2 ^ (8 * Z.of_nat n).
Proof.
  unfold unpack_uint. case_decide as Hl; [|done]. intros [= <-].
  split; [done|]. split; [done|].
  pose proof (le_value_bounds bs) as Hb. unfold len in Hb. by rewrite Hl in Hb.
Qed.

(** A read that returns [n > 0] bytes lies inside the file. *)
Lemma read_at_length_inv (c : list byte) (pos n : Z) :
  0 <= pos -> 0 < n -> len (read_at c pos n) = n -> pos + n <= len c.
Proof.
  intros Hpos Hn. unfold read_at. case_decide.
  - unfold len. simpl. lia.
  - rewrite len_take, len_drop. lia.
Qed.

Lemma byte_of_Z_of_byte_aux (b : byte) :
  default Byte.x00 (Byte.of_N (Z.to_N (Z_of_byte b))) = b.
Proof. unfold Z_of_byte. by rewrite N2Z.id, Byte.of_to_N. Qed.

(** Little-endian bytes are the bytes of their value. *)
Lemma le_bytes_le_value (bs : list byte) (n : nat) :
  length bs = n -> le_bytes n (le_value bs) = bs.
Proof.
  revert n. induction bs as [|b bs IH]; intros n <-; [done|].
  cbn [length le_bytes le_value].
  assert (0 <= Z_of_byte b < 256) as Hb.
  { unfold Z_of_byte. pose proof (Byte.to_N_bounded b). lia. }
  assert (byte_of_Z (Z_of_byte b + 256 * le_value bs) = b) as ->.
  { unfold byte_of_Z.
    replace ((Z_of_byte b + 256 * le_value bs) mod 256) with (Z_of_byte b)
      by (Z.div_mod_to_equations; lia).
    apply byte_of_Z_of_byte_aux. }
  f_equal.
  replace ((Z_of_byte b + 256 * le_value bs) / 256) with (le_value bs)
    by (Z.div_mod_to_equations; lia).
  by apply IH.
Qed.

Lemma unpack_uint_Raise (n : nat) (bs : list byte) (e : exn) :
  unpack_uint n bs = Raise e -> e = StructError.
Proof. unfold unpack_uint. case_decide; congruence. Qed.

(** ** The walk of the root directory *)

(** One iteration, when none of its reads comes back short. *)
Lemma scan_root_dir_S (fuel : nat) (iso : list byte) (off : Z) (s : pystr)
    (pos : Z) :
  scan_root_dir (S fuel) iso off s pos
  = (l_offset ← unpack_uint 2 (read_at iso pos 2);
     if decide (l_offset = 0xffff) then Ret 0
     else
       r_offset ← unpack_uint 2 (read_at iso (pos + 2) 2);
       start_sector ← unpack_uint 4 (read_at iso (pos + 4) 4);
       file_size ← unpack_uint 4 (read_at iso (pos + 8) 4);
       attribs ← unpack_uint 1 (read_at iso (pos + 12) 1);
       filename_len ← unpack_uint 1 (read_at iso (pos + 13) 1);
       let name := read_at iso (pos + 14) filename_len in
       filename ← or_raise DecodeError (utf8_decode name);
       if decide (filename = s)
       then Ret (off + start_sector * 0x800)
       else scan_root_dir fuel iso off s
              (pos + 14 + len name + (4 - ((14 + filename_len) mod 4)) mod 4)).
Proof. reflexivity. Qed.

(** The walk ends on every image: an iteration that does not raise has read
    14 bytes, so it cannot be repeated more often than the image is long. *)
Lemma scan_root_dir_terminates (fuel : nat) (iso : list byte) (off : Z)
    (s : pystr) (pos : Z) :
  0 <= pos -> (0 < fuel)%nat -> len iso - pos < 14 * Z.of_nat fuel ->
  scan_root_dir fuel iso off s pos <> Raise OutOfFuel.
Proof.
  revert pos. induction fuel as [|fuel IH]; intros pos Hpos Hf Hlen; [lia|].
  rewrite scan_root_dir_S.
  destruct (unpack_uint 2 (read_at iso pos 2)) as [l|e] eqn:Hl;
    [|apply unpack_uint_Raise in Hl as ->; done].
  cbn [mbind py_bind]. case_decide; [done|].
  destruct (unpack_uint 2 (read_at iso (pos + 2) 2)) as [r|e] eqn:Hr;
    [|apply unpack_uint_Raise in Hr as ->; done].
  cbn [mbind py_bind].
  destruct (unpack_uint 4 (read_at iso (pos + 4) 4)) as [ss|e] eqn:Hss;
    [|apply unpack_uint_Raise in Hss as ->; done].
  cbn [mbind py_bind].
  destruct (unpack_uint 4 (read_at iso (pos + 8) 4)) as [fsz|e] eqn:Hfsz;
    [|apply unpack_uint_Raise in Hfsz as ->; done].
  cbn [mbind py_bind].
  destruct (unpack_uint 1 (read_at iso (pos + 12) 1)) as [at_|e] eqn:Hat;
    [|apply unpack_uint_Raise in Hat as ->; done].
  cbn [mbind py_bind].
  destruct (unpack_uint 1 (read_at iso (pos + 13) 1)) as [fl|e] eqn:Hfl;
    [|apply unpack_uint_Raise in Hfl as ->; done].
  cbn [mbind py_bind]. cbv zeta.
  destruct (utf8_decode (read_at iso (pos + 14) fl)) as [name|]; [|done].
  cbn [or_raise mbind py_bind]. case_decide; [done|].
  apply unpack_uint_Ret in Hfl as (Hlen1 & _ & Hflr).
  pose proof (read_at_length_inv iso (pos + 13) 1 ltac:(lia) ltac:(lia)) as Hin.
  unfold len in Hin at 1. rewrite Hlen1 in Hin. specialize (Hin eq_refl).
  pose proof (len_nonneg (read_at iso (pos + 14) fl)).
  assert (0 <= (4 - (14 + fl) mod 4) mod 4) by (Z.div_mod_to_equations; lia).
  apply IH; lia.
Qed.

(** More fuel does not change the result of a walk that ended. *)
Lemma scan_root_dir_fuel (fuel fuel' : nat) (iso : list byte) (off : Z)
    (s : pystr) (pos : Z) :
  (fuel <= fuel')%nat ->
  scan_root_dir fuel iso off s pos <> Raise OutOfFuel ->
  scan_root_dir fuel' iso off s pos = scan_root_dir fuel iso off s pos.
Proof.
  revert fuel' pos. induction fuel as [|fuel IH]; intros fuel' pos Hle Hne;
    [done|].
  destruct fuel' as [|fuel']; [lia|].
  revert Hne. rewrite !scan_root_dir_S.
  destruct (unpack_uint 2 (read_at iso pos 2)); cbn [mbind py_bind]; [|done].
  case_decide; [done|].
  destruct (unpack_uint 2 (read_at iso (pos + 2) 2)); cbn [mbind py_bind];
    [|done].
  destruct (unpack_uint 4 (read_at iso (pos + 4) 4)); cbn [mbind py_bind];
    [|done].
  destruct (unpack_uint 4 (read_at iso (pos + 8) 4)); cbn [mbind py_bind];
    [|done].
  destruct (unpack_uint 1 (read_at iso (pos + 12) 1)); cbn [mbind py_bind];
    [|done].
  destruct (unpack_uint 1 (read_at iso (pos + 13) 1)) as [fl|];
    cbn [mbind py_bind]; [|done].
  cbv zeta. destruct (utf8_decode (read_at iso (pos + 14) fl));
    cbn [or_raise mbind py_bind]; [|done].
  case_decide; [done|]. intros Hne. apply IH; [lia|done].
Qed.

Lemma len_dir_entry_bytes (e : dir_entry) :
  len (dir_entry_bytes e) = 14 + len (de_name e) + len (de_pad e).
Proof.
  unfold dir_entry_bytes. rewrite !len_app, !len_le_bytes. lia.
Qed.

(** One iteration over a well-formed entry: its sector is returned if its
    name is the one looked for, otherwise the walk goes on behind it. *)
Lemma scan_root_dir_entry (fuel : nat) (pre post : list byte) (e : dir_entry)
    (off : Z) (s : pystr) :
  dir_entry_wf e ->
  scan_root_dir (S fuel) (pre ++ dir_entry_bytes e ++ post) off s (len pre)
  = if decide (utf8_decode (de_name e) = Some s)
    then Ret (off + de_sector e * 0x800)
    else scan_root_dir fuel (pre ++ dir_entry_bytes e ++ post) off s
           (len pre + len (dir_entry_bytes e)).
Proof.
  intros (Hl & Hr & Hs & Hz & Ha & Hn & [name Hname] & Hpad).
  pose proof (len_nonneg (de_name e)) as Hn0.
  set (iso := pre ++ dir_entry_bytes e ++ post).
  assert (iso = pre ++ le_bytes 2 (de_left e) ++ le_bytes 2 (de_right e)
             ++ le_bytes 4 (de_sector e) ++ le_bytes 4 (de_size e)
             ++ le_bytes 1 (de_attribs e) ++ le_bytes 1 (len (de_name e))
             ++ de_name e ++ de_pad e ++ post) as Hiso.
  { subst iso. unfold dir_entry_bytes. by rewrite <- !app_assoc. }
  assert (read_at iso (len pre) 2 = le_bytes 2 (de_left e)) as R1.
  { rewrite Hiso. by apply read_at_app_mid_at. }
  rewrite app_assoc in Hiso.
  assert (read_at iso (len pre + 2) 2 = le_bytes 2 (de_right e)) as R2.
  { rewrite Hiso. apply read_at_app_mid_at; [|done].
    by rewrite len_app, len_le_bytes. }
  rewrite app_assoc in Hiso.
  assert (read_at iso (len pre + 4) 4 = le_bytes 4 (de_sector e)) as R3.
  { rewrite Hiso. apply read_at_app_mid_at; [|done].
    rewrite !len_app, !len_le_bytes. lia. }
  rewrite app_assoc in Hiso.
  assert (read_at iso (len pre + 8) 4 = le_bytes 4 (de_size e)) as R4.
  { rewrite Hiso. apply read_at_app_mid_at; [|done].
    rewrite !len_app, !len_le_bytes. lia. }
  rewrite app_assoc in Hiso.
  assert (read_at iso (len pre + 12) 1 = le_bytes 1 (de_attribs e)) as R5.
  { rewrite Hiso. apply read_at_app_mid_at; [|done].
    rewrite !len_app, !len_le_bytes. lia. }
  rewrite app_assoc in Hiso.
  assert (read_at iso (len pre + 13) 1 = le_bytes 1 (len (de_name e))) as R6.
  { rewrite Hiso. apply read_at_app_mid_at; [|done].
    rewrite !len_app, !len_le_bytes. lia. }
  rewrite app_assoc in Hiso.
  assert (read_at iso (len pre + 14) (len (de_name e)) = de_name e) as R7.
  { rewrite Hiso. apply read_at_app_mid_at; [|done].
    rewrite !len_app, !len_le_bytes. lia. }
  rewrite scan_root_dir_S, R1, unpack_uint_le_bytes by (simpl; lia).
  cbn [mbind py_bind]. rewrite decide_False by lia.
  rewrite R2, unpack_uint_le_bytes by done. cbn [mbind py_bind].
  rewrite R3, unpack_uint_le_bytes by done. cbn [mbind py_bind].
  rewrite R4, unpack_uint_le_bytes by done. cbn [mbind py_bind].
  rewrite R5, unpack_uint_le_bytes by done. cbn [mbind py_bind].
  rewrite R6, unpack_uint_le_bytes by (simpl; lia). cbn [mbind py_bind].
  cbv zeta. rewrite R7, Hname. cbn [or_raise mbind py_bind].
  rewrite len_dir_entry_bytes, Hpad.
  destruct (decide (name = s)) as [->|Hne].
  - by rewrite decide_True.
  - rewrite decide_False by congruence. f_equal. lia.
Qed.

(** The walk over well-formed entries returns the sector of the first one
    whose name is the one looked for; without such an entry it returns 0 at
    the end marker [0xffff]. *)
Lemma scan_root_dir_entries (es : list dir_entry) (fuel : nat)
    (pre post : list byte) (off : Z) (s : pystr) :
  Forall dir_entry_wf es ->
  (find_entry s es = None -> take 2 post = [Byte.xff; Byte.xff]) ->
  (length es < fuel)%nat ->
  scan_root_dir fuel (pre ++ flat_map dir_entry_bytes es ++ post) off s
    (len pre)
  = Ret (match find_entry s es with
         | Some e => off + de_sector e * 0x800
         | None => 0
         end).
Proof.
  revert fuel pre. induction es as [|e es IH]; intros fuel pre Hwf Hend Hfuel.
  - destruct fuel as [|fuel]; [simpl in Hfuel; lia|].
    cbn [flat_map app find_entry list_find fmap option_fmap option_map].
    specialize (Hend eq_refl).
    destruct post as [|b0 [|b1 post]]; [done..|].
    injection Hend as -> ->.
    rewrite scan_root_dir_S.
    assert (read_at (pre ++ Byte.xff :: Byte.xff :: post) (len pre) 2
            = [Byte.xff; Byte.xff]) as ->.
    { by apply (read_at_app_mid_at pre [Byte.xff; Byte.xff] post). }
    done.
  - destruct fuel as [|fuel]; [simpl in Hfuel; lia|].
    apply Forall_cons in Hwf as [Hwfe Hwf].
    cbn [flat_map]. rewrite <- app_assoc.
    rewrite scan_root_dir_entry by done.
    unfold find_entry. cbn [list_find].
    destruct (decide (utf8_decode (de_name e) = Some s)) as [Hm|Hm].
    + done.
    + rewrite app_assoc, <- len_app.
      rewrite <- (app_assoc pre). rewrite (app_assoc pre (dir_entry_bytes e)).
      rewrite IH; [| done | | simpl in Hfuel; lia].
      * unfold find_entry.
        by destruct (list_find _ es) as [[i x]|].
      * intros Hnone. apply Hend. unfold find_entry in *. cbn [list_find].
        rewrite decide_False by done.
        by destruct (list_find _ es) as [[i x]|].
Qed.

(** ** The UTF-16 codec *)

Lemma utf16_units_app (us : list Z) (bs : list byte) :
  Forall (fun u => 0 <= u < 2 ^ 16) us ->
  utf16_units (flat_map (le_bytes 2) us ++ bs) = app us <$> utf16_units bs.
Proof.
  induction 1 as [|u us Hu _ IH].
  { cbn [flat_map app]. by destruct (utf16_units bs). }
  cbn [flat_map]. rewrite <- app_assoc.
  change (le_bytes 2 u) with [byte_of_Z u; byte_of_Z (u / 256)].
  cbn [app utf16_units]. rewrite IH.
  change [byte_of_Z u; byte_of_Z (u / 256)] with (le_bytes 2 u).
  rewrite le_value_le_bytes by done.
  by destruct (utf16_units bs).
Qed.

Lemma utf16_code_units_scalar (c : Z) (r : list Z) :
  scalar_value c ->
  exists us,
    utf16_code_units c = Some us
    /\ Forall (fun u => 0 <= u < 2 ^ 16) us
    /\ utf16_join (us ++ r) = cons c <$> utf16_join r
    /\ len us = if decide (0x10000 <= c) then 2 else 1.
Proof.
  intros [Hr Hs]. unfold utf16_code_units. rewrite decide_False by done.
  destruct (decide (c < 0x10000)) as [Hlt|Hge].
  - exists [c]. split; [done|]. split; [repeat constructor; lia|].
    split; [|by rewrite decide_False by lia].
    cbn [app utf16_join]. rewrite decide_False by lia.
    by rewrite decide_False by lia.
  - eexists. split; [done|].
    assert (0 <= (c - 0x10000) / 0x400 < 0x400
            /\ 0 <= (c - 0x10000) mod 0x400 < 0x400
            /\ c = 0x10000 + (c - 0x10000) / 0x400 * 0x400
                     + (c - 0x10000) mod 0x400) as (Hq & Hm & Hc)
      by (Z.div_mod_to_equations; lia).
    split; [repeat constructor; lia|].
    split; [|by rewrite decide_True by lia].
    cbn [app utf16_join]. rewrite decide_True by lia.
    rewrite decide_True by lia. do 2 f_equal. lia.
Qed.

(** Encoding succeeds on scalar values, takes two bytes per code point and
    two more for each one above [U+FFFF], and decodes back. *)
Lemma utf16le_encode_scalar (s : pystr) :
  Forall scalar_value s ->
  exists bs us,
    utf16le_encode s = Some bs
    /\ utf16_units bs = Some us /\ utf16_join us = Some s
    /\ len bs = 2 * len s + 2 * supplementary s.
Proof.
  induction 1 as [|c s Hc _ (bs & us & He & Hu & Hj & Hl)].
  - by exists [], [].
  - destruct (utf16_code_units_scalar c us Hc) as (cu & Hcu & Hr & Hjoin & Hlen).
    exists (flat_map (le_bytes 2) cu ++ bs), (cu ++ us).
    cbn [utf16le_encode]. rewrite Hcu, He. cbn [mbind option_bind].
    split; [done|]. split; [by rewrite utf16_units_app, Hu|].
    split; [by rewrite Hjoin, Hj|].
    unfold supplementary. rewrite filter_cons, len_app, len_cons, Hl.
    assert (len (flat_map (le_bytes 2) cu) = 2 * len cu) as ->.
    { clear. induction cu as [|u cu IH]; [done|].
      cbn [flat_map]. rewrite len_app, len_le_bytes, len_cons, IH. lia. }
    rewrite Hlen. unfold supplementary.
    case_decide; [rewrite len_cons|]; lia.
Qed.

Lemma utf16le_roundtrip (s : pystr) :
  Forall scalar_value s ->
  exists bs, utf16le_encode s = Some bs /\ utf16le_decode bs = Some s.
Proof.
  intros Hs. destruct (utf16le_encode_scalar s Hs) as (bs & us & He & Hu & Hj & _).
  exists bs. split; [done|]. unfold utf16le_decode. by rewrite Hu.
Qed.

(** What decodes is made of scalar values, one for each code unit but for
    those above [U+FFFF], which take two. *)
Lemma utf16_join_scalar (us : list Z) (s : pystr) :
  Forall (fun u => 0 <= u < 2 ^ 16) us ->
  utf16_join us = Some s ->
  Forall scalar_value s /\ len us = len s + supplementary s.
Proof.
  remember (length us) as n eqn:Hn. revert us s Hn.
  induction (lt_wf n) as [n _ IH]. intros us s -> Hr.
  destruct us as [|u us]; [intros [= <-]; by split|].
  apply Forall_cons in Hr as [Hu Hr]. cbn [utf16_join].
  unfold supplementary in *.
  destruct (decide (0xD800 <= u <= 0xDBFF)) as [Hhi|Hnhi].
  - destruct us as [|v us]; [done|].
    apply Forall_cons in Hr as [Hv Hr].
    destruct (decide (0xDC00 <= v <= 0xDFFF)) as [Hlo|]; [|done].
    destruct (utf16_join us) as [s'|] eqn:Hj; [|done]. intros [= <-].
    destruct (IH (length us) ltac:(simpl; lia) us s' eq_refl Hr Hj) as [Hs Hl].
    split.
    + constructor; [|done]. unfold scalar_value. lia.
    + rewrite filter_cons, decide_True by lia. rewrite !len_cons, Hl. lia.
  - destruct (decide (0xDC00 <= u <= 0xDFFF)) as [|Hnlo]; [done|].
    destruct (utf16_join us) as [s'|] eqn:Hj; [|done]. intros [= <-].
    destruct (IH (length us) ltac:(simpl; lia) us s' eq_refl Hr Hj) as [Hs Hl].
    split.
    + constructor; [|done]. unfold scalar_value. lia.
    + rewrite filter_cons, decide_False by lia. rewrite !len_cons, Hl. lia.
Qed.

Lemma utf16_units_range (bs : list byte) (us : list Z) :
  utf16_units bs = Some us ->
  Forall (fun u => 0 <= u < 2 ^ 16) us /\ len bs = 2 * len us.
Proof.
  remember (length bs) as n eqn:Hn. revert bs us Hn.
  induction (lt_wf n) as [n _ IH]. intros bs us ->.
  destruct bs as [|b0 [|b1 bs]]; [intros [= <-]; by split|done|].
  cbn [utf16_units].
  destruct (utf16_units bs) as [us'|] eqn:Hu; [|done]. intros [= <-].
  destruct (IH (length bs) ltac:(simpl; lia) bs us' eq_refl Hu) as [Hr Hl].
  split.
  - constructor; [|done]. apply (le_value_bounds [b0; b1]).
  - rewrite !len_cons, Hl. lia.
Qed.

Lemma utf16le_decode_scalar (bs : list byte) (s : pystr) :
  utf16le_decode bs = Some s ->
  Forall scalar_value s /\ len bs = 2 * len s + 2 * supplementary s.
Proof.
  unfold utf16le_decode.
  destruct (utf16_units bs) as [us|] eqn:Hu; [|done]. cbn [mbind option_bind].
  intros Hj. apply utf16_units_range in Hu as [Hr Hl].
  destruct (utf16_join_scalar us s Hr Hj) as [Hs Hlen]. split; [done|]. lia.
Qed.

(** ** Paths *)

Lemma string_length_app (a b : string) :
  String.length (a +:+ b) = (String.length a + String.length b)%nat.
Proof.
  induction a as [|c a IH]; [done|].
  change (String c a +:+ b) with (String c (a +:+ b)). simpl. by rewrite IH.
Qed.

Lemma string_app_assoc (a b c : string) : (a +:+ b) +:+ c = a +:+ (b +:+ c).
Proof.
  induction a as [|x a IH]; [done|].
  change ((String x a +:+ b) +:+ c) with (String x ((a +:+ b) +:+ c)).
  by rewrite IH.
Qed.

(** Two paths that end in different suffixes of one length differ. *)
Lemma string_app_suffix_inj (a b t u : string) :
  String.length t = String.length u -> a +:+ t = b +:+ u -> t = u.
Proof.
  revert b. induction a as [|x a IH]; intros [|y b] Hlen.
  - done.
  - change (String y b +:+ u) with (String y (b +:+ u)).
    change ("" +:+ t) with t. intros ->.
    simpl in Hlen. rewrite string_length_app in Hlen. lia.
  - change (String x a +:+ t) with (String x (a +:+ t)).
    change ("" +:+ u) with u. intros <-.
    simpl in Hlen. rewrite string_length_app in Hlen. lia.
  - change (String x a +:+ t) with (String x (a +:+ t)).
    change (String y b +:+ u) with (String y (b +:+ u)).
    intros [= _ H]. by apply (IH b).
Qed.

Lemma in_file_name_ne_out (script_dir iso_dir : string) :
  in_file_name script_dir <> out_file_name iso_dir.
Proof.
  unfold in_file_name, out_file_name.
  change "/attach_cso.xbe"%string with ("/at" +:+ "tach_cso.xbe")%string.
  rewrite <- string_app_assoc. intros H.
  by apply string_app_suffix_inj in H.
Qed.

Lemma path_1_ne_out (base iso_dir : string) :
  path_1 base <> out_file_name iso_dir.
Proof.
  unfold path_1, out_file_name.
  change "/default.xbe"%string with ("/defau" +:+ "lt.xbe")%string.
  rewrite <- string_app_assoc. intros H.
  by apply string_app_suffix_inj in H.
Qed.

Lemma path_2_ne_out (base iso_dir : string) :
  path_2 base <> out_file_name iso_dir.
Proof.
  unfold path_2, out_file_name.
  change "/default.xbe"%string with ("/defau" +:+ "lt.xbe")%string.
  rewrite <- string_app_assoc. intros H.
  by apply string_app_suffix_inj in H.
Qed.

(** ** Where a file of the image starts *)

(** What a walk can end in. *)
Lemma scan_root_dir_result (fuel : nat) (iso : list byte) (off : Z)
    (s : pystr) (pos : Z) :
  match scan_root_dir fuel iso off s pos with
  | Ret v => v = 0 \/ exists sector, 0 <= sector < 2 ^ 32
                                     /\ v = off + sector * 0x800
  | Raise e => e = StructError \/ e = DecodeError \/ e = OutOfFuel
  end.
Proof.
  revert pos. induction fuel as [|fuel IH]; intros pos; [by right; right|].
  rewrite scan_root_dir_S.
  destruct (unpack_uint 2 (read_at iso pos 2)) as [l|e] eqn:Hl;
    [|apply unpack_uint_Raise in Hl as ->; by left].
  cbn [mbind py_bind]. case_decide; [by left|].
  destruct (unpack_uint 2 (read_at iso (pos + 2) 2)) as [r|e] eqn:Hr;
    [|apply unpack_uint_Raise in Hr as ->; by left].
  cbn [mbind py_bind].
  destruct (unpack_uint 4 (read_at iso (pos + 4) 4)) as [ss|e] eqn:Hss;
    [|apply unpack_uint_Raise in Hss as ->; by left].
  cbn [mbind py_bind].
  destruct (unpack_uint 4 (read_at iso (pos + 8) 4)) as [fsz|e] eqn:Hfsz;
    [|apply unpack_uint_Raise in Hfsz as ->; by left].
  cbn [mbind py_bind].
  destruct (unpack_uint 1 (read_at iso (pos + 12) 1)) as [at_|e] eqn:Hat;
    [|apply unpack_uint_Raise in Hat as ->; by left].
  cbn [mbind py_bind].
  destruct (unpack_uint 1 (read_at iso (pos + 13) 1)) as [fl|e] eqn:Hfl;
    [|apply unpack_uint_Raise in Hfl as ->; by left].
  cbn [mbind py_bind]. cbv zeta.
  destruct (utf8_decode (read_at iso (pos + 14) fl)) as [name|];
    [|by right; left].
  cbn [or_raise mbind py_bind]. case_decide; [|apply IH].
  right. exists ss. split; [|done].
  by apply unpack_uint_Ret in Hss as (_ & _ & ?).
Qed.

(** The part of [get_file_offset_in_iso] before the walk. *)
Lemma get_file_offset_in_iso_unfold (iso : list byte) (s : pystr) :
  get_file_offset_in_iso iso s
  = match detect_iso_type iso with
    | None => Raise SysExit
    | Some off =>
        root_sector ← unpack_uint 4 (read_at iso (off + 0x10014) 4);
        scan_root_dir (S (length iso)) iso off s (off + root_sector * 0x800)
    end.
Proof.
  unfold get_file_offset_in_iso.
  destruct (detect_iso_type iso) as [off|] eqn:Hdet; [|done].
  cbn [or_raise mbind py_bind]. unfold seek_read.
  apply detect_iso_type_Some in Hdet as (Hoff & _).
  rewrite decide_False by (destruct Hoff; lia). cbn [mbind py_bind].
  by replace (off + 65536 + 20) with (off + 0x10014) by lia.
Qed.

(** How [get_file_offset_in_iso] ends: it exits when the image has no
    signature, and otherwise returns 0 or the start of a sector, or dies on
    a read at the end of the image or on a name that is not UTF-8. *)
Lemma get_file_offset_in_iso_cases (iso : list byte) (s : pystr) :
  match get_file_offset_in_iso iso s with
  | Ret v =>
      exists off, detect_iso_type iso = Some off
        /\ (v = 0 \/ exists sector, 0 <= sector < 2 ^ 32
                                    /\ v = off + sector * 0x800)
  | Raise e =>
      match detect_iso_type iso with
      | None => e = SysExit
      | Some _ => e = StructError \/ e = DecodeError
      end
  end.
Proof.
  rewrite get_file_offset_in_iso_unfold.
  destruct (detect_iso_type iso) as [off|] eqn:Hdet; [|done].
  destruct (unpack_uint 4 (read_at iso (off + 0x10014) 4)) as [rs|e] eqn:Hrs;
    [|apply unpack_uint_Raise in Hrs as ->; by left].
  cbn [mbind py_bind].
  apply unpack_uint_Ret in Hrs as (_ & _ & Hrs).
  apply detect_iso_type_Some in Hdet as (Hoff & _).
  pose proof (scan_root_dir_result (S (length iso)) iso off s
                (off + rs * 0x800)) as Hres.
  pose proof (scan_root_dir_terminates (S (length iso)) iso off s
                (off + rs * 0x800)) as Hterm.
  destruct (scan_root_dir _ _ _ _ _) as [v|e].
  - by exists off.
  - destruct Hres as [->| [->| ->]]; [by left | by right |].
    exfalso. apply Hterm; [destruct Hoff; lia | lia | unfold len; lia | done].
Qed.

(** X7.  The [while True] walk of the root directory ends, wherever in the
    image it starts: an iteration that does not raise has read 14 bytes, so
    the length of the image bounds the number of iterations, and more fuel
    than that changes nothing.  The walk returns 0 or the start of a sector,
    or dies on a read at the end of the image ([struct.error]) or on a name
    that is not UTF-8. *)
Theorem root_dir_walk_ends (iso : list byte) (off : Z) (s : pystr) (pos : Z)
    (fuel : nat) :
  0 <= pos -> (length iso < fuel)%nat ->
  scan_root_dir fuel iso off s pos
  = scan_root_dir (S (length iso)) iso off s pos
  /\ match scan_root_dir (S (length iso)) iso off s pos with
     | Ret v => v = 0 \/ exists sector, 0 <= sector < 2 ^ 32
                                        /\ v = off + sector * 0x800
     | Raise e => e = StructError \/ e = DecodeError
     end.
Proof.
  intros Hpos Hfuel.
  pose proof (scan_root_dir_terminates (S (length iso)) iso off s pos Hpos
                ltac:(lia) ltac:(unfold len; lia)) as Hterm.
  split; [apply scan_root_dir_fuel; [lia|done]|].
  pose proof (scan_root_dir_result (S (length iso)) iso off s pos) as Hres.
  destruct (scan_root_dir _ _ _ _ _) as [v|e]; [done|].
  destruct Hres as [->| [->| ->]]; [by left | by right | done].
Qed.

Lemma len_flat_map_dir_entry_bytes (es : list dir_entry) :
  14 * len es <= len (flat_map dir_entry_bytes es).
Proof.
  induction es as [|e es IH]; [done|].
  cbn [flat_map]. rewrite len_app, len_cons, len_dir_entry_bytes.
  pose proof (len_nonneg (de_name e)). pose proof (len_nonneg (de_pad e)). lia.
Qed.

(** X8.  The walk reads the root directory as a sequence of entries and
    returns the start of the first one whose name is [search_file]; it
    returns 0 when it comes to the end marker [0xffff] without one.  The
    directory stands in the sector that the four bytes behind the signature
    name. *)
Theorem root_dir_walk_finds_first (iso pre post : list byte)
    (es : list dir_entry) (off root_sector : Z) (search_file : pystr) :
  detect_iso_type iso = Some off ->
  read_at iso (off + 0x10014) 4 = le_bytes 4 root_sector ->
  0 <= root_sector < 2 ^ 32 ->
  iso = pre ++ flat_map dir_entry_bytes es ++ post ->
  len pre = off + root_sector * 0x800 ->
  Forall dir_entry_wf es ->
  (find_entry search_file es = None -> take 2 post = [Byte.xff; Byte.xff]) ->
  get_file_offset_in_iso iso search_file
  = Ret (match find_entry search_file es with
         | Some e => off + de_sector e * 0x800
         | None => 0
         end).
Proof.
  intros Hdet Hroot Hrs Hiso Hpre Hwf Hend.
  rewrite get_file_offset_in_iso_unfold, Hdet, Hroot.
  rewrite unpack_uint_le_bytes by done. cbn [mbind py_bind].
  rewrite <- Hpre. rewrite Hiso at 2.
  apply scan_root_dir_entries; [done..|].
  pose proof (len_flat_map_dir_entry_bytes es) as Hl.
  assert (len (flat_map dir_entry_bytes es) <= len iso) as Hle.
  { rewrite Hiso, !len_app. pose proof (len_nonneg pre).
    pose proof (len_nonneg post). lia. }
  unfold len in *. lia.
Qed.

(** ** The title offset of an XBE *)

Lemma len_read_at_min (c : list byte) (pos n : Z) :
  0 <= pos -> 0 <= n ->
  len (read_at c pos n) = Z.min n (Z.max 0 (len c - pos)).
Proof.
  intros Hpos Hn. unfold read_at. case_decide.
  - unfold len at 1. simpl. lia.
  - rewrite len_take, len_drop. lia.
Qed.

Lemma get_xbe_title_offset_Raise (c : list byte) (offset : Z) (e : exn) :
  0 <= offset + 0x104 ->
  get_xbe_title_offset c offset = Raise e -> e = StructError.
Proof.
  intros Hoff. unfold get_xbe_title_offset, seek_read.
  rewrite !decide_False by lia. cbn [mbind py_bind].
  destruct (unpack_uint 4 (read_at c (offset + 260) 4)) as [b|e0] eqn:Hb;
    cbn [mbind py_bind].
  - destruct (unpack_uint 4 (read_at c (offset + 280) 4)) as [a|e1] eqn:Ha;
      cbn [mbind py_bind]; [done|].
    apply unpack_uint_Raise in Ha as ->. by intros [= <-].
  - apply unpack_uint_Raise in Hb as ->. by intros [= <-].
Qed.


(** ** The launcher *)

Lemma scalar_value_0 : scalar_value 0.
Proof. unfold scalar_value. lia. Qed.

Lemma ljust_spec (s : pystr) (width : nat) :
  (length s <= width)%nat ->
  length (ljust s width 0) = width
  /\ supplementary (ljust s width 0) = supplementary s
  /\ (Forall scalar_value s -> Forall scalar_value (ljust s width 0)).
Proof.
  intros Hle. unfold ljust. split_and!.
  - rewrite length_app, length_replicate. lia.
  - unfold supplementary. rewrite filter_app, len_app.
    assert (filter (fun c => 0x10000 <= c) (replicate (width - length s) 0)
            = []) as ->; [|unfold len; simpl; lia].
    induction (width - length s)%nat as [|k IH]; [done|].
    cbn [replicate]. rewrite filter_cons, decide_False by lia. done.
  - intros Hs. apply Forall_app. split; [done|].
    apply Forall_replicate, scalar_value_0.
Qed.

Section LauncherFacts.

Variable script_dir : string.
Variable iso_dir : string.

(** [gen_attach_xbe] leaves every file but [default.xbe] as it was. *)
Lemma gen_attach_xbe_other_files (fs : gmap string (list byte))
    (iso : list byte) (stem : pystr) (q : string) :
  q <> out_file_name iso_dir ->
  (gen_attach_xbe script_dir iso_dir fs iso stem).1 !! q = fs !! q.
Proof.
  intros Hq. unfold gen_attach_xbe.
  destruct (is_xbe_file fs (in_file_name script_dir)); cbn [negb]; [|done].
  destruct (get_xbe_title_offset _ 0) as [to|e]; [|done].
  destruct (read_default_xbe_title_from_iso iso stem) as [title|e]; [|done].
  unfold py_open_wb.
  destruct (read_head _ to) as [before|e];
    [|cbn [fst]; by rewrite lookup_insert_ne].
  destruct (utf16le_encode _) as [tb|];
    [|cbn [fst]; by rewrite lookup_insert_ne].
  unfold py_write. cbn [f_path fst].
  by rewrite !lookup_insert_ne.
Qed.

(** X10.  [gen_attach_xbe] writes to [default.xbe] beside the image and to
    nothing else, however it ends; without a template that starts with
    [XBEH] it returns at once and writes nothing at all. *)
Theorem gen_attach_xbe_frame (fs : gmap string (list byte)) (iso : list byte)
    (stem : pystr) :
  (forall q, q <> out_file_name iso_dir ->
     (gen_attach_xbe script_dir iso_dir fs iso stem).1 !! q = fs !! q)
  /\ (gen_attach_xbe script_dir iso_dir fs iso stem).1
       !! in_file_name script_dir
     = fs !! in_file_name script_dir
  /\ (is_xbe_file fs (in_file_name script_dir) = false ->
      gen_attach_xbe script_dir iso_dir fs iso stem = (fs, None)).
Proof.
  split; [intros q Hq; by apply gen_attach_xbe_other_files|].
  split; [apply gen_attach_xbe_other_files, in_file_name_ne_out|].
  intros Hno. unfold gen_attach_xbe. by rewrite Hno.
Qed.

(** What [gen_attach_xbe] writes when nothing fails: the template up to the
    title, the title, and the template from 80 bytes behind the title
    offset. *)
Lemma gen_attach_xbe_writes (fs : gmap string (list byte)) (iso : list byte)
    (stem : pystr) (template : list byte) (title_offset : Z) (title : pystr)
    (title_bytes : list byte) :
  fs !! in_file_name script_dir = Some template ->
  take 4 template = XBE_MAGIC ->
  get_xbe_title_offset template 0 = Ret title_offset ->
  0 <= title_offset ->
  read_default_xbe_title_from_iso iso stem = Ret title ->
  utf16le_encode (ljust (take 40 title) 40 0) = Some title_bytes ->
  gen_attach_xbe script_dir iso_dir fs iso stem
  = (<[out_file_name iso_dir :=
         take (Z.to_nat title_offset) template ++ title_bytes
           ++ drop (Z.to_nat (len (take (Z.to_nat title_offset) template) + 80))
                template]> fs,
     None).
Proof.
  intros Hin Hmagic Hto Hto0 Htitle Henc. unfold gen_attach_xbe.
  assert (contents fs (in_file_name script_dir) = template) as Hc
    by (unfold contents; by rewrite Hin).
  assert (is_xbe_file fs (in_file_name script_dir) = true) as ->.
  { unfold is_xbe_file. rewrite Hin. by apply bool_decide_eq_true_2. }
  cbn [negb]. rewrite Hc, Hto, Htitle. unfold py_open_wb.
  rewrite contents_insert_ne by (apply not_eq_sym, in_file_name_ne_out).
  rewrite Hc. unfold read_head. rewrite !decide_False by lia.
  change (Z.to_nat TITLE_MAX_LENGTH) with 40%nat. rewrite Henc.
  change (TITLE_MAX_LENGTH * 2) with 80.
  set (before := take (Z.to_nat title_offset) template).
  set (after := drop (Z.to_nat (len before + 80)) template).
  unfold py_write. cbn [f_path f_pos f_closed].
  rewrite !contents_insert_eq.
  rewrite (write_at_end [] before) by done. cbn [app].
  rewrite (write_at_end before title_bytes) by lia.
  rewrite (write_at_end (before ++ title_bytes) after)
    by (rewrite len_app; lia).
  rewrite !insert_insert_eq. by rewrite <- app_assoc.
Qed.

(** X11.  The launcher that [gen_attach_xbe] writes.  With a template that
    starts with [XBEH] and holds the 80 bytes of its title field, and a
    title of scalar values, [default.xbe] is the template with the field
    replaced by the title, cut to 40 code points, padded with NULs and
    encoded as UTF-16.  The field grows by two bytes for every code point
    above [U+FFFF], and so does the file: only a title within the Basic
    Multilingual Plane keeps the launcher at the size of the template. *)
Theorem gen_attach_xbe_patch (fs : gmap string (list byte)) (iso : list byte)
    (stem : pystr) (template : list byte) (title_offset : Z) (title : pystr) :
  fs !! in_file_name script_dir = Some template ->
  take 4 template = XBE_MAGIC ->
  get_xbe_title_offset template 0 = Ret title_offset ->
  0 <= title_offset -> title_offset + 80 <= len template ->
  read_default_xbe_title_from_iso iso stem = Ret title ->
  Forall scalar_value title ->
  exists title_bytes,
    utf16le_encode (ljust (take 40 title) 40 0) = Some title_bytes
    /\ len title_bytes = 80 + 2 * supplementary (take 40 title)
    /\ gen_attach_xbe script_dir iso_dir fs iso stem
       = (<[out_file_name iso_dir :=
              take (Z.to_nat title_offset) template ++ title_bytes
                ++ drop (Z.to_nat (title_offset + 80)) template]> fs,
          None)
    /\ len (take (Z.to_nat title_offset) template ++ title_bytes
              ++ drop (Z.to_nat (title_offset + 80)) template)
       = len template + 2 * supplementary (take 40 title).
Proof.
  intros Hin Hmagic Hto Hto0 Hfit Htitle Hvalid.
  assert (length (take 40 title) <= 40)%nat as Hl40
    by (rewrite length_take; lia).
  destruct (ljust_spec (take 40 title) 40 Hl40) as (Hlen & Hsupp & Hsc).
  destruct (utf16le_encode_scalar (ljust (take 40 title) 40 0))
    as (tb & us & Henc & _ & _ & Hltb).
  { apply Hsc. by apply Forall_take. }
  unfold len in Hltb at 2. rewrite Hlen, Hsupp in Hltb.
  exists tb. split; [done|]. split; [lia|].
  assert (len (take (Z.to_nat title_offset) template) = title_offset) as Hlb
    by (rewrite len_take; lia).
  split.
  - rewrite (gen_attach_xbe_writes fs iso stem template title_offset title tb)
      by done.
    by rewrite Hlb.
  - rewrite !len_app, Hlb, len_drop. lia.
Qed.

(** X12.  The round trip of the title.  When the title field of the
    template lies behind the header fields and the title has no code point
    above [U+FFFF], the launcher is an XBE of the size of the template with
    the title field at the same offset; the 80 bytes of the field decode to
    the title, cut to 40 code points and padded with NULs; and every byte
    outside the field is the byte of the template. *)
Theorem launcher_title_round_trip (fs : gmap string (list byte))
    (iso : list byte) (stem : pystr) (template : list byte)
    (title_offset : Z) (title : pystr) :
  fs !! in_file_name script_dir = Some template ->
  take 4 template = XBE_MAGIC ->
  get_xbe_title_offset template 0 = Ret title_offset ->
  0x11C <= title_offset -> title_offset + 80 <= len template ->
  read_default_xbe_title_from_iso iso stem = Ret title ->
  Forall scalar_value title -> supplementary (take 40 title) = 0 ->
  let r := gen_attach_xbe script_dir iso_dir fs iso stem in
  let launcher := contents r.1 (out_file_name iso_dir) in
  r.2 = None
  /\ is_xbe_file r.1 (out_file_name iso_dir) = true
  /\ len launcher = len template
  /\ get_xbe_title_offset launcher 0 = Ret title_offset
  /\ utf16le_decode (read_at launcher title_offset 80)
     = Some (ljust (take 40 title) 40 0)
  /\ forall pos n,
       0 <= pos -> 0 <= n ->
       pos + n <= title_offset \/ title_offset + 80 <= pos ->
       read_at launcher pos n = read_at template pos n.
Proof.
  intros Hin Hmagic Hto Hto0 Hfit Htitle Hvalid Hbmp r launcher.
  assert (length (take 40 title) <= 40)%nat as Hl40
    by (rewrite length_take; lia).
  destruct (ljust_spec (take 40 title) 40 Hl40) as (Hlen40 & Hsupp & Hsc).
  destruct (utf16le_encode_scalar (ljust (take 40 title) 40 0))
    as (tb & us & Henc & Hu & Hj & Hltb).
  { apply Hsc. by apply Forall_take. }
  unfold len in Hltb at 2. rewrite Hlen40, Hsupp, Hbmp in Hltb.
  assert (utf16le_decode tb = Some (ljust (take 40 title) 40 0)) as Hdec
    by (unfold utf16le_decode; by rewrite Hu).
  pose proof (gen_attach_xbe_writes fs iso stem template title_offset title tb
                Hin Hmagic Hto ltac:(lia) Htitle Henc) as Hrun.
  set (before := take (Z.to_nat title_offset) template) in *.
  assert (len before = title_offset) as Hlb
    by (subst before; rewrite len_take; lia).
  rewrite Hlb in Hrun.
  set (after := drop (Z.to_nat (title_offset + 80)) template) in *.
  assert (launcher = before ++ tb ++ after) as Hl.
  { subst launcher r. rewrite Hrun. cbn [fst]. by rewrite contents_insert_eq. }
  assert (len (before ++ tb ++ after) = len template) as Hlen.
  { rewrite !len_app, Hlb. subst after. rewrite len_drop. lia. }
  assert (template = before ++ drop (Z.to_nat title_offset) template) as Ht1
    by (subst before; by rewrite take_drop).
  assert (template = take (Z.to_nat (title_offset + 80)) template ++ after)
    as Ht2 by (subst after; by rewrite take_drop).
  assert (len (take (Z.to_nat (title_offset + 80)) template)
          = title_offset + 80) as Hlt by (rewrite len_take; lia).
  assert (forall pos n, 0 <= pos -> 0 <= n ->
            pos + n <= title_offset \/ title_offset + 80 <= pos ->
            read_at launcher pos n = read_at template pos n) as Hsame.
  { intros pos n Hpos Hn [Hlow|Hhigh].
    - rewrite Hl, Ht1. by rewrite !read_at_app_l by lia.
    - rewrite Hl, Ht2, app_assoc.
      replace pos with (len (before ++ tb) + (pos - (title_offset + 80))) at 1
        by (rewrite len_app; lia).
      replace pos
        with (len (take (Z.to_nat (title_offset + 80)) template)
              + (pos - (title_offset + 80))) at 2 by lia.
      by rewrite !read_at_app_r by lia. }
  split; [by subst r; rewrite Hrun|].
  split.
  { subst r. rewrite Hrun. cbn [fst]. unfold is_xbe_file.
    rewrite lookup_insert_eq. apply bool_decide_eq_true_2.
    assert (4 <= length before)%nat as H4 by (unfold len in Hlb; lia).
    rewrite take_app_le by done.
    rewrite Ht1, take_app_le in Hmagic by done. done. }
  split; [rewrite Hl; lia|].
  split.
  { revert Hto. unfold get_xbe_title_offset, seek_read.
    rewrite !decide_False by lia. cbn [mbind py_bind].
    rewrite !(Hsame _ 4) by lia. done. }
  split; [|done].
  rewrite Hl. by rewrite read_at_app_mid_at by lia.
Qed.

End LauncherFacts.

(** ** The title *)

(** The title is the stem of the file name or was decoded from the image,
    and then it is made of scalar values and fits 40 code units; the
    function exits exactly on an image without a signature. *)
Lemma read_default_xbe_title_from_iso_cases (iso : list byte) (stem : pystr) :
  match read_default_xbe_title_from_iso iso stem with
  | Ret title =>
      is_Some (detect_iso_type iso)
      /\ (title = stem
          \/ Forall scalar_value title
             /\ len title + supplementary title <= 40)
  | Raise e =>
      match detect_iso_type iso with
      | None => e = SysExit
      | Some _ => e = StructError \/ e = DecodeError \/ e = SeekError
      end
  end.
Proof.
  unfold read_default_xbe_title_from_iso, get_default_xbe_file_offset_in_iso.
  pose proof (get_file_offset_in_iso_cases iso default_xbe_name) as Hends.
  destruct (get_file_offset_in_iso iso default_xbe_name) as [xo|e];
    cbn [mbind py_bind].
  - destruct Hends as (off & Hdet & Hxo). rewrite Hdet.
    case_decide as Hz; [split; [done|by left]|].
    apply detect_iso_type_Some in Hdet as (Hoff & _).
    assert (0 <= xo) as Hxo0.
    { destruct Hxo as [->|(sector & Hs & ->)]; [done|]. destruct Hoff; lia. }
    destruct (get_xbe_title_offset iso xo) as [to|e] eqn:Hto;
      cbn [mbind py_bind].
    + unfold seek_read. case_decide; cbn [mbind py_bind]; [by right; right|].
      destruct (utf16le_decode _) as [title|] eqn:Hdec;
        cbn [or_raise]; [|by right; left].
      split; [done|]. right.
      apply utf16le_decode_scalar in Hdec as [Hs Hl]. split; [done|].
      pose proof (len_read_at_le iso to (TITLE_MAX_LENGTH * 2) ltac:(done)).
      unfold TITLE_MAX_LENGTH in *. lia.
    + apply get_xbe_title_offset_Raise in Hto as ->; [by left | lia].
  - destruct (detect_iso_type iso); [|done].
    destruct Hends as [->| ->]; [by left | by right; left].
Qed.

Section MainFacts.

Variable compress : list byte -> list byte.
Variable base : string.
Variable script_dir : string.
Variable iso_dir : string.

(** The exceptions [gen_attach_xbe] can end in on an image with a
    signature. *)
Lemma gen_attach_xbe_exceptions (fs fs' : gmap string (list byte))
    (iso : list byte) (stem : pystr) (e : exn) :
  is_Some (detect_iso_type iso) ->
  gen_attach_xbe script_dir iso_dir fs iso stem = (fs', Some e) ->
  e <> SysExit /\ e <> OutOfFuel.
Proof.
  intros [off Hdet]. unfold gen_attach_xbe.
  destruct (is_xbe_file fs (in_file_name script_dir)); cbn [negb]; [|done].
  destruct (get_xbe_title_offset _ 0) as [to|e0] eqn:Hto.
  2:{ apply get_xbe_title_offset_Raise in Hto as ->; [|done].
      by intros [= _ <-]. }
  pose proof (read_default_xbe_title_from_iso_cases iso stem) as Ht.
  destruct (read_default_xbe_title_from_iso iso stem) as [title|e0].
  2:{ rewrite Hdet in Ht. intros [= _ <-].
      destruct Ht as [->| [->| ->]]; done. }
  unfold py_open_wb, read_head.
  case_decide; [by intros [= _ <-]|].
  case_decide.
  - destruct (utf16le_encode _); [done|]. by intros [= _ <-].
  - destruct (utf16le_encode _); [done|]. by intros [= _ <-].
Qed.


End MainFacts.

(** ** The title of an image *)

(** The walk for [default.xbe] in an image whose root directory is the
    sequence of entries [es]. *)
Lemma default_xbe_offset_of_dir (iso pre post : list byte)
    (es : list dir_entry) (off root_sector : Z) :
  detect_iso_type iso = Some off ->
  read_at iso (off + 0x10014) 4 = le_bytes 4 root_sector ->
  0 <= root_sector < 2 ^ 32 ->
  iso = pre ++ flat_map dir_entry_bytes es ++ post ->
  len pre = off + root_sector * 0x800 ->
  Forall dir_entry_wf es ->
  (find_entry default_xbe_name es = None ->
   take 2 post = [Byte.xff; Byte.xff]) ->
  get_default_xbe_file_offset_in_iso iso
  = Ret (match find_entry default_xbe_name es with
         | Some e => off + de_sector e * 0x800
         | None => 0
         end).
Proof.
  intros Hdet Hroot Hrs Hiso Hpre Hwf Hend.
  unfold get_default_xbe_file_offset_in_iso.
  rewrite get_file_offset_in_iso_unfold, Hdet, Hroot.
  rewrite unpack_uint_le_bytes by done. cbn [mbind py_bind].
  rewrite <- Hpre. rewrite Hiso at 2.
  apply scan_root_dir_entries; [done..|].
  pose proof (len_flat_map_dir_entry_bytes es) as Hl.
  assert (len (flat_map dir_entry_bytes es) <= len iso) as Hle.
  { rewrite Hiso, !len_app. pose proof (len_nonneg pre).
    pose proof (len_nonneg post). lia. }
  unfold len in *. lia.
Qed.

Lemma find_entry_Some (s : pystr) (es : list dir_entry) (e : dir_entry) :
  find_entry s es = Some e -> e ∈ es /\ utf8_decode (de_name e) = Some s.
Proof.
  unfold find_entry.
  destruct (list_find _ es) as [[i x]|] eqn:Hf; [|done]. intros [= <-].
  apply list_find_Some in Hf as (Hi & Hx & _).
  split; [by eapply list_elem_of_lookup_2|done].
Qed.

(** X17.  The title comes from the image's own [default.xbe]: when the root
    directory has an entry of that name, the XBE in its sector has the two
    address fields of its header, and the 80 bytes at the title offset are
    the UTF-16 of [title], then [read_default_xbe_title_from_iso] returns
    [title]. *)
Theorem title_read_from_image (iso pre post : list byte)
    (es : list dir_entry) (off root_sector : Z) (stem : pystr)
    (e : dir_entry) (base_addr cert_addr : Z) (title : pystr) :
  detect_iso_type iso = Some off ->
  read_at iso (off + 0x10014) 4 = le_bytes 4 root_sector ->
  0 <= root_sector < 2 ^ 32 ->
  iso = pre ++ flat_map dir_entry_bytes es ++ post ->
  len pre = off + root_sector * 0x800 ->
  Forall dir_entry_wf es ->
  find_entry default_xbe_name es = Some e ->
  off + de_sector e * 0x800 <> 0 ->
  read_at iso (off + de_sector e * 0x800 + 0x104) 4 = le_bytes 4 base_addr ->
  0 <= base_addr < 2 ^ 32 ->
  read_at iso (off + de_sector e * 0x800 + 0x118) 4 = le_bytes 4 cert_addr ->
  0 <= cert_addr < 2 ^ 32 ->
  0 <= off + de_sector e * 0x800 + (cert_addr - base_addr + 0xc) ->
  Forall scalar_value title ->
  utf16le_encode title
  = Some (read_at iso
            (off + de_sector e * 0x800 + (cert_addr - base_addr + 0xc)) 80) ->
  read_default_xbe_title_from_iso iso stem = Ret title.
Proof.
  intros Hdet Hroot Hrs Hiso Hpre Hwf Hfind Hxo Hb Hbr Hc Hcr Hto Hsc Henc.
  unfold read_default_xbe_title_from_iso.
  rewrite (default_xbe_offset_of_dir iso pre post es off root_sector)
    by (try done; by rewrite Hfind).
  rewrite Hfind. cbn [mbind py_bind]. rewrite decide_False by done.
  assert (0 <= off + de_sector e * 0x800) as Hxo0.
  { apply detect_iso_type_Some in Hdet as (Hoff & _).
    apply find_entry_Some in Hfind as [Hin _].
    assert (0 <= de_sector e); [|destruct Hoff; lia].
    rewrite Forall_forall in Hwf.
    by destruct (Hwf e Hin) as (_ & _ & [? _] & _). }
  unfold get_xbe_title_offset, seek_read.
  rewrite !decide_False by lia. cbn [mbind py_bind].
  rewrite Hb, unpack_uint_le_bytes by done. cbn [mbind py_bind].
  rewrite Hc, unpack_uint_le_bytes by done. cbn [mbind py_bind].
  rewrite decide_False by lia. cbn [mbind py_bind].
  change (TITLE_MAX_LENGTH * 2) with 80.
  destruct (utf16le_roundtrip title Hsc) as (bs & Henc' & Hdec).
  rewrite Henc in Henc'. injection Henc' as <-. by rewrite Hdec.
Qed.

(** X18.  Without a [default.xbe] in the root directory the title is the
    stem of the file name of the image.  It is the stem as well when the
    entry is there but starts at byte 0 of the image, which the code reads
    as not found. *)
Theorem title_falls_back_to_stem (iso pre post : list byte)
    (es : list dir_entry) (off root_sector : Z) (stem : pystr) :
  detect_iso_type iso = Some off ->
  read_at iso (off + 0x10014) 4 = le_bytes 4 root_sector ->
  0 <= root_sector < 2 ^ 32 ->
  iso = pre ++ flat_map dir_entry_bytes es ++ post ->
  len pre = off + root_sector * 0x800 ->
  Forall dir_entry_wf es ->
  match find_entry default_xbe_name es with
  | Some e => off + de_sector e * 0x800 = 0
  | None => take 2 post = [Byte.xff; Byte.xff]
  end ->
  read_default_xbe_title_from_iso iso stem = Ret stem.
Proof.
  intros Hdet Hroot Hrs Hiso Hpre Hwf Hcase.
  unfold read_default_xbe_title_from_iso.
  rewrite (default_xbe_offset_of_dir iso pre post es off root_sector)
    by (try done; intros Hn; by rewrite Hn in Hcase).
  destruct (find_entry default_xbe_name es) as [e|]; cbn [mbind py_bind].
  - by rewrite decide_True.
  - by rewrite decide_True.
Qed.

(** ** The launcher of a small image *)

Lemma demo_iso_detected : detect_iso_type demo_iso = Some 0.
Proof. by vm_compute. Qed.

Lemma demo_dir_wf : Forall dir_entry_wf demo_dir.
Proof.
  repeat constructor; try (by vm_compute); try (by eexists; vm_compute).
Qed.

Lemma demo_iso_title :
  read_default_xbe_title_from_iso demo_iso []
  = Ret (demo_title ++ replicate 36 0).
Proof. by vm_compute. Qed.

Lemma demo_title_scalar : Forall scalar_value (demo_title ++ replicate 36 0).
Proof.
  apply Forall_forall. intros c Hc.
  assert (0 <= c < 0xD800) as Hr; [|unfold scalar_value; lia].
  revert c Hc. apply Forall_forall. by repeat constructor.
Qed.

Lemma demo_template_offset : get_xbe_title_offset demo_template 0 = Ret 0x184.
Proof. by vm_compute. Qed.

(** X8 on the small image: [default.xbe] is the second entry of the root
    directory and starts in sector 34. *)
Lemma root_dir_walk_finds_first_witness :
  detect_iso_type demo_iso = Some 0
  /\ read_at demo_iso (0 + 0x10014) 4 = le_bytes 4 33
  /\ 0 <= 33 < 2 ^ 32
  /\ demo_iso = demo_iso_pre ++ flat_map dir_entry_bytes demo_dir ++ demo_iso_post
  /\ len demo_iso_pre = 0 + 33 * 0x800
  /\ Forall dir_entry_wf demo_dir
  /\ (find_entry default_xbe_name demo_dir = None ->
      take 2 demo_iso_post = [Byte.xff; Byte.xff])
  /\ get_file_offset_in_iso demo_iso default_xbe_name = Ret (0 + 34 * 0x800).
Proof.
  assert (read_at demo_iso (0 + 0x10014) 4 = le_bytes 4 33) as Hroot
    by (by vm_compute).
  assert (len demo_iso_pre = 0 + 33 * 0x800) as Hpre by (by vm_compute).
  split; [exact demo_iso_detected|]. split; [exact Hroot|]. split; [lia|].
  split; [reflexivity|]. split; [exact Hpre|]. split; [exact demo_dir_wf|].
  split; [done|].
  exact (root_dir_walk_finds_first demo_iso demo_iso_pre demo_iso_post demo_dir
           0 33 default_xbe_name demo_iso_detected Hroot ltac:(lia) eq_refl
           Hpre demo_dir_wf ltac:(done)).
Defined.

(** X7 on the small image, from the start of its root directory. *)
Lemma root_dir_walk_ends_witness :
  0 <= 33 * 0x800
  /\ (length demo_iso < S (S (length demo_iso)))%nat
  /\ scan_root_dir (S (S (length demo_iso))) demo_iso 0 default_xbe_name
       (33 * 0x800)
     = scan_root_dir (S (length demo_iso)) demo_iso 0 default_xbe_name
         (33 * 0x800)
  /\ match scan_root_dir (S (length demo_iso)) demo_iso 0 default_xbe_name
             (33 * 0x800) with
     | Ret v => v = 0 \/ exists sector, 0 <= sector < 2 ^ 32
                                        /\ v = 0 + sector * 0x800
     | Raise e => e = StructError \/ e = DecodeError
     end.
Proof.
  split; [lia|]. split; [lia|].
  apply (root_dir_walk_ends demo_iso 0 default_xbe_name (33 * 0x800)); lia.
Defined.


(** X11 on the small image and the template. *)
Lemma gen_attach_xbe_patch_witness :
  demo_fs !! in_file_name "/opt/cso" = Some demo_template
  /\ take 4 demo_template = XBE_MAGIC
  /\ get_xbe_title_offset demo_template 0 = Ret 0x184
  /\ 0 <= 0x184 /\ 0x184 + 80 <= len demo_template
  /\ read_default_xbe_title_from_iso demo_iso []
     = Ret (demo_title ++ replicate 36 0)
  /\ Forall scalar_value (demo_title ++ replicate 36 0)
  /\ exists title_bytes,
       utf16le_encode (ljust (take 40 (demo_title ++ replicate 36 0)) 40 0)
       = Some title_bytes
       /\ len title_bytes
          = 80 + 2 * supplementary (take 40 (demo_title ++ replicate 36 0))
       /\ gen_attach_xbe "/opt/cso" "/games" demo_fs demo_iso []
          = (<[out_file_name "/games" :=
                 take (Z.to_nat 0x184) demo_template ++ title_bytes
                   ++ drop (Z.to_nat (0x184 + 80)) demo_template]> demo_fs,
             None)
       /\ len (take (Z.to_nat 0x184) demo_template ++ title_bytes
                 ++ drop (Z.to_nat (0x184 + 80)) demo_template)
          = len demo_template
            + 2 * supplementary (take 40 (demo_title ++ replicate 36 0)).
Proof.
  assert (demo_fs !! in_file_name "/opt/cso" = Some demo_template) as Hin
    by apply lookup_singleton_eq.
  assert (0x184 + 80 <= len demo_template) as Hfit by (by vm_compute).
  split; [exact Hin|]. split; [reflexivity|].
  split; [exact demo_template_offset|]. split; [lia|]. split; [exact Hfit|].
  split; [exact demo_iso_title|]. split; [exact demo_title_scalar|].
  exact (gen_attach_xbe_patch "/opt/cso" "/games" demo_fs demo_iso []
           demo_template 0x184 (demo_title ++ replicate 36 0) Hin eq_refl
           demo_template_offset ltac:(lia) Hfit demo_iso_title
           demo_title_scalar).
Defined.

(** X12 on the small image and the template: the launcher carries the title
    [Halo]. *)
Lemma launcher_title_round_trip_witness :
  demo_fs !! in_file_name "/opt/cso" = Some demo_template
  /\ take 4 demo_template = XBE_MAGIC
  /\ get_xbe_title_offset demo_template 0 = Ret 0x184
  /\ 0x11C <= 0x184 /\ 0x184 + 80 <= len demo_template
  /\ read_default_xbe_title_from_iso demo_iso []
     = Ret (demo_title ++ replicate 36 0)
  /\ Forall scalar_value (demo_title ++ replicate 36 0)
  /\ supplementary (take 40 (demo_title ++ replicate 36 0)) = 0
  /\ utf16le_decode
       (read_at
          (contents (gen_attach_xbe "/opt/cso" "/games" demo_fs demo_iso []).1
             (out_file_name "/games")) 0x184 80)
     = Some (ljust (take 40 (demo_title ++ replicate 36 0)) 40 0).
Proof.
  assert (demo_fs !! in_file_name "/opt/cso" = Some demo_template) as Hin
    by apply lookup_singleton_eq.
  assert (0x184 + 80 <= len demo_template) as Hfit by (by vm_compute).
  assert (supplementary (take 40 (demo_title ++ replicate 36 0)) = 0) as Hbmp
    by reflexivity.
  split; [exact Hin|]. split; [reflexivity|].
  split; [exact demo_template_offset|]. split; [lia|]. split; [exact Hfit|].
  split; [exact demo_iso_title|]. split; [exact demo_title_scalar|].
  split; [exact Hbmp|].
  exact (proj1 (proj2 (proj2 (proj2 (proj2
           (launcher_title_round_trip "/opt/cso" "/games" demo_fs demo_iso []
              demo_template 0x184 (demo_title ++ replicate 36 0) Hin eq_refl
              demo_template_offset ltac:(lia) Hfit demo_iso_title
              demo_title_scalar Hbmp)))))).
Defined.

(** The entry of [default.xbe] in the root directory of the small image. *)
Lemma demo_dir_default_xbe :
  find_entry default_xbe_name demo_dir
  = Some demo_default_xbe.
Proof. vm_compute. reflexivity. Qed.

Lemma demo_iso_root : read_at demo_iso (0 + 0x10014) 4 = le_bytes 4 33.
Proof. vm_compute. reflexivity. Qed.

Lemma demo_iso_pre_len : len demo_iso_pre = 0 + 33 * 0x800.
Proof. vm_compute. reflexivity. Qed.

Lemma demo_iso_base_addr :
  read_at demo_iso (0 + 34 * 0x800 + 0x104) 4 = le_bytes 4 0x10000.
Proof. vm_compute. reflexivity. Qed.

Lemma demo_iso_cert_addr :
  read_at demo_iso (0 + 34 * 0x800 + 0x118) 4 = le_bytes 4 0x10178.
Proof. vm_compute. reflexivity. Qed.

Lemma demo_iso_title_field :
  utf16le_encode (demo_title ++ replicate 36 0)
  = Some (read_at demo_iso (0 + 34 * 0x800 + (0x10178 - 0x10000 + 0xc)) 80).
Proof. vm_compute. reflexivity. Qed.

(** X17 on the small image: the title of its [default.xbe] is [Halo],
    followed by the NULs of the field. *)
Lemma title_read_from_image_witness :
  detect_iso_type demo_iso = Some 0
  /\ read_at demo_iso (0 + 0x10014) 4 = le_bytes 4 33
  /\ 0 <= 33 < 2 ^ 32
  /\ len demo_iso_pre = 0 + 33 * 0x800
  /\ Forall dir_entry_wf demo_dir
  /\ 0 + 34 * 0x800 <> 0
  /\ read_at demo_iso (0 + 34 * 0x800 + 0x104) 4 = le_bytes 4 0x10000
  /\ 0 <= 0x10000 < 2 ^ 32
  /\ read_at demo_iso (0 + 34 * 0x800 + 0x118) 4 = le_bytes 4 0x10178
  /\ 0 <= 0x10178 < 2 ^ 32
  /\ 0 <= 0 + 34 * 0x800 + (0x10178 - 0x10000 + 0xc)
  /\ Forall scalar_value (demo_title ++ replicate 36 0)
  /\ read_default_xbe_title_from_iso demo_iso [72; 97; 108; 111]
     = Ret (demo_title ++ replicate 36 0).
Proof.
  split; [exact demo_iso_detected|]. split; [exact demo_iso_root|].
  split; [lia|]. split; [exact demo_iso_pre_len|].
  split; [exact demo_dir_wf|]. split; [lia|].
  split; [exact demo_iso_base_addr|]. split; [lia|].
  split; [exact demo_iso_cert_addr|]. split; [lia|]. split; [lia|].
  split; [exact demo_title_scalar|].
  exact (title_read_from_image demo_iso demo_iso_pre demo_iso_post demo_dir
           0 33 [72; 97; 108; 111] demo_default_xbe 0x10000 0x10178
           (demo_title ++ replicate 36 0) demo_iso_detected demo_iso_root
           ltac:(lia) eq_refl demo_iso_pre_len demo_dir_wf
           demo_dir_default_xbe ltac:(cbn [de_sector demo_default_xbe]; lia)
           demo_iso_base_addr ltac:(lia) demo_iso_cert_addr ltac:(lia)
           ltac:(cbn [de_sector demo_default_xbe]; lia) demo_title_scalar
           demo_iso_title_field).
Defined.

Lemma demo_iso_plain_detected : detect_iso_type demo_iso_plain = Some 0.
Proof. vm_compute. reflexivity. Qed.

Lemma demo_iso_plain_root :
  read_at demo_iso_plain (0 + 0x10014) 4 = le_bytes 4 33.
Proof. vm_compute. reflexivity. Qed.

Lemma demo_iso_plain_no_xbe :
  match find_entry default_xbe_name [demo_game_bin] with
  | Some e => 0 + de_sector e * 0x800 = 0
  | None => take 2 demo_iso_post = [Byte.xff; Byte.xff]
  end.
Proof. vm_compute. reflexivity. Qed.

(** X18 on the image without [default.xbe], named [Halo.iso]. *)
Lemma title_falls_back_to_stem_witness :
  detect_iso_type demo_iso_plain = Some 0
  /\ read_at demo_iso_plain (0 + 0x10014) 4 = le_bytes 4 33
  /\ 0 <= 33 < 2 ^ 32
  /\ len demo_iso_pre = 0 + 33 * 0x800
  /\ Forall dir_entry_wf [demo_game_bin]
  /\ match find_entry default_xbe_name [demo_game_bin] with
     | Some e => 0 + de_sector e * 0x800 = 0
     | None => take 2 demo_iso_post = [Byte.xff; Byte.xff]
     end
  /\ read_default_xbe_title_from_iso demo_iso_plain [72; 97; 108; 111]
     = Ret [72; 97; 108; 111].
Proof.
  assert (Forall dir_entry_wf [demo_game_bin]) as Hwf
    by (apply Forall_singleton; exact (Forall_inv demo_dir_wf)).
  split; [exact demo_iso_plain_detected|]. split; [exact demo_iso_plain_root|].
  split; [lia|]. split; [exact demo_iso_pre_len|]. split; [exact Hwf|].
  split; [exact demo_iso_plain_no_xbe|].
  exact (title_falls_back_to_stem demo_iso_plain demo_iso_pre demo_iso_post
           [demo_game_bin] 0 33 [72; 97; 108; 111] demo_iso_plain_detected
           demo_iso_plain_root ltac:(lia) eq_refl demo_iso_pre_len Hwf
           demo_iso_plain_no_xbe).
Defined.
